(** * qr-present: a shallow embedding of the three batch scripts

    - [build_excel_from_images.py]  (module [BuildExcel])
    - [build_site.py]               (module [BuildSite])
    - [rename_and_convert_to_jpeg.py] (module [Rename])

    Conventions of the embedding.

    - A Python [str] is a Rocq [string] that holds the UTF-8 encoding of the
      text.  ASCII text is therefore character for character the Python text.
      A Python raw string literal [r"..."] and a Rocq string literal agree
      byte for byte (neither interprets the backslash), so the regular
      expressions below are the ones of the source, copied verbatim.
    - Python exceptions are values of type [exn]; fallible code returns
      [result].
    - The operating system (directory listings, file metadata, the output of
      the [mdls] tool, the local time zone) and the third-party libraries
      (Pillow's decoder, pandas' date parser, the QR encoder) are inputs of
      the model: records describing the files, and Section variables. *)

From Stdlib Require Import ZArith Lia Ascii String List Sorting.Sorted Permutation.
From stdpp Require Import base option gmap strings list fin_maps.

(** ** Python built-ins on strings *)
Module Py.

(** Characters written by code (no string literal holds a quote). *)
Definition dquote : string := String (ascii_of_nat 34) "".
Definition TAB : string := String (ascii_of_nat 9) "".
Definition NL : ascii := ascii_of_nat 10.

Fixpoint concat (l : list string) : string :=
  match l with
  | [] => ""
  | x :: l' => x +:+ concat l'
  end.

(** [s[n:]] *)
Fixpoint drop (n : nat) (s : string) : string :=
  match n, s with
  | O, _ => s
  | S n', String _ s' => drop n' s'
  | S _, "" => ""
  end.

(** [s[:n]] *)
Fixpoint take (n : nat) (s : string) : string :=
  match n, s with
  | O, _ => ""
  | S n', String c s' => String c (take n' s')
  | S _, "" => ""
  end.

(** The text between a position [s] and a later position [s'] of the same
    string, both given as suffixes. *)
Definition consumed (s s' : string) : string :=
  take (String.length s - String.length s') s.

Fixpoint repeat_char (c : ascii) (n : nat) : string :=
  match n with
  | O => ""
  | S n' => String c (repeat_char c n')
  end.

(** [old in s] at the head of [s]: [s.startswith(old)]. *)
Definition startswith (old s : string) : bool := String.prefix old s.

(** [s.replace(old, new)] for a non-empty [old]: left to right, without
    overlap.  [skip] counts the characters of a match still to be dropped. *)
Fixpoint replace_go (old new : string) (skip : nat) (s : string) : string :=
  match s with
  | "" => ""
  | String c s' =>
      match skip with
      | S k => replace_go old new k s'
      | O =>
          if startswith old s
          then new +:+ replace_go old new (String.length old - 1) s'
          else String c (replace_go old new 0 s')
      end
  end.

Definition replace (old new s : string) : string := replace_go old new 0 s.

(** Whitespace as [str.strip()] and [int()] see it, on ASCII. *)
Definition is_space (c : ascii) : bool :=
  let n := nat_of_ascii c in
  ((9 <=? n) && (n <=? 13)) || ((28 <=? n) && (n <=? 32)).

Fixpoint lstrip (s : string) : string :=
  match s with
  | String c s' => if is_space c then lstrip s' else s
  | "" => ""
  end.

(** [rstrip] keeps a character when it is not a space or something that is
    kept follows it. *)
Fixpoint rstrip (s : string) : string :=
  match s with
  | "" => ""
  | String c s' =>
      match rstrip s' with
      | "" => if is_space c then "" else String c ""
      | r => String c r
      end
  end.

Definition strip (s : string) : string := rstrip (lstrip s).

(** [str.lower()] on ASCII letters; other bytes are kept. *)
Definition lower_char (c : ascii) : ascii :=
  let n := nat_of_ascii c in
  if (65 <=? n) && (n <=? 90) then ascii_of_nat (n + 32) else c.

Fixpoint lower (s : string) : string :=
  match s with
  | "" => ""
  | String c s' => String (lower_char c) (lower s')
  end.

(** *** Decimal numerals: [str(n)], [int(s)], [s.zfill(w)] *)

Definition digit_char (d : nat) : ascii := ascii_of_nat (48 + d).

Definition is_digit (c : ascii) : bool :=
  let n := nat_of_ascii c in (48 <=? n) && (n <=? 57).

Definition digit_val (c : ascii) : nat := nat_of_ascii c - 48.

(** The digits of [n], most significant first, in front of [acc]. *)
Fixpoint digits_fuel (fuel n : nat) (acc : string) : string :=
  match fuel with
  | O => acc
  | S f =>
      let acc' := String (digit_char (n mod 10)) acc in
      if n <? 10 then acc' else digits_fuel f (n / 10) acc'
  end.

(** [str(n)] for a non-negative [int]. *)
Definition str_nat (n : nat) : string := digits_fuel (S n) n "".

(** [str(z)] for an [int]. *)
Definition str_Z (z : Z) : string :=
  if (z <? 0)%Z then String "-" (str_nat (Z.abs_nat z)) else str_nat (Z.abs_nat z).

(** [s.zfill(width)]: zeros on the left, after a leading sign. *)
Definition zfill (width : nat) (s : string) : string :=
  let fill := repeat_char "0" (width - String.length s) in
  match s with
  | String c s' =>
      if (Ascii.eqb c "+" || Ascii.eqb c "-")%bool
      then String c (fill +:+ s')
      else fill +:+ s
  | "" => fill
  end.

(** The digits of an [int()] literal after the sign: decimal digits, with
    single underscores between two digits. [prev] tells whether the previous
    character was a digit. *)
Fixpoint int_digits (s : string) (prev : bool) (acc : nat) : option nat :=
  match s with
  | "" => if prev then Some acc else None
  | String c s' =>
      if is_digit c then int_digits s' true (10 * acc + digit_val c)
      else if Ascii.eqb c "_" then
        (if prev then
           match s' with
           | String c' _ => if is_digit c' then int_digits s' false acc else None
           | "" => None
           end
         else None)
      else None
  end.

(** [int(s)]; [None] is the [ValueError]. *)
Definition int (s : string) : option Z :=
  match strip s with
  | String "-" s' => (fun n => (- Z.of_nat n)%Z) <$> int_digits s' false 0
  | String "+" s' => Z.of_nat <$> int_digits s' false 0
  | s' => Z.of_nat <$> int_digits s' false 0
  end.

End Py.


(** ** The part of Python's [re] the scripts use

    Patterns are compiled from their source text by [compile]; matching is
    the backtracking search of [re]: alternatives are tried in the order of
    the pattern, a greedy repetition tries one more iteration first, a lazy
    one tries to stop first.  The continuation [k] is the rest of the
    pattern.  Constructs that no pattern of the repository uses ([|], [^],
    [$], [?], ranges and negation in sets, named groups) are rejected by
    [compile].  [\d] stands for the ASCII digits. *)
Module Re.

Inductive regex : Type :=
| Lit (c : ascii)                  (* a literal character *)
| Any                              (* .   any character but a newline *)
| Digit                            (* \d *)
| CharSet (cs : list ascii)        (* [...] *)
| Eps
| Cat (r1 r2 : regex)
| Star (greedy : bool) (r : regex) (* r* and r*? *)
| Rep (n : nat) (r : regex)        (* r{n} *)
| Group (i : nat) (r : regex).     (* (r), the i-th capturing group *)

Inductive quant := QStar (greedy : bool) | QPlus (greedy : bool) | QRep (n : nat).

Definition apply_quant (q : option quant) (r : regex) : regex :=
  match q with
  | None => r
  | Some (QStar g) => Star g r
  | Some (QPlus g) => Cat r (Star g r)
  | Some (QRep n) => Rep n r
  end.

Definition is_alnum (c : ascii) : bool :=
  let n := nat_of_ascii c in
  ((48 <=? n) && (n <=? 57)) || ((65 <=? n) && (n <=? 90)) || ((97 <=? n) && (n <=? 122)).

Definition is_quant_char (c : ascii) : bool :=
  Ascii.eqb c "*" || Ascii.eqb c "+" || Ascii.eqb c "?" || Ascii.eqb c "{".

(** The digits of [{n}] up to the closing brace. *)
Fixpoint parse_count (s : string) (seen : bool) (acc : nat) : option (nat * string) :=
  match s with
  | "" => None
  | String c s' =>
      if Py.is_digit c then parse_count s' true (10 * acc + Py.digit_val c)
      else if Ascii.eqb c "}" then (if seen then Some (acc, s') else None)
      else None
  end.

(** No second quantifier may follow a quantifier. *)
Definition no_quant_next (s : string) : bool :=
  match s with
  | String c _ => negb (is_quant_char c)
  | "" => true
  end.

Definition parse_quant (s : string) : option (option quant * string) :=
  match s with
  | String c s' =>
      if Ascii.eqb c "*" || Ascii.eqb c "+" then
        let mk := fun g => if Ascii.eqb c "*" then QStar g else QPlus g in
        match s' with
        | String c' s'' =>
            if Ascii.eqb c' "?" then
              (if no_quant_next s'' then Some (Some (mk false), s'') else None)
            else if is_quant_char c' then None
            else Some (Some (mk true), s')
        | "" => Some (Some (mk true), s')
        end
      else if Ascii.eqb c "{" then
        match parse_count s' false 0 with
        | Some (n, rest) => if no_quant_next rest then Some (Some (QRep n), rest) else None
        | None => None
        end
      else if Ascii.eqb c "?" then None
      else Some (None, s)
  | "" => Some (None, s)
  end.

(** The members of a set [[...]], after the opening bracket. *)
Fixpoint parse_set (s : string) (acc : list ascii) : option (list ascii * string) :=
  match s with
  | "" => None
  | String c s' =>
      if Ascii.eqb c "]" then
        match acc with [] => None | _ => Some (rev acc, s') end
      else if Ascii.eqb c "\" then
        match s' with
        | String e s'' => if is_alnum e then None else parse_set s'' (e :: acc)
        | "" => None
        end
      else if Ascii.eqb c "^" then
        match acc with [] => None | _ => parse_set s' (c :: acc) end
      else if Ascii.eqb c "-" then
        match acc, s' with
        | [], _ => parse_set s' (c :: acc)
        | _, String "]" _ => parse_set s' (c :: acc)
        | _, _ => None
        end
      else parse_set s' (c :: acc)
  end.

(** A sequence of quantified atoms, up to the end of the pattern or to the
    closing parenthesis of the enclosing group.  [g] counts the groups opened
    so far: groups are numbered by their opening parenthesis. *)
Fixpoint parse_seq (fuel : nat) (s : string) (g : nat) : option (regex * string * nat) :=
  match fuel with
  | O => None
  | S f =>
      match s with
      | "" => Some (Eps, s, g)
      | String c s' =>
          if Ascii.eqb c ")" then Some (Eps, s, g)
          else
            let atom : option (regex * string * nat) :=
              if Ascii.eqb c "(" then
                match s' with
                | String "?" _ => None
                | _ =>
                    match parse_seq f s' (S g) with
                    | Some (r, String ")" rest, g') => Some (Group (S g) r, rest, g')
                    | _ => None
                    end
                end
              else if Ascii.eqb c "[" then
                match parse_set s' [] with
                | Some (cs, rest) => Some (CharSet cs, rest, g)
                | None => None
                end
              else if Ascii.eqb c "\" then
                match s' with
                | String e rest =>
                    if Ascii.eqb e "d" then Some (Digit, rest, g)
                    else if is_alnum e then None
                    else Some (Lit e, rest, g)
                | "" => None
                end
              else if Ascii.eqb c "." then Some (Any, s', g)
              else if is_quant_char c || Ascii.eqb c "|" || Ascii.eqb c "^" || Ascii.eqb c "$"
              then None
              else Some (Lit c, s', g) in
            match atom with
            | Some (a, rest, g') =>
                match parse_quant rest with
                | Some (q, rest2) =>
                    match parse_seq f rest2 g' with
                    | Some (tail, rest3, g'') => Some (Cat (apply_quant q a) tail, rest3, g'')
                    | None => None
                    end
                | None => None
                end
            | None => None
            end
      end
  end.

(** [re.compile(pattern)]; the number of groups comes with the expression. *)
Definition compile (pattern : string) : option (regex * nat) :=
  match parse_seq (S (String.length pattern)) pattern 0 with
  | Some (r, "", g) => Some (r, g)
  | _ => None
  end.

(** *** Matching *)

(** A continuation byte of a UTF-8 sequence: [.] steps over whole
    characters. *)
Definition is_cont (c : ascii) : bool :=
  let n := nat_of_ascii c in (128 <=? n) && (n <? 192).

Fixpoint skip_cont (s : string) : string :=
  match s with
  | String c s' => if is_cont c then skip_cont s' else s
  | "" => ""
  end.

Definition at_boundary (s : string) : bool :=
  match s with
  | String c _ => negb (is_cont c)
  | "" => true
  end.

Abbreviation caps := (gmap nat string).
Definition cont := string -> caps -> option (string * caps).

Definition orelse {A} (x : option A) (y : unit -> option A) : option A :=
  match x with
  | Some a => Some a
  | None => y tt
  end.

(** The loop of a repetition [r*] or [r*?] over the matcher [body] of [r].
    An iteration has to consume something; [fuel] bounds the number of
    iterations by the length of the string. *)
Fixpoint star_loop (greedy : bool) (body : string -> caps -> cont -> option (string * caps))
    (k : cont) (fuel : nat) (s : string) (cs : caps) {struct fuel} : option (string * caps) :=
  let again := fun _ : unit =>
    match fuel with
    | O => None
    | S f =>
        body s cs (fun s' cs' =>
          if String.length s' <? String.length s then star_loop greedy body k f s' cs'
          else None)
    end in
  if greedy then orelse (again tt) (fun _ => k s cs)
  else orelse (k s cs) again.

(** [r{n}] *)
Fixpoint rep_loop (body : string -> caps -> cont -> option (string * caps))
    (k : cont) (n : nat) (s : string) (cs : caps) {struct n} : option (string * caps) :=
  match n with
  | O => k s cs
  | S n' => body s cs (fun s' cs' => rep_loop body k n' s' cs')
  end.

Fixpoint rmatch (r : regex) (s : string) (cs : caps) (k : cont) {struct r}
  : option (string * caps) :=
  match r with
  | Lit c =>
      match s with
      | String a s' => if Ascii.eqb a c then k s' cs else None
      | "" => None
      end
  | Any =>
      match s with
      | String a s' => if Ascii.eqb a Py.NL then None else k (skip_cont s') cs
      | "" => None
      end
  | Digit =>
      match s with
      | String a s' => if Py.is_digit a then k s' cs else None
      | "" => None
      end
  | CharSet l =>
      match s with
      | String a s' => if existsb (Ascii.eqb a) l then k s' cs else None
      | "" => None
      end
  | Eps => k s cs
  | Cat r1 r2 => rmatch r1 s cs (fun s' cs' => rmatch r2 s' cs' k)
  | Star greedy r1 => star_loop greedy (rmatch r1) k (String.length s) s cs
  | Rep n r1 => rep_loop (rmatch r1) k n s cs
  | Group i r1 =>
      rmatch r1 s cs (fun s' cs' => k s' (<[i := Py.consumed s s']> cs'))
  end.

(** A match object: the text of group 0, what follows it, the groups. *)
Record Match := { m_start : nat; m_text : string; m_after : string; m_groups : caps }.

Definition match_here (r : regex) (s : string) : option (string * caps) :=
  if at_boundary s then rmatch r s ∅ (fun s' cs => Some (s', cs)) else None.

(** [pattern.search(s)]: the first position with a match. *)
Fixpoint search_from (r : regex) (pos : nat) (s : string) : option Match :=
  match match_here r s with
  | Some (s', cs) =>
      Some {| m_start := pos; m_text := Py.consumed s s'; m_after := s'; m_groups := cs |}
  | None =>
      match s with
      | "" => None
      | String _ s' => search_from r (S pos) s'
      end
  end.

Definition search (r : regex) (s : string) : option Match := search_from r 0 s.

(** [re.fullmatch]: the continuation accepts the end of the string only. *)
Definition fullmatch (r : regex) (s : string) : option Match :=
  match rmatch r s ∅ (fun s' cs => match s' with "" => Some (s', cs) | _ => None end) with
  | Some (s', cs) => Some {| m_start := 0; m_text := s; m_after := s'; m_groups := cs |}
  | None => None
  end.

(** [m.groups()] of a pattern with [n] groups; a group that took no part in
    the match is [None]. *)
Definition groups (n : nat) (m : Match) : list (option string) :=
  map (fun i => m_groups m !! i) (seq 1 n).

(** *** Replacement templates *)

Inductive titem := TChr (c : ascii) | TGrp (i : nat).

Definition is_alpha (c : ascii) : bool :=
  let n := nat_of_ascii c in
  ((65 <=? n) && (n <=? 90)) || ((97 <=? n) && (n <=? 122)).

(** The template of [re.sub]: two backslashes are one backslash, a backslash
    and a digit is a group reference; other escapes are not used in the
    repository. *)
Fixpoint parse_template (s : string) : option (list titem) :=
  match s with
  | "" => Some []
  | String c s' =>
      if Ascii.eqb c "\" then
        match s' with
        | String e s'' =>
            if Ascii.eqb e "\" then cons (TChr "\") <$> parse_template s''
            else if Py.is_digit e then
              match s'' with
              | String e' _ =>
                  if Py.is_digit e' then None
                  else cons (TGrp (Py.digit_val e)) <$> parse_template s''
              | "" => Some [TGrp (Py.digit_val e)]
              end
            else if is_alpha e then None
            else (fun l => TChr "\" :: TChr e :: l) <$> parse_template s''
        | "" => None
        end
      else cons (TChr c) <$> parse_template s'
  end.

Fixpoint expand (t : list titem) (whole : string) (cs : caps) : string :=
  match t with
  | [] => ""
  | TChr c :: t' => String c (expand t' whole cs)
  | TGrp O :: t' => whole +:+ expand t' whole cs
  | TGrp i :: t' => default "" (cs !! i) +:+ expand t' whole cs
  end.

(** [re.sub]: the matches are found left to right without overlap; an empty
    match is replaced and the character after it copied. [skip] counts the
    characters of the current match still to be dropped. *)
Fixpoint sub_go (r : regex) (t : list titem) (skip : nat) (s : string) : string :=
  match s with
  | "" =>
      match skip, match_here r "" with
      | O, Some (_, cs) => expand t "" cs
      | _, _ => ""
      end
  | String c s1 =>
      match skip with
      | S k => sub_go r t k s1
      | O =>
          match match_here r s with
          | Some (s', cs) =>
              match String.length s - String.length s' with
              | O => expand t "" cs +:+ String c (sub_go r t 0 s1)
              | S n => expand t (Py.consumed s s') cs +:+ sub_go r t n s1
              end
          | None => String c (sub_go r t 0 s1)
          end
      end
  end.

(** [re.sub(pattern, repl, s)].  Every pattern and template of the
    repository is in the fragment [compile] and [parse_template] accept; for
    a text outside it the string is returned as it is. *)
Definition sub (pattern repl s : string) : string :=
  match compile pattern, parse_template repl with
  | Some (r, _), Some t => sub_go r t 0 s
  | _, _ => s
  end.

End Re.

(** ** Exceptions *)

Inductive exn : Type :=
| FileNotFoundError (msg : string)
| ValueError (msg : string)
| AssertionError (msg : string)
| SystemExit (msg : string).

Inductive result (A : Type) : Type :=
| Ok (a : A)
| Raise (e : exn).
Arguments Ok {A} a.
Arguments Raise {A} e.

Definition bind {A B} (x : result A) (f : A -> result B) : result B :=
  match x with
  | Ok a => f a
  | Raise e => Raise e
  end.

Notation "'let!' x ':=' e1 'in' e2" := (bind e1 (fun x => e2))
  (at level 10, x binder, e1 at level 100, e2 at level 200).

(** ** [datetime.datetime] (naive) *)
Module DT.

Record datetime : Type := mk {
  year : Z; month : Z; day : Z;
  hour : Z; minute : Z; second : Z; microsecond : Z }.

Definition is_leap (y : Z) : bool :=
  ((y mod 4 =? 0) && (negb (y mod 100 =? 0) || (y mod 400 =? 0)))%Z.

Definition days_in_month (y m : Z) : Z :=
  if (m =? 2)%Z then (if is_leap y then 29 else 28)%Z
  else if ((m =? 4) || (m =? 6) || (m =? 9) || (m =? 11))%Z then 30%Z
  else 31%Z.

(** [datetime(y, mo, d, hh, mm, ss)]; [None] is the [ValueError] of a field
    out of range. *)
Definition make (y mo d hh mm ss : Z) : option datetime :=
  if ((1 <=? y) && (y <=? 9999) && (1 <=? mo) && (mo <=? 12) &&
      (1 <=? d) && (d <=? days_in_month y mo) &&
      (0 <=? hh) && (hh <=? 23) && (0 <=? mm) && (mm <=? 59) &&
      (0 <=? ss) && (ss <=? 59))%Z
  then Some (mk y mo d hh mm ss 0)
  else None.

(** [y, mo, d, hh, mm, ss = map(int, m.groups()); datetime(y, mo, d, hh, mm, ss)];
    [None] when one of the two steps raises. *)
Definition of_groups (gs : list (option string)) : option datetime :=
  match gs with
  | [Some a; Some b; Some c; Some d; Some e; Some f] =>
      match Py.int a, Py.int b, Py.int c, Py.int d, Py.int e, Py.int f with
      | Some y, Some mo, Some dd, Some hh, Some mm, Some ss => make y mo dd hh mm ss
      | _, _, _, _, _, _ => None
      end
  | _ => None
  end.

(** The order of [datetime] objects: lexicographic on the fields. *)
Definition fields (d : datetime) : list Z :=
  [year d; month d; day d; hour d; minute d; second d; microsecond d].

Fixpoint lex_leb (a b : list Z) : bool :=
  match a, b with
  | [], _ => true
  | _ :: _, [] => false
  | x :: a', y :: b' => ((x <? y) || ((x =? y) && lex_leb a' b'))%Z
  end.

(** [d1 <= d2] *)
Definition leb (d1 d2 : datetime) : bool := lex_leb (fields d1) (fields d2).

(** [strftime]: a field as a zero-padded number; the year is written with
    four digits. *)
Definition pad (w : nat) (z : Z) : string := Py.zfill w (Py.str_Z z).

(** [dt.strftime("%Y-%m-%d %H:%M:%S")] *)
Definition strftime_iso (d : datetime) : string :=
  pad 4 (year d) +:+ "-" +:+ pad 2 (month d) +:+ "-" +:+ pad 2 (day d) +:+ " " +:+
  pad 2 (hour d) +:+ ":" +:+ pad 2 (minute d) +:+ ":" +:+ pad 2 (second d).

(** [dt.strftime("%Y-%m-%d_%H%M%S")] *)
Definition strftime_name (d : datetime) : string :=
  pad 4 (year d) +:+ "-" +:+ pad 2 (month d) +:+ "-" +:+ pad 2 (day d) +:+ "_" +:+
  pad 2 (hour d) +:+ pad 2 (minute d) +:+ pad 2 (second d).

(** [dt.strftime("%d.%m.%Y")] *)
Definition strftime_de (d : datetime) : string :=
  pad 2 (day d) +:+ "." +:+ pad 2 (month d) +:+ "." +:+ pad 4 (year d).

(** [datetime.fromtimestamp] depends on the time zone of the machine and is
    a parameter of the scripts' models.  This is the instance for a machine
    on UTC; a timestamp is a number of microseconds since the epoch. *)
Definition civil_from_days (z0 : Z) : Z * Z * Z :=
  (let z := z0 + 719468 in
   let era := z / 146097 in
   let doe := z - era * 146097 in
   let yoe := (doe - doe / 1460 + doe / 36524 - doe / 146096) / 365 in
   let doy := doe - (365 * yoe + yoe / 4 - yoe / 100) in
   let mp := (5 * doy + 2) / 153 in
   let d := doy - (153 * mp + 2) / 5 + 1 in
   let m := if mp <? 10 then mp + 3 else mp - 9 in
   let y := yoe + era * 400 in
   (if m <=? 2 then y + 1 else y, m, d))%Z.

Definition utc_fromtimestamp (us : Z) : datetime :=
  (let secs := us / 1000000 in
   let '(y, m, d) := civil_from_days (secs / 86400) in
   let sod := secs mod 86400 in
   mk y m d (sod / 3600) (sod mod 3600 / 60) (sod mod 60) (us mod 1000000))%Z.

End DT.

(** ** [pathlib]: the name of a path *)
Module Path.

(** A path: the directory and the name in it. *)
Definition path : Type := string * string.

Definition name (p : path) : string := p.2.

(** [p.with_name(n)] *)
Definition with_name (p : path) (n : string) : path := (p.1, n).

(** [name.rfind('.')] *)
Fixpoint rfind_dot (s : string) (pos : nat) (last : option nat) : option nat :=
  match s with
  | "" => last
  | String c s' => rfind_dot s' (S pos) (if Ascii.eqb c "." then Some pos else last)
  end.

(** [p.suffix]: from the last dot, unless the dot is the first or the last
    character of the name. *)
Definition suffix_of (n : string) : string :=
  match rfind_dot n 0 None with
  | Some i => if (0 <? i) && (i <? String.length n - 1) then Py.drop i n else ""
  | None => ""
  end.

Definition suffix (p : path) : string := suffix_of (name p).

(** [p.stem] *)
Definition stem_of (n : string) : string :=
  Py.take (String.length n - String.length (suffix_of n)) n.

Definition stem (p : path) : string := stem_of (name p).

End Path.

(** The EXIF dictionary Pillow returns for an image: tag number to text.
    [bytes] values are taken after [decode(errors="ignore")]. *)
Abbreviation exif_dict := (gmap Z string).

(** ** build_excel_from_images.py *)
Module BuildExcel.

Import DT.

Definition IMG_EXTS : list string :=
  [".jpg"; ".jpeg"; ".png"; ".tif"; ".tiff"; ".webp"; ".heic"; ".heif"].

Definition TAG_DATETIME_ORIGINAL : Z := 36867.
Definition TAG_DATETIME_DIGITIZED : Z := 36868.
Definition TAG_DATETIME : Z := 306.

Definition DATE_RE_EXIF : option (Re.regex * nat) :=
  Re.compile "(\d{4}):(\d{2}):(\d{2})[ T](\d{2}):(\d{2}):(\d{2})".
Definition DATE_RE_FILENAME : option (Re.regex * nat) :=
  Re.compile "(\d{4})-(\d{2})-(\d{2})[_\-](\d{2})(\d{2})(\d{2})".

(** [pattern.search(s)] with the groups of the match; a pattern that does
    not compile has no match. *)
Definition search_groups (p : option (Re.regex * nat)) (s : string)
  : option (list (option string)) :=
  match p with
  | Some (r, n) => Re.groups n <$> Re.search r s
  | None => None
  end.

(** What the operating system and Pillow tell about a directory entry. *)
Record file : Type := {
  f_path : Path.path;
  f_is_file : bool;
  (** [Image.open(p)._getexif()]; [None] when the call raises or the image
      has no EXIF block *)
  f_exif : option exif_dict;
  (** the result of [mdls_creation_datetime(p)], which runs the [mdls]
      tool on macOS; [None] on other systems and when the tool fails *)
  f_mdls : option datetime;
  (** [p.stat().st_birthtime], where the platform has it *)
  f_birthtime : option Z;
  f_mtime : Z }.

Record args : Type := {
  a_recursive : bool;
  a_write : bool;
  a_out : option string;
  a_base_url : option string;
  a_desc_from_name : bool }.

(** The entries [root.iterdir()] and [root.rglob("*")] yield, in the order
    of the operating system. *)
Record world : Type := {
  w_root : string;
  w_root_is_dir : bool;
  w_iterdir : list file;
  w_rglob : list file }.

Definition is_image (f : file) : bool :=
  f_is_file f && bool_decide (Py.lower (Path.suffix (f_path f)) ∈ IMG_EXTS).

Definition iter_images (w : world) (recursive : bool) : list file :=
  if recursive then filter (fun f => is_image f = true) (w_rglob w)
  else filter (fun f => is_image f = true) (w_iterdir w).

(** [datetime_from_filename]: the [ValueError] of [datetime(...)] is not
    caught. *)
Definition datetime_from_filename (f : file) : result (option datetime) :=
  match search_groups DATE_RE_FILENAME (Path.stem (f_path f)) with
  | Some gs =>
      match of_groups gs with
      | Some d => Ok (Some d)
      | None => Raise (ValueError "datetime")
      end
  | None => Ok None
  end.

(** The loop over the three tags of [extract_exif_datetime]; an exception in
    it makes the function return [None]. *)
Fixpoint exif_loop (tags : list Z) (exif : exif_dict) : option datetime :=
  match tags with
  | [] => None
  | tag :: tags' =>
      match exif !! tag with
      | Some raw =>
          if bool_decide (raw = "") then exif_loop tags' exif
          else
            match search_groups DATE_RE_EXIF raw with
            | Some gs => of_groups gs
            | None => exif_loop tags' exif
            end
      | None => exif_loop tags' exif
      end
  end.

Definition extract_exif_datetime (f : file) : option datetime :=
  match f_exif f with
  | Some exif =>
      if bool_decide (exif = ∅) then None
      else exif_loop [TAG_DATETIME_ORIGINAL; TAG_DATETIME_DIGITIZED; TAG_DATETIME] exif
  | None => None
  end.

Definition mdls_creation_datetime (f : file) : option datetime := f_mdls f.

Section WithClock.

(** [datetime.fromtimestamp] in the time zone of the machine. *)
Variable fromtimestamp : Z -> datetime.

(** [if bt:] holds for a birth time that is there and is not zero. *)
Definition fs_birth_or_mtime (f : file) : datetime :=
  match f_birthtime f with
  | Some bt => if (bt =? 0)%Z then fromtimestamp (f_mtime f) else fromtimestamp bt
  | None => fromtimestamp (f_mtime f)
  end.

(** [a or b] on [Optional[datetime]]: a [datetime] is always true. *)
Definition or_else {A} (a : option A) (b : option A) : option A :=
  match a with
  | Some x => Some x
  | None => b
  end.

(** The right-hand side of line 126. *)
Definition resolve_dt (f : file) : result datetime :=
  let! a := datetime_from_filename f in
  Ok (default (fs_birth_or_mtime f)
        (or_else a (or_else (extract_exif_datetime f) (mdls_creation_datetime f)))).

(** The first loop of [main]. *)
Fixpoint scan (fs : list file) : result (list (file * datetime)) :=
  match fs with
  | [] => Ok []
  | f :: fs' =>
      let! dt := resolve_dt f in
      let! rest := scan fs' in
      Ok ((f, dt) :: rest)
  end.

End WithClock.

(** [items.sort(key=lambda x: x[1])]: the stable sort by the key. *)
Fixpoint insert_item (x : file * datetime) (l : list (file * datetime)) : list (file * datetime) :=
  match l with
  | [] => [x]
  | y :: l' => if leb x.2 y.2 then x :: l else y :: insert_item x l'
  end.

Definition sort_items (l : list (file * datetime)) : list (file * datetime) :=
  foldr insert_item [] l.

(** [str.upper()] of one character, on ASCII letters. *)
Definition upper_char (c : ascii) : ascii :=
  let n := nat_of_ascii c in
  if (97 <=? n) && (n <=? 122) then ascii_of_nat (n - 32) else c.

Definition nice_desc_from_name (name : string) : string :=
  let base := Path.stem_of name in
  match Py.strip (Re.sub "[_\-]+" " " base) with
  | String c rest => String (upper_char c) rest
  | "" => ""
  end.

(** A row of the sheet: ID, Bildernamen, Datum/Jahr, Beschreibung, Link. *)
Record row : Type := {
  r_id : string;
  r_bildname : string;
  r_datum : string;
  r_beschreibung : string;
  r_link : string }.

(** [if args.base_url]: given and not empty. *)
Definition truthy (s : option string) : option string :=
  match s with
  | Some "" => None
  | x => x
  end.

Definition pad_width (n : nat) : nat := Nat.max 3 (String.length (Py.str_nat n)).

Definition make_row (a : args) (pad : nat) (i : nat) (x : file * datetime) : row :=
  let id_str := Py.zfill pad (Py.str_nat i) in
  let bildname := Path.name (f_path x.1) in
  {| r_id := id_str;
     r_bildname := bildname;
     r_datum := strftime_iso x.2;
     r_beschreibung := if a_desc_from_name a then nice_desc_from_name bildname else "";
     r_link := match truthy (a_base_url a) with
               | Some b => b +:+ "/e/" +:+ id_str +:+ ".html"
               | None => ""
               end |}.

(** Lines 133 to 143: sort, choose the width, number from 1. *)
Definition build_rows (a : args) (items : list (file * datetime)) : list row :=
  let sorted := sort_items items in
  let pad := pad_width (length sorted) in
  imap (fun i x => make_row a pad (S i) x) sorted.

Inductive outcome : Type :=
| NoImages
| Preview (rows : list row)
| Wrote (out_path : string) (rows : list row).

Definition main (fromtimestamp : Z -> datetime) (a : args) (w : world) : result outcome :=
  if negb (w_root_is_dir w) then Raise (AssertionError "Folder not found") else
  let! items := scan fromtimestamp (iter_images w (a_recursive a)) in
  match items with
  | [] => Ok NoImages
  | _ =>
      let rows := build_rows a items in
      if a_write a
      then Ok (Wrote (default (w_root w +:+ "/entries.xlsx") (truthy (a_out a))) rows)
      else Ok (Preview rows)
  end.

End BuildExcel.

(** ** build_site.py *)
Module BuildSite.

Import DT.

Local Abbreviation Q := Py.dquote.

Definition MAX_IMAGE_WIDTH : nat := 1600.
Definition THUMB_WIDTH : nat := 600.

Definition CSS : string := "
:root{--bg:#fafafa;--fg:#222;--muted:#666;--card:#fff;--shadow:rgba(0,0,0,.06);--radius:16px;--maxw:960px}
*{box-sizing:border-box}
html,body{margin:0;padding:0;background:var(--bg);color:var(--fg);font:16px/1.6 system-ui,-apple-system,Segoe UI,Roboto,Ubuntu,'Helvetica Neue',Arial}
img{max-width:100%;height:auto;display:block}
a{color:#0a58ca;text-decoration:none}a:hover{text-decoration:underline}
.site-header,.site-footer{max-width:var(--maxw);margin:auto;padding:16px 20px}
.brand{font-weight:700;font-size:20px}
main{max-width:var(--maxw);margin:0 auto;padding:10px 20px 40px}
.grid{display:grid;grid-template-columns:repeat(auto-fill,minmax(240px,1fr));gap:18px}
.card{background:var(--card);border-radius:var(--radius);box-shadow:0 10px 20px var(--shadow);overflow:hidden;transition:transform .15s ease,box-shadow .15s ease}
.card:hover{transform:translateY(-2px);box-shadow:0 14px 24px var(--shadow)}
.card .thumb{aspect-ratio:4/3;object-fit:cover}.card .body{padding:12px 14px}.card .meta{font-size:12px;color:var(--muted);display:flex;gap:10px;flex-wrap:wrap}
.entry-card{background:var(--card);border-radius:var(--radius);box-shadow:0 10px 20px var(--shadow);padding:18px}
.entry-figure{margin:0 0 12px 0}.entry-text{white-space:pre-wrap;font-size:18px}.entry-meta{color:var(--muted);margin:6px 0 14px 0}
.entry-nav{display:flex;gap:12px;margin-top:16px;flex-wrap:wrap}
".

(** [INDEX_TEMPLATE.format(...)] *)
Definition INDEX_TEMPLATE (css cards : string) : string :=
  Py.concat [
    "<!doctype html><html lang="; Q; "de"; Q; "><head><meta charset="; Q; "utf-8"; Q;
    "/><meta name="; Q; "viewport"; Q; " content="; Q; "width=device-width, initial-scale=1"; Q;
    "/><title>Übersicht</title><style>"; css; "</style></head><body><header class="; Q;
    "site-header"; Q; "><div class="; Q; "brand"; Q;
    ">🎁 QR‑Geschenk</div></header><main><section><h1>Alle Einträge</h1><div class="; Q; "grid";
    Q; ">"; cards; "</div></section></main><footer class="; Q; "site-footer"; Q;
    "><p>Erstellt mit ❤️ fürs Geschenk</p></footer></body></html>" ].

(** [CARD_TEMPLATE.format(...)] *)
Definition CARD_TEMPLATE (href thumb_src num date preview : string) : string :=
  Py.concat [
    "<a class="; Q; "card"; Q; " href="; Q; href; Q; "><img class="; Q; "thumb"; Q; " src="; Q;
    thumb_src; Q; " alt="; Q; Q; "><div class="; Q; "body"; Q; "><div class="; Q; "meta"; Q;
    "><span>#"; num; "</span><span>"; date; "</span></div><div>"; preview; "</div></div></a>" ].

(** [ENTRY_TEMPLATE.format(...)] *)
Definition ENTRY_TEMPLATE (num css image date text_html prev_link next_link : string) : string :=
  Py.concat [
    "<!doctype html><html lang="; Q; "de"; Q; "><head><meta charset="; Q; "utf-8"; Q;
    "/><meta name="; Q; "viewport"; Q; " content="; Q; "width=device-width, initial-scale=1"; Q;
    "/><title>Eintrag "; num; "</title><style>"; css; "</style></head><body><header class="; Q;
    "site-header"; Q; "><a href="; Q; "../index.html"; Q; " class="; Q; "brand"; Q;
    ">🎁 QR‑Geschenk</a></header><main><article class="; Q; "entry"; Q; "><div class="; Q;
    "entry-card"; Q; "><figure class="; Q; "entry-figure"; Q; "><img src="; Q;
    "../assets/images/"; image; Q; " alt="; Q; Q; "></figure><div class="; Q; "entry-meta"; Q;
    ">"; date; "</div><div class="; Q; "entry-text"; Q; ">"; text_html;
    "</div></div><nav class="; Q; "entry-nav"; Q; "><a href="; Q; "../index.html"; Q;
    ">← Zurück zur Übersicht</a>"; prev_link; next_link;
    "</nav></article></main><footer class="; Q; "site-footer"; Q;
    "><p>Erstellt mit ❤️ fürs Geschenk</p></footer></body></html>" ].

Definition TAG_ORIG : Z := 36867.
Definition TAG_DIGI : Z := 36868.
Definition TAG_DATE : Z := 306.

(** The patterns of this script, as its source has them. *)
Definition DATE_RE : option (Re.regex * nat) :=
  Re.compile "(\\d{4}):(\\d{2}):(\\d{2})[ T](\\d{2}):(\\d{2}):(\\d{2})".
Definition YEAR_RE : option (Re.regex * nat) := Re.compile "\\d{4}".

Definition search_groups (p : option (Re.regex * nat)) (s : string)
  : option (list (option string)) :=
  match p with
  | Some (r, n) => Re.groups n <$> Re.search r s
  | None => None
  end.

(** A cell of the sheet as pandas reads it. *)
Inductive cell : Type :=
| NaN
| Str (s : string)
| Int (z : Z)
| Timestamp (d : datetime).

(** [pd.isna(val)] *)
Definition isna (c : cell) : bool :=
  match c with
  | NaN => true
  | _ => false
  end.

(** [str(val)] *)
Definition str_cell (c : cell) : string :=
  match c with
  | NaN => "nan"
  | Str s => s
  | Int z => Py.str_Z z
  | Timestamp d => strftime_iso d
  end.

(** [pd.read_excel(xlsx)]: the header and the rows, each row aligned with
    the header.  pandas makes the column names distinct. *)
Record dataframe : Type := {
  df_columns : list string;
  df_rows : list (list cell) }.

(** What the script reads of an image under the images directory.  An
    entry of the directory is an image Pillow opens: [resize_copy] and
    [make_thumb] do not raise on it. *)
Record image : Type := {
  img_exif : option exif_dict;   (* [_getexif()]; [None]: no EXIF block *)
  img_mtime : Z }.

(** The files the script writes, by their path under the output directory. *)
Inductive content : Type :=
| Html (text : string)
| ImageCopy (src : string) (max_w : nat)
| Thumb (src : string) (width : nat)
| QrPng (data : string)
| PdfOverview (nums : list string)
| PdfLabels (nums : list string) (include_labels : bool).

(** The three places of the file system the script touches.  The output
    directory is neither the sheet nor inside the images directory. *)
Record world : Type := {
  w_xlsx : option dataframe;             (* [None]: no such file *)
  w_images : option (gmap string image); (* [None]: no such directory *)
  w_out : option (gmap string content) }.

Record args : Type := {
  a_base_url : option string;
  a_make_qr : bool;
  a_qrs_pdf : bool;
  a_labels : bool;
  a_no_entry_labels : bool }.

Record entry : Type := {
  e_num : string;
  e_image : string;
  e_thumb : string;
  e_href : string;
  e_date : string;
  e_desc : string }.

(** [exif_datetime]: the loop over the tags; an exception in it (the
    [ValueError] of [int] or of [datetime]) makes the function return
    [None]. *)
Fixpoint exif_loop (tags : list Z) (exif : exif_dict) : option datetime :=
  match tags with
  | [] => None
  | tag :: tags' =>
      match exif !! tag with
      | Some raw =>
          match search_groups DATE_RE raw with
          | Some gs => of_groups gs
          | None => exif_loop tags' exif
          end
      | None => exif_loop tags' exif
      end
  end.

Definition exif_datetime (im : image) : option datetime :=
  match img_exif im with
  | Some exif =>
      if bool_decide (exif = ∅) then None
      else exif_loop [TAG_ORIG; TAG_DIGI; TAG_DATE] exif
  | None => None
  end.

Definition normalize_colname (name : string) : string :=
  foldl (fun s ch => Py.replace ch "" s) (Py.lower (Py.strip name))
    [" "; Py.TAB; "/"; "\\"; "_"; "-"].

(** [{normalize_colname(c): c for c in columns}]: a later column replaces an
    earlier one with the same key. *)
Definition colmap (columns : list string) : gmap string string :=
  foldl (fun m c => <[normalize_colname c := c]> m) ∅ columns.

Definition find_date_column (columns : list string) : option string :=
  let mapping := colmap columns in
  match mapping !! "datumjahr" with
  | Some c => Some c
  | None => mapping !! "datum"
  end.

(** A string that is given and not empty. *)
Definition truthy (s : option string) : option string :=
  match s with
  | Some "" => None
  | x => x
  end.

(** [row[col]] *)
Fixpoint row_get (columns : list string) (row : list cell) (col : string) : cell :=
  match columns, row with
  | c :: columns', v :: row' => if bool_decide (c = col) then v else row_get columns' row' col
  | _, _ => NaN
  end.

(** [md_to_html] *)
Definition md_to_html (s : string) : string :=
  let s := Py.replace ">" "&gt;" (Py.replace "<" "&lt;" (Py.replace "&" "&amp;" s)) in
  let s := Re.sub "\\*\\*(.+?)\\*\\*" "<strong>\\1</strong>" s in
  let s := Re.sub "\\*(.+?)\\*" "<em>\\1</em>" s in
  s.

Section WithLibraries.

(** [datetime.fromtimestamp] in the time zone of the machine. *)
Variable fromtimestamp : Z -> datetime.

(** [pd.to_datetime(val, dayfirst=True, errors="coerce")] followed by the
    checks of [safe_date_from_excel]: [None] for [NaT] and for an
    exception. *)
Variable pd_to_datetime : cell -> option datetime.

Definition safe_date_from_excel (val : cell) : result (option datetime) :=
  if isna val then Ok None
  else
    let s := Py.strip (str_cell val) in
    match YEAR_RE with
    | Some (r, _) =>
        match Re.fullmatch r s with
        | Some _ =>
            match Py.int s with
            | Some y =>
                match make y 1 1 0 0 0 with
                | Some d => Ok (Some d)
                | None => Raise (ValueError "datetime")
                end
            | None => Raise (ValueError "int")
            end
        | None => Ok (pd_to_datetime val)
        end
    | None => Ok (pd_to_datetime val)
    end.

(** Lines 274 to 283: the date of a row. *)
Definition resolve_date (col_date : option string) (columns : list string)
    (row : list cell) (im : image) : result datetime :=
  let! dt :=
    match truthy col_date with
    | Some c => safe_date_from_excel (row_get columns row c)
    | None => Ok None
    end in
  let dt := match dt with Some d => Some d | None => exif_datetime im end in
  Ok (default (fromtimestamp (img_mtime im)) dt).

(** The columns the loop reads. *)
Record columns_used : Type := {
  col_img : string;
  col_desc : option string;
  col_date : option string }.

(** The body of the loop of line 259 for the row of index [idx]: the files
    it writes, and the entry or the exception. *)
Definition process_row (images : gmap string image) (columns : list string)
    (cu : columns_used) (idx : nat) (row : list cell)
  : list (string * content) * result entry :=
  let n := idx + 1 in
  let num := Py.zfill 3 (Py.str_nat n) in
  let img_name := Py.strip (str_cell (row_get columns row (col_img cu))) in
  match images !! img_name with
  | None => ([], Raise (FileNotFoundError ("Bild nicht gefunden: " +:+ img_name)))
  | Some im =>
      let ws := [("assets/images/" +:+ img_name, ImageCopy img_name MAX_IMAGE_WIDTH);
                 ("assets/thumbs/" +:+ img_name, Thumb img_name THUMB_WIDTH)] in
      let desc :=
        match truthy (col_desc cu) with
        | Some c => let val := row_get columns row c in
                    if isna val then "" else str_cell val
        | None => ""
        end in
      (ws,
       let! dt := resolve_date (col_date cu) columns row im in
       Ok {| e_num := num; e_image := img_name;
             e_thumb := "assets/thumbs/" +:+ img_name;
             e_href := "e/" +:+ num +:+ ".html";
             e_date := strftime_de dt; e_desc := desc |})
  end.

(** The loop of line 259, from the row of index [idx] on. *)
Fixpoint process_rows (images : gmap string image) (columns : list string)
    (cu : columns_used) (idx : nat) (rows : list (list cell))
  : list (string * content) * result (list entry) :=
  match rows with
  | [] => ([], Ok [])
  | row :: rest =>
      match process_row images columns cu idx row with
      | (ws, Raise e) => (ws, Raise e)
      | (ws, Ok m) =>
          let '(ws', r) := process_rows images columns cu (S idx) rest in
          (ws ++ ws', let! ms := r in Ok (m :: ms))
      end
  end.

End WithLibraries.

(** [entries[i]["href"]]; the index is in range where the script uses it. *)
Definition href_at (entries : list entry) (i : nat) : string :=
  default "" (e_href <$> entries !! i).

Definition prev_link (entries : list entry) (i : nat) : string :=
  if 0 <? i
  then Py.concat [" <a href="; Q; href_at entries (i - 1); Q; ">« Vorheriger</a>"]
  else "".

Definition next_link (entries : list entry) (i : nat) : string :=
  if i <? length entries - 1
  then Py.concat [" <a href="; Q; href_at entries (i + 1); Q; ">Nächster »</a>"]
  else "".

(** The detail page of the entry of index [i]: its path and its text. *)
Definition detail_page (entries : list entry) (i : nat) (m : entry) : string * content :=
  (e_href m,
   Html (ENTRY_TEMPLATE (e_num m) CSS (e_image m) (e_date m) (md_to_html (e_desc m))
           (prev_link entries i) (next_link entries i))).

Definition detail_pages (entries : list entry) : list (string * content) :=
  imap (detail_page entries) entries.

(** [str.splitlines()[0]] of a string that is not empty. *)
Definition is_linebreak (c : ascii) : bool :=
  let n := nat_of_ascii c in
  ((10 <=? n) && (n <=? 13)) || ((28 <=? n) && (n <=? 30)).

Fixpoint first_line (s : string) : string :=
  match s with
  | "" => ""
  | String c s' => if is_linebreak c then "" else String c (first_line s')
  end.

(** [len(s)] and [s[:n]] count characters, not bytes. *)
Fixpoint len (s : string) : nat :=
  match s with
  | "" => 0
  | String c s' => if Re.is_cont c then len s' else S (len s')
  end.

Fixpoint take_chars (n : nat) (s : string) : string :=
  match s with
  | "" => ""
  | String c s' =>
      if Re.is_cont c then String c (take_chars n s')
      else match n with
           | O => ""
           | S n' => String c (take_chars n' s')
           end
  end.

Definition card (m : entry) : string :=
  let preview := Py.strip (first_line (e_desc m)) in
  let preview := if 120 <? len preview then take_chars 120 preview +:+ "…" else preview in
  CARD_TEMPLATE (e_href m) (e_thumb m) (e_num m) (e_date m) (md_to_html preview).

Definition index_page (entries : list entry) : string * content :=
  ("index.html", Html (INDEX_TEMPLATE CSS (Py.concat (map card entries)))).

Definition qr_wanted (a : args) : bool := a_make_qr a || a_qrs_pdf a || a_labels a.

(** [make_qr_png(data, out_path)]: the QR code of [data], written at
    [out_path]. *)
Definition make_qr_png (data out_path : string) : string * content :=
  (out_path, QrPng data).

(** The body of the loop of line 312. *)
Definition qr_png (base_url : string) (m : entry) : string * content :=
  let url := base_url +:+ "/" +:+ e_href m in
  make_qr_png url ("assets/qrcodes/" +:+ e_num m +:+ ".png").

Definition qr_pipeline (a : args) (entries : list entry)
  : list (string * content) * option exn :=
  if qr_wanted a then
    match truthy (a_base_url a) with
    | None => ([], Some (SystemExit "--base-url ist erforderlich, um QR-Codes zu erzeugen."))
    | Some base_url =>
        (map (qr_png base_url) entries ++
         (if a_qrs_pdf a then [("qrcodes.pdf", PdfOverview (map e_num entries))] else []) ++
         (if a_labels a
          then [("qrcodes_labels.pdf", PdfLabels (map e_num entries) (negb (a_no_entry_labels a)))]
          else []),
         None)
    end
  else ([], None).

(** A run: the exception that ended it, if any, whether the output
    directory was emptied, and the files written, in the order of the
    writes. *)
Record outcome : Type := {
  o_error : option exn;
  o_cleared : bool;
  o_writes : list (string * content) }.

Definition main (fromtimestamp : Z -> datetime) (pd_to_datetime : cell -> option datetime)
    (a : args) (w : world) : outcome :=
  match w_xlsx w, w_images w with
  | None, _ => {| o_error := Some (FileNotFoundError "Excel nicht gefunden");
                  o_cleared := false; o_writes := [] |}
  | Some _, None => {| o_error := Some (FileNotFoundError "Bilder-Ordner nicht gefunden");
                       o_cleared := false; o_writes := [] |}
  | Some df, Some images =>
      let cols_ci := colmap (df_columns df) in
      match cols_ci !! "bildname" with
      | None => {| o_error := Some (ValueError "Excel muss die Spalte 'Bildname' enthalten.");
                   o_cleared := true; o_writes := [] |}
      | Some c_img =>
          let cu := {| col_img := c_img;
                       col_desc := match truthy (cols_ci !! "beschreibung") with
                                   | Some c => Some c
                                   | None => cols_ci !! "text"
                                   end;
                       col_date := find_date_column (df_columns df) |} in
          match process_rows fromtimestamp pd_to_datetime images (df_columns df) cu 0 (df_rows df) with
          | (ws, Raise e) => {| o_error := Some e; o_cleared := true; o_writes := ws |}
          | (ws, Ok entries) =>
              let html := detail_pages entries ++ [index_page entries] in
              let '(qs, err) := qr_pipeline a entries in
              {| o_error := err; o_cleared := true; o_writes := ws ++ html ++ qs |}
          end
      end
  end.

(** The output directory after a run: emptied by [shutil.rmtree], then
    written file by file. *)
Definition write_all (ws : list (string * content)) (m : gmap string content)
  : gmap string content :=
  foldl (fun m pc => <[pc.1 := pc.2]> m) m ws.

Definition world_after (w : world) (o : outcome) : world :=
  if o_cleared o
  then {| w_xlsx := w_xlsx w; w_images := w_images w;
          w_out := Some (write_all (o_writes o) ∅) |}
  else w.

End BuildSite.

(** ** rename_and_convert_to_jpeg.py *)
Module Rename.

Import DT.

Definition IMG_EXTS : list string :=
  [".jpg"; ".jpeg"; ".png"; ".tif"; ".tiff"; ".webp"; ".heic"; ".heif"].

Definition TAG_DATETIME_ORIGINAL : Z := 36867.
Definition TAG_DATETIME_DIGITIZED : Z := 36868.
Definition TAG_DATETIME : Z := 306.

Definition DATE_RE : option (Re.regex * nat) :=
  Re.compile "(\d{4}):(\d{2}):(\d{2})[ T](\d{2}):(\d{2}):(\d{2})".

Definition search_groups (p : option (Re.regex * nat)) (s : string)
  : option (list (option string)) :=
  match p with
  | Some (r, n) => Re.groups n <$> Re.search r s
  | None => None
  end.

(** An entry of the file system.  [n_picture] is what [Image.open] decodes,
    [None] for a file Pillow cannot read; a picture is named by a string. *)
Record node : Type := {
  n_is_file : bool;
  n_exif : option exif_dict;
  n_picture : option string;
  n_mtime : Z }.

(** The file system, and the order in which [iterdir] and [rglob] list the
    entries under the root. *)
Record world : Type := {
  w_fs : gmap Path.path node;
  w_iterdir : list Path.path;
  w_rglob : list Path.path }.

Record args : Type := {
  a_recursive : bool;
  a_apply : bool;
  a_quality : Z }.

(** [p.exists()] *)
Definition exists_ (fs : gmap Path.path node) (p : Path.path) : bool :=
  bool_decide (is_Some (fs !! p)).

Definition is_image (fs : gmap Path.path node) (p : Path.path) : bool :=
  match fs !! p with
  | Some n => n_is_file n && bool_decide (Py.lower (Path.suffix p) ∈ IMG_EXTS)
  | None => false
  end.

Definition iter_images (w : world) (recursive : bool) : list Path.path :=
  filter (fun p => is_image (w_fs w) p = true) (if recursive then w_rglob w else w_iterdir w).

Fixpoint exif_loop (tags : list Z) (exif : exif_dict) : option datetime :=
  match tags with
  | [] => None
  | tag :: tags' =>
      match exif !! tag with
      | Some raw =>
          if bool_decide (raw = "") then exif_loop tags' exif
          else
            match search_groups DATE_RE raw with
            | Some gs => of_groups gs
            | None => exif_loop tags' exif
            end
      | None => exif_loop tags' exif
      end
  end.

Definition extract_exif_datetime (n : node) : option datetime :=
  match n_exif n with
  | Some exif =>
      if bool_decide (exif = ∅) then None
      else exif_loop [TAG_DATETIME_ORIGINAL; TAG_DATETIME_DIGITIZED; TAG_DATETIME] exif
  | None => None
  end.

(** The [while True] loop of [unique_target_name], from the counter [i];
    [None] when the fuel runs out. *)
Fixpoint unique_loop (fuel : nat) (fs : gmap Path.path node) (target : Path.path)
    (stem ext : string) (i : nat) : option Path.path :=
  match fuel with
  | O => None
  | S f =>
      let cand := Path.with_name target (stem +:+ "-" +:+ Py.str_nat i +:+ ext) in
      if exists_ fs cand then unique_loop f fs target stem ext (S i) else Some cand
  end.

(** One more round than there are entries is enough for the loop
    (lemma [unique_target_name_total]). *)
Definition unique_target_name (fs : gmap Path.path node) (target : Path.path)
  : option Path.path :=
  if exists_ fs target
  then unique_loop (S (size fs)) fs target (Path.stem target) (Path.suffix target) 1
  else Some target.

Record plan : Type := {
  p_src : Path.path;
  p_dst : Path.path;
  p_dt : datetime;
  p_used_exif : bool }.

Section WithClock.

Variable fromtimestamp : Z -> datetime.

Definition get_file_mtime (n : node) : datetime := fromtimestamp (n_mtime n).

(** The body of the planning loop, lines 103 to 111. *)
Definition plan_one (fs : gmap Path.path node) (img : Path.path) : option plan :=
  n ← fs !! img;
  let '(dt, used_exif) :=
    match extract_exif_datetime n with
    | Some dt => (dt, true)
    | None => (get_file_mtime n, false)
    end in
  let base := strftime_name dt in
  dst ← unique_target_name fs (Path.with_name img (base +:+ ".jpeg"));
  Some {| p_src := img; p_dst := dst; p_dt := dt; p_used_exif := used_exif |}.

(** The planning loop: nothing is written while it runs. *)
Definition make_plans (w : world) (recursive : bool) : option (list plan) :=
  mapM (plan_one (w_fs w)) (iter_images w recursive).

End WithClock.

(** The JPEG that [rgb.save(dst, "JPEG", ...)] writes at time [now]. *)
Definition converted (picture : string) (now : Z) : node :=
  {| n_is_file := true; n_exif := None; n_picture := Some picture; n_mtime := now |}.

(** The body of the conversion loop, lines 126 to 134: the file system after
    it and whether the image was converted. *)
Definition convert_one (now : Z) (fs : gmap Path.path node) (pl : plan)
  : gmap Path.path node * bool :=
  match fs !! p_src pl with
  | Some n =>
      match n_picture n with
      | Some pic =>
          let fs1 := <[p_dst pl := converted pic now]> fs in
          (if bool_decide (p_src pl = p_dst pl) then fs1 else delete (p_src pl) fs1, true)
      | None => (fs, false)
      end
  | None => (fs, false)
  end.

Fixpoint convert_all (now : Z) (fs : gmap Path.path node) (plans : list plan)
  : gmap Path.path node * nat :=
  match plans with
  | [] => (fs, 0)
  | pl :: rest =>
      let '(fs1, ok) := convert_one now fs pl in
      let '(fs2, k) := convert_all now fs1 rest in
      (fs2, if ok then S k else k)
  end.

(** A run: the plans, the file system after it and the number of converted
    files. *)
Definition main (fromtimestamp : Z -> datetime) (now : Z) (a : args) (w : world)
  : option (list plan * gmap Path.path node * nat) :=
  plans ← make_plans fromtimestamp w (a_recursive a);
  if a_apply a
  then let '(fs, k) := convert_all now (w_fs w) plans in Some (plans, fs, k)
  else Some (plans, w_fs w, 0).

End Rename.

(** ** How a browser resolves the [href] of a link

    The pages are static files: a link that is not absolute is resolved
    against the directory of the page that holds it, [.] and [..] segments
    are removed (RFC 3986, 5.2). *)
Module Url.

(** The segments of a path between slashes. *)
Fixpoint split_go (s : string) (cur : string) : list string :=
  match s with
  | "" => [String.rev cur]
  | String c s' =>
      if Ascii.eqb c "/" then String.rev cur :: split_go s' ""
      else split_go s' (String c cur)
  end.

Definition split (s : string) : list string := split_go s "".

Fixpoint join (l : list string) : string :=
  match l with
  | [] => ""
  | [x] => x
  | x :: l' => x +:+ "/" +:+ join l'
  end.

(** Remove the dot segments; [acc] holds the segments kept, last first. *)
Fixpoint remove_dots (l : list string) (acc : list string) : list string :=
  match l with
  | [] => rev acc
  | x :: l' =>
      if bool_decide (x = ".") then remove_dots l' acc
      else if bool_decide (x = "..") then remove_dots l' (tail acc)
      else remove_dots l' (x :: acc)
  end.

(** The path a relative [href] on the page at [page] leads to. *)
Definition resolve (page href : string) : string :=
  join (remove_dots (removelast (split page) ++ split href) []).

(** The values of the [href] attributes of a page, in order. [cur] is the
    value being read, last character first. *)
Fixpoint hrefs_go (s : string) (skip : nat) (cur : option string) : list string :=
  match s with
  | "" => []
  | String c s' =>
      match skip with
      | S k => hrefs_go s' k cur
      | O =>
          match cur with
          | Some v =>
              if Ascii.eqb c (ascii_of_nat 34) then String.rev v :: hrefs_go s' 0 None
              else hrefs_go s' 0 (Some (String c v))
          | None =>
              if Py.startswith ("href=" +:+ Py.dquote) s
              then hrefs_go s' 5 (Some "")
              else hrefs_go s' 0 None
          end
      end
  end.

Definition hrefs (html : string) : list string := hrefs_go html 0 None.

End Url.

(** ** The sheets of QR codes of [build_site.py] (lines 153 to 215)

    A page is the list of what is drawn on it, in the order of the
    drawing: for every entry the QR code, resized to a square and pasted
    with its upper left corner at a pixel position, and the label under
    it.  The size of a text in Pillow's default font is an input. *)
Module Pdf.

Import BuildSite.

(** [mm_to_px(mm)] for a whole number of millimetres at 300 dpi:
    [int(round(mm * 300 / 25.4))].  The quotient is [mm * 1500 / 127], at a
    distance of at least 1/254 from every point half-way between two
    integers, which is far more than the error of the float division: the
    result is the integer nearest to the quotient. *)
Definition mm_to_px (mm : Z) : Z := ((mm * 3000 + 127) / 254)%Z.

Definition A4_W : Z := 2480.
Definition A4_H : Z := 3508.

Record placed : Type := {
  q_num : string;
  (** the upper left corner and the side of the QR code *)
  q_x : Z;
  q_y : Z;
  q_side : Z;
  (** the text of the label and the position of its upper left corner *)
  q_label : option (string * Z * Z) }.

Definition page : Type := list placed.

(** [items]: the numbers of the entries whose QR code is in [qr_dir]. *)
Definition items_of (qr_dir : string -> bool) (entries_meta : list entry) : list string :=
  List.filter (fun num => qr_dir (num +:+ ".png")) (map e_num entries_meta).

(** [range(0, stop, step)] *)
Definition range_step (stop step : nat) : list nat :=
  map (fun j => j * step) (seq 0 ((stop + step - 1) / step)).

(** [range(n)] *)
Definition range (n : Z) : list Z := map Z.of_nat (seq 0 (Z.to_nat n)).

Section WithFont.

(** [text_size(dr, text)]: width and height of the text. *)
Variable text_size : string -> Z * Z.

(** The body of the loop of line 166. *)
Definition overview_place (idx : nat) (num : string) : placed :=
  let cols := 3%Z in
  let rows := 5%Z in
  let margin := 100%Z in
  let cell_w := ((A4_W - 2 * margin) / cols)%Z in
  let cell_h := ((A4_H - 2 * margin) / rows)%Z in
  let r := (Z.of_nat idx / cols)%Z in
  let c := (Z.of_nat idx mod cols)%Z in
  let x0 := (margin + c * cell_w)%Z in
  let y0 := (margin + r * cell_h)%Z in
  let label_space := mm_to_px 5 in
  let target := (Z.min cell_w (cell_h - label_space) - mm_to_px 3)%Z in
  let target := Z.max 10%Z target in
  let ox := (x0 + (cell_w - target) / 2)%Z in
  let oy := (y0 + (cell_h - label_space - target) / 2)%Z in
  let text := "Eintrag " +:+ num in
  let '(tw, th) := text_size text in
  let tx := (x0 + (cell_w - tw) / 2)%Z in
  let ty := (y0 + cell_h - label_space + (label_space - th) / 2)%Z in
  {| q_num := num; q_x := ox; q_y := oy; q_side := target; q_label := Some (text, tx, ty) |}.

(** [make_qr_overview_pdf]: the pages saved in the PDF. *)
Definition make_qr_overview_pdf (qr_dir : string -> bool) (entries_meta : list entry)
  : list page :=
  let items := items_of qr_dir entries_meta in
  let pages :=
    map (fun i => imap overview_place (take (3 * 5) (drop i items)))
        (range_step (length items) (3 * 5)) in
  match pages with
  | [] => [[]]
  | _ :: _ => pages
  end.

(** The arguments of [make_labels_pdf]; the margins and gaps are given in
    pixels, as [mm_to_px] returns them. *)
Record label_args : Type := {
  l_cols : Z;
  l_rows : Z;
  l_ml : Z;
  l_mt : Z;
  l_hg : Z;
  l_vg : Z;
  l_include_labels : bool }.

(** Lines 199 to 212: the label of [num] in row [r] and column [c]. *)
Definition label_place (a : label_args) (r c : Z) (num : string) : placed :=
  let cell_w := mm_to_px 45 in
  let cell_h := mm_to_px 45 in
  let x0 := (l_ml a + c * (cell_w + l_hg a))%Z in
  let y0 := (l_mt a + r * (cell_h + l_vg a))%Z in
  let label_space := if l_include_labels a then mm_to_px 5 else 0%Z in
  let target := (Z.min cell_w (cell_h - label_space) - mm_to_px 3)%Z in
  let target := Z.max 10%Z target in
  let ox := (x0 + (cell_w - target) / 2)%Z in
  let oy := (y0 + (cell_h - label_space - target) / 2)%Z in
  let label :=
    if l_include_labels a then
      let text := "Eintrag " +:+ num in
      let '(tw, th) := text_size text in
      let tx := (x0 + (cell_w - tw) / 2)%Z in
      let ty := (y0 + cell_h - label_space + (label_space - th) / 2)%Z in
      Some (text, tx, ty)
    else None in
  {| q_num := num; q_x := ox; q_y := oy; q_side := target; q_label := label |}.

(** [for c in range(cols)] of line 197; [break] leaves this loop only. *)
Fixpoint cols_loop (a : label_args) (items : list string) (r : Z) (cs : list Z)
    (i : nat) (pg : page) : nat * page :=
  match cs with
  | [] => (i, pg)
  | c :: cs' =>
      match items !! i with
      | None => (i, pg)
      | Some num => cols_loop a items r cs' (S i) (pg ++ [label_place a r c num])
      end
  end.

(** [for r in range(rows)] of line 196. *)
Fixpoint rows_loop (a : label_args) (items : list string) (rs : list Z)
    (i : nat) (pg : page) : nat * page :=
  match rs with
  | [] => (i, pg)
  | r :: rs' =>
      let '(i', pg') := cols_loop a items r (range (l_cols a)) i pg in
      rows_loop a items rs' i' pg'
  end.

(** [while i < len(items)] of line 194; [None] when the fuel runs out. *)
Fixpoint pages_loop (fuel : nat) (a : label_args) (items : list string)
    (i : nat) (pages : list page) : option (list page) :=
  match fuel with
  | O => None
  | S f =>
      if i <? length items
      then
        let '(i', pg) := rows_loop a items (range (l_rows a)) i [] in
        pages_loop f a items i' (pages ++ [pg])
      else Some pages
  end.

(** [make_labels_pdf]: the pages saved in the PDF. *)
Definition make_labels_pdf (fuel : nat) (qr_dir : string -> bool) (entries_meta : list entry)
    (a : label_args) : option (list page) :=
  pages ← pages_loop fuel a (items_of qr_dir entries_meta) 0 [];
  Some (match pages with
        | [] => [[]]
        | _ :: _ => pages
        end).

End WithFont.

End Pdf.

(** * Vocabulary of the statements *)
Module Vocabulary.

Import Py Re.

(** A string of decimal digits only. *)
Fixpoint all_digits (s : string) : bool :=
  match s with
  | "" => true
  | String c s' => is_digit c && all_digits s'
  end.

(** The value of a string of digits read after the digits of [acc]. *)
Fixpoint dval (s : string) (acc : nat) : nat :=
  match s with
  | "" => acc
  | String c s' => dval s' (10 * acc + digit_val c)
  end.

(** The numbers of the groups of an expression. *)
Fixpoint groups_of (r : regex) : list nat :=
  match r with
  | Cat r1 r2 => groups_of r1 ++ groups_of r2
  | Star _ r1 | Rep _ r1 => groups_of r1
  | Group i r1 => i :: groups_of r1
  | _ => []
  end.

(** What a successful match tells: the continuation was entered at a later
    position of the string, with the captures of the groups outside the
    expression untouched. *)
Definition entered (r : regex) (s : string) (cs : caps) (k : cont)
    (res : string * caps) : Prop :=
  exists s1 cs1,
    k s1 cs1 = Some res /\
    String.length s1 <= String.length s /\
    forall i, i ∉ groups_of r -> cs1 !! i = cs !! i.

End Vocabulary.

(** Vocabulary for the statements about [build_site]. *)
Module SiteSpec.

Import BuildSite.

(** The image a row names: the text of its [Bildname] cell. *)
Definition image_name (columns : list string) (c_img : string) (row : list cell) : string :=
  Py.strip (str_cell (row_get columns row c_img)).

(** The text of the date cell of a row, where the sheet has a date column
    and the cell is not empty. *)
Definition date_text (columns : list string) (c_date : option string) (row : list cell)
  : option string :=
  match truthy c_date with
  | Some c =>
      let v := row_get columns row c in
      if isna v then None else Some (Py.strip (str_cell v))
  | None => None
  end.

(** A row the loop of [main] gets through: its image is there, and its date
    cell is not the one text on which [safe_date_from_excel] raises. *)
Definition row_fine (images : gmap string image) (columns : list string)
    (cu : columns_used) (row : list cell) : Prop :=
  is_Some (images !! image_name columns (col_img cu) row) /\
  date_text columns (col_date cu) row <> Some "\dddd".

Definition row_missing (images : gmap string image) (columns : list string)
    (cu : columns_used) (row : list cell) : Prop :=
  images !! image_name columns (col_img cu) row = None.

Definition is_html (pc : string * content) : bool :=
  match pc.2 with
  | Html _ => true
  | _ => false
  end.


(** The columns [main] reads in a sheet that has a [Bildname] column. *)
Definition columns_of (df : dataframe) : option columns_used :=
  let cols_ci := colmap (df_columns df) in
  match cols_ci !! "bildname" with
  | Some c_img =>
      Some {| col_img := c_img;
              col_desc := match truthy (cols_ci !! "beschreibung") with
                          | Some c => Some c
                          | None => cols_ci !! "text"
                          end;
              col_date := find_date_column (df_columns df) |}
  | None => None
  end.

(** The two copies of an image the loop writes. *)
Definition assets (name : string) : list (string * content) :=
  [("assets/images/" +:+ name, ImageCopy name MAX_IMAGE_WIDTH);
   ("assets/thumbs/" +:+ name, Thumb name THUMB_WIDTH)].


(** The text of the HTML page a run writes at a path. *)
Fixpoint find_page (ws : list (string * content)) (path : string) : option string :=
  match ws with
  | [] => None
  | (p, Html text) :: ws' => if bool_decide (p = path) then Some text else find_page ws' path
  | _ :: ws' => find_page ws' path
  end.

Definition page_text (o : outcome) (path : string) : option string :=
  find_page (o_writes o) path.

(** A string without a slash. *)
Fixpoint no_slash (s : string) : bool :=
  match s with
  | "" => true
  | String c s' => negb (Ascii.eqb c "/") && no_slash s'
  end.

(** The number of the row of index [k]. *)
Definition num_of (k : nat) : string := Py.zfill 3 (Py.str_nat (k + 1)).

End SiteSpec.

(** Vocabulary for the statements about [build_excel_from_images]. *)
Module ExcelSpec.

Import DT BuildExcel.





(** The file name holds the pattern with fields that are no date. *)
Definition bad_filename_date (f : file) : Prop :=
  exists e, datetime_from_filename f = Raise e.

(** The order of the sort key. *)
Definition dt_le (x y : file * datetime) : Prop := leb x.2 y.2 = true.

End ExcelSpec.

(** * Sample inputs for the checks at concrete values *)
Module Sample.

Import DT.

(** A machine on UTC whose pandas reads timestamps only. *)
Definition clock : Z -> datetime := utc_fromtimestamp.

Definition pandas (c : BuildSite.cell) : option datetime :=
  match c with
  | BuildSite.Timestamp d => Some d
  | _ => None
  end.

(** A photo taken on 2019-07-04 and copied on 2020-09-13. *)
Definition exif_2019 : exif_dict := {[ 36867%Z := "2019:07:04 12:00:00" ]}.

Definition photo_a : BuildSite.image :=
  {| BuildSite.img_exif := Some exif_2019; BuildSite.img_mtime := 1600000000000000 |}.

Definition photo_b : BuildSite.image :=
  {| BuildSite.img_exif := None; BuildSite.img_mtime := 1600000100000000 |}.

Definition sheet_two_rows : BuildSite.dataframe :=
  {| BuildSite.df_columns := ["Bildname"; "Beschreibung"];
     BuildSite.df_rows := [[BuildSite.Str "a.jpg"; BuildSite.Str "Am See"];
                           [BuildSite.Str "b.jpg"; BuildSite.NaN]] |}.

Definition site_world : BuildSite.world :=
  {| BuildSite.w_xlsx := Some sheet_two_rows;
     BuildSite.w_images := Some {[ "a.jpg" := photo_a; "b.jpg" := photo_b ]};
     BuildSite.w_out := None |}.


Definition site_args : BuildSite.args :=
  {| BuildSite.a_base_url := Some "https://example.org/gift";
     BuildSite.a_make_qr := true; BuildSite.a_qrs_pdf := false;
     BuildSite.a_labels := false; BuildSite.a_no_entry_labels := false |}.








(** Three images: one dated by its name, one by EXIF, one by its
    modification time only; and a text file. *)
Definition named_file : BuildExcel.file :=
  {| BuildExcel.f_path := ("/photos", "IMG_2021-05-06_070809.JPG");
     BuildExcel.f_is_file := true; BuildExcel.f_exif := Some exif_2019;
     BuildExcel.f_mdls := None; BuildExcel.f_birthtime := None;
     BuildExcel.f_mtime := 1600000000000000 |}.

Definition exif_file : BuildExcel.file :=
  {| BuildExcel.f_path := ("/photos", "see.jpeg");
     BuildExcel.f_is_file := true; BuildExcel.f_exif := Some exif_2019;
     BuildExcel.f_mdls := None; BuildExcel.f_birthtime := Some 1500000000000000%Z;
     BuildExcel.f_mtime := 1600000000000000 |}.

Definition plain_file : BuildExcel.file :=
  {| BuildExcel.f_path := ("/photos", "scan.png");
     BuildExcel.f_is_file := true; BuildExcel.f_exif := None;
     BuildExcel.f_mdls := None; BuildExcel.f_birthtime := Some 0%Z;
     BuildExcel.f_mtime := 1600000000000000 |}.

Definition text_file : BuildExcel.file :=
  {| BuildExcel.f_path := ("/photos", "notes.txt");
     BuildExcel.f_is_file := true; BuildExcel.f_exif := None;
     BuildExcel.f_mdls := None; BuildExcel.f_birthtime := None;
     BuildExcel.f_mtime := 1600000000000000 |}.

Definition excel_world : BuildExcel.world :=
  {| BuildExcel.w_root := "/photos"; BuildExcel.w_root_is_dir := true;
     BuildExcel.w_iterdir := [named_file; text_file; exif_file; plain_file];
     BuildExcel.w_rglob := [named_file; text_file; exif_file; plain_file] |}.

Definition excel_args : BuildExcel.args :=
  {| BuildExcel.a_recursive := false; BuildExcel.a_write := true;
     BuildExcel.a_out := None; BuildExcel.a_base_url := Some "https://example.org/gift";
     BuildExcel.a_desc_from_name := true |}.

(** Two pictures saved in the same second, without EXIF. *)
Definition shot (picture : string) : Rename.node :=
  {| Rename.n_is_file := true; Rename.n_exif := None;
     Rename.n_picture := Some picture; Rename.n_mtime := 1600000000000000 |}.

Definition rename_world : Rename.world :=
  {| Rename.w_fs := {[ ("/photos", "a.png") := shot "A"; ("/photos", "b.png") := shot "B" ]};
     Rename.w_iterdir := [("/photos", "a.png"); ("/photos", "b.png")];
     Rename.w_rglob := [("/photos", "a.png"); ("/photos", "b.png")] |}.

Definition rename_args : Rename.args :=
  {| Rename.a_recursive := false; Rename.a_apply := true; Rename.a_quality := 95 |}.

(** The time of the run. *)
Definition now : Z := 1700000000000000.

End Sample.

(** * Vocabulary of the further statements *)
Module More.

(** The character [c] does not occur in [s]. *)
Fixpoint lacks (c : ascii) (s : string) : bool :=
  match s with
  | "" => true
  | String a s' => negb (Ascii.eqb a c) && lacks c s'
  end.

(** A name [stem.ext] with a non-empty stem whose extension is, up to the
    case of its letters, one of [exts]. *)
Definition image_name (exts : list string) (n : string) : Prop :=
  exists stem ext, n = stem +:+ "." +:+ ext /\ stem <> "" /\ "." +:+ Py.lower ext ∈ exts.


#[global] Instance datetime_eq_dec : EqDecision DT.datetime.
Proof. solve_decision. Defined.

(** The header of the sheet [build_excel_from_images] writes (line 145). *)
Definition sheet_columns : list string :=
  ["ID"; "Bildernamen"; "Datum/Jahr"; "Beschreibung"; "Link"].


(** The square a QR code covers lies on the page. *)
Definition on_page (q : Pdf.placed) : Prop :=
  (0 <= Pdf.q_x q /\ Pdf.q_x q + Pdf.q_side q <= Pdf.A4_W /\
   0 <= Pdf.q_y q /\ Pdf.q_y q + Pdf.q_side q <= Pdf.A4_H)%Z.

(** The squares of two QR codes have no pixel in common. *)
Definition apart (p q : Pdf.placed) : Prop :=
  (Pdf.q_x p + Pdf.q_side p <= Pdf.q_x q \/ Pdf.q_x q + Pdf.q_side q <= Pdf.q_x p \/
   Pdf.q_y p + Pdf.q_side p <= Pdf.q_y q \/ Pdf.q_y q + Pdf.q_side q <= Pdf.q_y p)%Z.

(** The label of a QR code begins below the square of the code. *)
Definition label_below (q : Pdf.placed) : Prop :=
  match Pdf.q_label q with
  | Some (_, _, ty) => (Pdf.q_y q + Pdf.q_side q <= ty)%Z
  | None => True
  end.

(** The page the loops of lines 196 to 212 of [make_labels_pdf] fill from
    the item of index [i] on: the cells row by row, one item to a cell,
    until the cells or the items run out. *)
Definition label_page (text_size : string -> Z * Z) (a : Pdf.label_args)
    (items : list string) (i : nat) : Pdf.page :=
  zip_with (fun rc => Pdf.label_place text_size a rc.1 rc.2)
    (list_prod (Pdf.range (Pdf.l_rows a)) (Pdf.range (Pdf.l_cols a))) (drop i items).

(** A font whose characters are 6 pixels wide and 11 pixels high. *)
Definition plain_font (s : string) : Z * Z := (6 * Z.of_nat (String.length s), 11)%Z.

(** The entries numbered 001 to [n], as [build_site] numbers them. *)
Definition entries_upto (n : nat) : list BuildSite.entry :=
  map (fun i =>
         let num := Py.zfill 3 (Py.str_nat i) in
         {| BuildSite.e_num := num; BuildSite.e_image := num +:+ ".jpg";
            BuildSite.e_thumb := "assets/thumbs/" +:+ num +:+ ".jpg";
            BuildSite.e_href := "e/" +:+ num +:+ ".html";
            BuildSite.e_date := "01.01.2020"; BuildSite.e_desc := "" |})
      (seq 1 n).

(** The default arguments of [make_labels_pdf], in pixels. *)
Definition default_labels : Pdf.label_args :=
  {| Pdf.l_cols := 4; Pdf.l_rows := 6;
     Pdf.l_ml := Pdf.mm_to_px 8; Pdf.l_mt := Pdf.mm_to_px 8;
     Pdf.l_hg := Pdf.mm_to_px 3; Pdf.l_vg := Pdf.mm_to_px 3;
     Pdf.l_include_labels := true |}.

(** The candidate of round [i] of [unique_target_name]. *)
Definition candidate (target : Path.path) (i : nat) : Path.path :=
  Path.with_name target
    (Path.stem target +:+ "-" +:+ Py.str_nat i +:+ Path.suffix target).

(** Pillow can decode the source of a plan. *)
Definition decodable (fs : gmap Path.path Rename.node) (pl : Rename.plan) : bool :=
  match fs !! Rename.p_src pl with
  | Some n => bool_decide (is_Some (Rename.n_picture n))
  | None => false
  end.

(** The fields of a timestamp down to the second are a calendar date and a
    time of day. *)
Definition real_date (d : DT.datetime) : Prop :=
  is_Some (DT.make (DT.year d) (DT.month d) (DT.day d)
                   (DT.hour d) (DT.minute d) (DT.second d)).

(** Two timestamps lie in the same second. *)
Definition same_second (d1 d2 : DT.datetime) : Prop :=
  DT.year d1 = DT.year d2 /\ DT.month d1 = DT.month d2 /\ DT.day d1 = DT.day d2 /\
  DT.hour d1 = DT.hour d2 /\ DT.minute d1 = DT.minute d2 /\ DT.second d1 = DT.second d2.

(** The plans have pairwise distinct sources and destinations, and no
    destination is a source. *)
Definition separate (plans : list Rename.plan) : Prop :=
  NoDup (map Rename.p_src plans) /\ NoDup (map Rename.p_dst plans) /\
  forall pl pl', pl ∈ plans -> pl' ∈ plans -> Rename.p_src pl <> Rename.p_dst pl'.

(** A folder for [rename_and_convert_to_jpeg]: two pictures of different
    seconds, a file Pillow cannot read, a text file, and a JPEG that already
    has the name the first picture is going to get. *)
Definition album : Rename.world :=
  let pic (picture : option string) (mtime : Z) :=
    {| Rename.n_is_file := true; Rename.n_exif := None;
       Rename.n_picture := picture; Rename.n_mtime := mtime |} in
  let listing := [("/album", "2020-09-13_122640.jpeg"); ("/album", "a.png");
                  ("/album", "b.JPG"); ("/album", "broken.png"); ("/album", "notes.txt")] in
  {| Rename.w_fs := {[ ("/album", "2020-09-13_122640.jpeg") := pic (Some "old") 1600000240000000%Z;
                       ("/album", "a.png") := pic (Some "A") 1600000000000000%Z;
                       ("/album", "b.JPG") := pic (Some "B") 1600000060000000%Z;
                       ("/album", "broken.png") := pic None 1600000120000000%Z;
                       ("/album", "notes.txt") := pic None 1600000180000000%Z ]};
     Rename.w_iterdir := listing;
     Rename.w_rglob := listing |}.

End More.

(** * Facts about the built-ins *)
Module PyFacts.

Import Py Vocabulary.

Local Arguments digit_char : simpl never.
Local Arguments Nat.div : simpl never.
Local Arguments Nat.modulo : simpl never.

Lemma length_app (s1 s2 : string) :
  String.length (s1 +:+ s2) = String.length s1 + String.length s2.
Proof.
  induction s1 as [|c s1 IH]; [reflexivity|].
  change (S (String.length (s1 +:+ s2)) = S (String.length s1 + String.length s2)).
  by rewrite IH.
Qed.

Lemma app_assoc (s1 s2 s3 : string) : (s1 +:+ s2) +:+ s3 = s1 +:+ (s2 +:+ s3).
Proof.
  induction s1 as [|c s1 IH]; [reflexivity|].
  change (String c ((s1 +:+ s2) +:+ s3) = String c (s1 +:+ (s2 +:+ s3))).
  by rewrite IH.
Qed.

Lemma app_cons (c : ascii) (s1 s2 : string) : String c s1 +:+ s2 = String c (s1 +:+ s2).
Proof. reflexivity. Qed.

Lemma app_empty_l (s : string) : "" +:+ s = s.
Proof. reflexivity. Qed.

Lemma app_empty_r (s : string) : s +:+ "" = s.
Proof.
  induction s as [|c s IH]; [reflexivity|]. rewrite app_cons. by rewrite IH.
Qed.

Lemma length_repeat_char (c : ascii) (n : nat) : String.length (repeat_char c n) = n.
Proof. induction n as [|n IH]; simpl; [reflexivity | by rewrite IH]. Qed.

(** *** Digits *)

Lemma digit_char_spec (d : nat) :
  d < 10 -> is_digit (digit_char d) = true /\ digit_val (digit_char d) = d.
Proof.
  intros H. do 10 (destruct d as [|d]; [split; reflexivity|]). lia.
Qed.

Lemma digit_not_space (c : ascii) : is_digit c = true -> is_space c = false.
Proof. destruct c as [[] [] [] [] [] [] [] []]; vm_compute; congruence. Qed.

Lemma digit_not_sign (c : ascii) :
  is_digit c = true -> (Ascii.eqb c "+" || Ascii.eqb c "-")%bool = false.
Proof. destruct c as [[] [] [] [] [] [] [] []]; vm_compute; congruence. Qed.

Lemma digit_not_underscore (c : ascii) : is_digit c = true -> Ascii.eqb c "_" = false.
Proof. destruct c as [[] [] [] [] [] [] [] []]; vm_compute; congruence. Qed.

Lemma all_digits_app (s1 s2 : string) :
  all_digits (s1 +:+ s2) = all_digits s1 && all_digits s2.
Proof.
  induction s1 as [|c s1 IH]; [reflexivity|].
  rewrite app_cons. simpl. rewrite IH. by rewrite andb_assoc.
Qed.

Lemma dval_app (s1 s2 : string) (acc : nat) : dval (s1 +:+ s2) acc = dval s2 (dval s1 acc).
Proof.
  revert acc. induction s1 as [|c s1 IH]; intros acc; [reflexivity|].
  rewrite app_cons. simpl. apply IH.
Qed.

Lemma digits_fuel_acc (f n : nat) (acc : string) :
  digits_fuel f n acc = digits_fuel f n "" +:+ acc.
Proof.
  revert n acc. induction f as [|f IH]; intros n acc; [reflexivity|].
  cbn [digits_fuel]. destruct (n <? 10); [reflexivity|].
  rewrite IH. rewrite (IH _ (String _ "")). by rewrite app_assoc.
Qed.

Lemma digits_fuel_enough (f1 f2 n : nat) (acc : string) :
  n < f1 -> n < f2 -> digits_fuel f1 n acc = digits_fuel f2 n acc.
Proof.
  revert f2 n acc. induction f1 as [|f1 IH]; intros f2 n acc H1 H2; [lia|].
  destruct f2 as [|f2]; [lia|]. cbn [digits_fuel].
  destruct (n <? 10) eqn:E; [reflexivity|].
  apply Nat.ltb_ge in E.
  assert (n / 10 < n) by (apply Nat.div_lt; lia).
  apply IH; lia.
Qed.

(** The equation of [str]: the last digit after the digits of the tenth. *)
Lemma str_nat_unfold (n : nat) :
  str_nat n =
  if n <? 10 then String (digit_char n) ""
  else str_nat (n / 10) +:+ String (digit_char (n mod 10)) "".
Proof.
  unfold str_nat at 1. cbn [digits_fuel].
  destruct (n <? 10) eqn:E.
  - apply Nat.ltb_lt in E. by rewrite Nat.mod_small.
  - apply Nat.ltb_ge in E. rewrite digits_fuel_acc. f_equal.
    unfold str_nat. apply digits_fuel_enough.
    + assert (n / 10 < n) by (apply Nat.div_lt; lia). lia.
    + lia.
Qed.

Lemma str_nat_ind (P : nat -> Prop) :
  (forall n, n < 10 -> P n) ->
  (forall n, 10 <= n -> P (n / 10) -> P n) ->
  forall n, P n.
Proof.
  intros Hs Hb n. induction n as [n IH] using lt_wf_ind.
  destruct (Nat.lt_ge_cases n 10) as [H|H]; [by apply Hs|].
  apply Hb; [done|]. apply IH. apply Nat.div_lt; lia.
Qed.

Lemma str_nat_digits (n : nat) : all_digits (str_nat n) = true.
Proof.
  induction n as [n H|n H IH] using str_nat_ind; rewrite str_nat_unfold.
  - apply Nat.ltb_lt in H as Hb. rewrite Hb. cbn [all_digits].
    by rewrite (proj1 (digit_char_spec n H)).
  - apply Nat.ltb_ge in H as ->. rewrite all_digits_app, IH. cbn [all_digits].
    by rewrite (proj1 (digit_char_spec (n mod 10) ltac:(by apply Nat.mod_upper_bound))).
Qed.

Lemma str_nat_dval (n : nat) : dval (str_nat n) 0 = n.
Proof.
  induction n as [n H|n H IH] using str_nat_ind; rewrite str_nat_unfold.
  - apply Nat.ltb_lt in H as Hb. rewrite Hb. cbn [dval].
    rewrite (proj2 (digit_char_spec n H)). lia.
  - apply Nat.ltb_ge in H as ->. rewrite dval_app, IH. cbn [dval].
    rewrite (proj2 (digit_char_spec (n mod 10) ltac:(by apply Nat.mod_upper_bound))).
    rewrite (Nat.div_mod_eq n 10) at 3. lia.
Qed.

Lemma str_nat_length_pos (n : nat) : 1 <= String.length (str_nat n).
Proof.
  rewrite str_nat_unfold. destruct (n <? 10); [cbn [String.length]; lia|].
  rewrite length_app. cbn [String.length]. lia.
Qed.

(** [len(str(i))] grows with [i]. *)
Lemma str_nat_length_mono (i n : nat) :
  i <= n -> String.length (str_nat i) <= String.length (str_nat n).
Proof.
  revert i. induction n as [n H|n H IH] using str_nat_ind; intros i Hi.
  - rewrite (str_nat_unfold i), (str_nat_unfold n).
    assert ((i <? 10) = true) as -> by (apply Nat.ltb_lt; lia).
    by apply Nat.ltb_lt in H as ->.
  - rewrite (str_nat_unfold i), (str_nat_unfold n).
    apply Nat.ltb_ge in H as Hn. rewrite Hn.
    rewrite length_app. cbn [String.length].
    destruct (i <? 10) eqn:E; [cbn [String.length]; lia|].
    rewrite length_app. cbn [String.length].
    specialize (IH (i / 10) ltac:(by apply Nat.Div0.div_le_mono)). lia.
Qed.


Lemma all_digits_head (s : string) :
  all_digits s = true -> s <> "" -> exists c s', s = String c s' /\ is_digit c = true.
Proof.
  destruct s as [|c s']; [done|]. simpl. intros [H _]%andb_prop _. eauto.
Qed.

Lemma str_nat_nonempty (n : nat) : str_nat n <> "".
Proof.
  intros E. pose proof (str_nat_length_pos n) as H. rewrite E in H. simpl in H. lia.
Qed.

(** *** [zfill] on numerals *)

Lemma zfill_digits (w : nat) (s : string) :
  all_digits s = true ->
  zfill w s = repeat_char "0" (w - String.length s) +:+ s.
Proof.
  intros H. unfold zfill. destruct s as [|c s']; [by rewrite app_empty_r|].
  simpl in H. apply andb_prop in H as [Hc _].
  by rewrite (digit_not_sign c Hc).
Qed.

Lemma zfill_length (w : nat) (s : string) :
  all_digits s = true -> String.length (zfill w s) = Nat.max w (String.length s).
Proof.
  intros H. rewrite zfill_digits by done.
  rewrite length_app, length_repeat_char. lia.
Qed.

Lemma zeros_digits (k : nat) : all_digits (repeat_char "0" k) = true.
Proof. induction k as [|k IH]; [reflexivity|]. simpl. exact IH. Qed.

Lemma zeros_dval (k : nat) : dval (repeat_char "0" k) 0 = 0.
Proof. induction k as [|k IH]; [reflexivity|]. simpl. exact IH. Qed.

Lemma zfill_all_digits (w : nat) (s : string) :
  all_digits s = true -> all_digits (zfill w s) = true.
Proof.
  intros H. rewrite zfill_digits by done. by rewrite all_digits_app, zeros_digits, H.
Qed.

(** *** [int] on numerals *)

Lemma lstrip_digits (s : string) : all_digits s = true -> lstrip s = s.
Proof.
  destruct s as [|c s']; [reflexivity|]. simpl. intros [Hc _]%andb_prop.
  by rewrite (digit_not_space c Hc).
Qed.

Lemma rstrip_digits (s : string) : all_digits s = true -> rstrip s = s.
Proof.
  induction s as [|c s' IH]; [reflexivity|]. simpl. intros [Hc Hs]%andb_prop.
  rewrite (IH Hs). destruct s'; [by rewrite (digit_not_space c Hc)|reflexivity].
Qed.

Lemma int_digits_all (s : string) (prev : bool) (acc : nat) :
  all_digits s = true -> s <> "" -> int_digits s prev acc = Some (dval s acc).
Proof.
  revert prev acc. induction s as [|c s' IH]; intros prev acc H Hne; [done|].
  simpl in H. apply andb_prop in H as [Hc Hs]. simpl. rewrite Hc.
  destruct s' as [|c' s'']; [reflexivity|]. by apply IH.
Qed.

Lemma int_of_digits (s : string) :
  all_digits s = true -> s <> "" -> int s = Some (Z.of_nat (dval s 0)).
Proof.
  intros H Hne. unfold int, strip. rewrite lstrip_digits, rstrip_digits by done.
  destruct (all_digits_head s H Hne) as (c & s' & -> & Hc).
  assert (int_digits (String c s') false 0 = Some (dval (String c s') 0)) as E
    by (by apply int_digits_all).
  destruct c as [[] [] [] [] [] [] [] []]; try discriminate Hc; by rewrite E.
Qed.

(** [int(str(n).zfill(w)) == n] *)
Lemma int_zfill_str (w n : nat) : int (zfill w (str_nat n)) = Some (Z.of_nat n).
Proof.
  rewrite int_of_digits.
  - rewrite zfill_digits by apply str_nat_digits.
    by rewrite dval_app, zeros_dval, str_nat_dval.
  - apply zfill_all_digits, str_nat_digits.
  - rewrite zfill_digits by apply str_nat_digits.
    intros E. apply (f_equal String.length) in E. rewrite length_app in E.
    pose proof (str_nat_length_pos n). simpl in E. lia.
Qed.

Lemma zfill_str_inj (w i j : nat) : zfill w (str_nat i) = zfill w (str_nat j) -> i = j.
Proof.
  intros E. apply (f_equal int) in E. rewrite !int_zfill_str in E.
  injection E. lia.
Qed.

Lemma str_nat_inj (i j : nat) : str_nat i = str_nat j -> i = j.
Proof.
  intros E. apply (f_equal (fun s => dval s 0)) in E. by rewrite !str_nat_dval in E.
Qed.

End PyFacts.

(** * Facts about the matcher *)
Module ReFacts.

Import Re Vocabulary.

Lemma skip_cont_length (s : string) : String.length (skip_cont s) <= String.length s.
Proof.
  induction s as [|c s IH]; [done|]. simpl. destruct (is_cont c); simpl; lia.
Qed.

Lemma rmatch_entered (r : regex) :
  forall s cs k res, rmatch r s cs k = Some res -> entered r s cs k res.
Proof.
  induction r as [c| | |l| |r1 IH1 r2 IH2|g r1 IH1|n r1 IH1|i r1 IH1];
    intros s cs k res H.
  - destruct s as [|a s']; simpl in H; [done|].
    destruct (Ascii.eqb a c); [|done]. exists s', cs. simpl. auto.
  - destruct s as [|a s']; simpl in H; [done|].
    destruct (Ascii.eqb a Py.NL); [done|]. exists (skip_cont s'), cs.
    pose proof (skip_cont_length s'). simpl. auto.
  - destruct s as [|a s']; simpl in H; [done|].
    destruct (Py.is_digit a); [|done]. exists s', cs. simpl. auto.
  - destruct s as [|a s']; simpl in H; [done|].
    destruct (existsb (Ascii.eqb a) l); [|done]. exists s', cs. simpl. auto.
  - exists s, cs. auto.
  - simpl in H. apply IH1 in H as (s1 & cs1 & H & Hl1 & Hc1).
    apply IH2 in H as (s2 & cs2 & H & Hl2 & Hc2).
    exists s2, cs2. split; [done|]. split; [lia|].
    intros i Hi. simpl in Hi. rewrite Hc2, Hc1; [done|set_solver..].
  - cbn [rmatch] in H. revert H. generalize (String.length s). intros fuel.
    revert s cs. induction fuel as [|fuel IHf]; intros s cs H.
    + destruct g; simpl in H.
      * exists s, cs. auto.
      * destruct (k s cs) eqn:E; simpl in H; [|done].
        exists s, cs. simplify_eq. auto.
    + assert (
        rmatch r1 s cs (fun s' cs' =>
          if String.length s' <? String.length s
          then star_loop g (rmatch r1) k fuel s' cs'
          else None) = Some res -> entered (Star g r1) s cs k res) as Hagain.
      { intros H'. apply IH1 in H' as (s1 & cs1 & H' & Hl1 & Hc1).
        destruct (String.length s1 <? String.length s) eqn:E; [|done].
        apply IHf in H' as (s2 & cs2 & H' & Hl2 & Hc2).
        exists s2, cs2. split; [done|]. split; [lia|].
        intros i Hi. rewrite Hc2, Hc1; done. }
      cbn [star_loop] in H. destruct g; unfold orelse in H.
      * match type of H with
        | match ?x with _ => _ end = _ => destruct x eqn:E
        end.
        -- simplify_eq. by apply Hagain.
        -- exists s, cs. auto.
      * destruct (k s cs) eqn:E.
        -- exists s, cs. simplify_eq. auto.
        -- by apply Hagain.
  - cbn [rmatch] in H. revert s cs H. induction n as [|n IHn]; intros s cs H.
    + exists s, cs. auto.
    + cbn [rep_loop] in H. apply IH1 in H as (s1 & cs1 & H & Hl1 & Hc1).
      apply IHn in H as (s2 & cs2 & H & Hl2 & Hc2).
      exists s2, cs2. split; [done|]. split; [lia|].
      intros j Hj. rewrite Hc2, Hc1; done.
  - simpl in H. apply IH1 in H as (s1 & cs1 & H & Hl1 & Hc1).
    exists s1, (<[i := Py.consumed s s1]> cs1). split; [done|]. split; [done|].
    intros j Hj. simpl in Hj. rewrite lookup_insert_ne by set_solver.
    apply Hc1. set_solver.
Qed.

(** The first group of a pattern that opens with [(c...)], where [c] is a
    literal character, holds a text that starts with [c]. *)
Lemma first_group_literal (c : ascii) (r' rest : regex) (s : string) (res : string * caps) :
  1 ∉ groups_of rest ->
  rmatch (Cat (Group 1 (Cat (Lit c) r')) rest) s ∅ (fun s' cs => Some (s', cs)) = Some res ->
  exists t, res.2 !! 1 = Some (String c t).
Proof.
  intros Hrest H. cbn [rmatch] in H.
  destruct s as [|a s0]; [done|].
  destruct (Ascii.eqb_spec a c) as [->|]; [|done].
  apply rmatch_entered in H as (s1 & cs1 & H & Hl1 & _).
  apply rmatch_entered in H as (s2 & cs2 & H & _ & Hc2).
  simplify_eq. simpl. rewrite (Hc2 1 Hrest), lookup_insert_eq.
  unfold Py.consumed. cbn [String.length].
  destruct (S (String.length s0) - String.length s1) eqn:E; [lia|].
  simpl. eauto.
Qed.

Lemma search_from_groups (r : regex) (s : string) (pos : nat) (m : Match) :
  search_from r pos s = Some m ->
  exists s0 s', rmatch r s0 ∅ (fun s' cs => Some (s', cs)) = Some (s', m_groups m).
Proof.
  revert pos. induction s as [|a s IH]; intros pos H; simpl in H.
  - unfold match_here in H. simpl in H.
    destruct (rmatch r "" ∅ _) as [[s' cs]|] eqn:E; [|done].
    simplify_eq. eauto.
  - unfold match_here in H.
    destruct (at_boundary (String a s)).
    + destruct (rmatch r (String a s) ∅ _) as [[s' cs]|] eqn:E.
      * simplify_eq. eauto.
      * by apply IH in H.
    + by apply IH in H.
Qed.

End ReFacts.

(** * Facts about [build_site] *)
Module SiteFacts.

Import DT BuildSite Vocabulary SiteSpec.

Lemma int_backslash (t : string) : Py.int (String "\" t) = None.
Proof.
  unfold Py.int, Py.strip. cbn [Py.lstrip].
  change (Py.is_space "\") with false. cbn iota.
  cbn [Py.rstrip]. change (Py.is_space "\") with false.
  destruct (Py.rstrip t); reflexivity.
Qed.

Lemma of_groups_backslash (t : string) (l : list (option string)) :
  of_groups (Some (String "\" t) :: l) = None.
Proof.
  unfold of_groups.
  repeat (match goal with
          | |- context [match ?x with [] => _ | _ :: _ => _ end] => destruct x
          | |- context [match ?x with Some _ => _ | None => _ end] => is_var x; destruct x
          end; try reflexivity).
  by rewrite int_backslash.
Qed.

(** The compiled date pattern of [build_site]: a backslash and four letters
    [d] where the sibling scripts have four digits. *)
Lemma DATE_RE_compiled :
  exists r' rest,
    DATE_RE = Some (Re.Cat (Re.Group 1 (Re.Cat (Re.Lit "\") r')) rest, 6) /\
    1 ∉ groups_of rest.
Proof.
  eexists _, _. split; [reflexivity|].
  apply (bool_decide_eq_false_1 _). by vm_compute.
Qed.

Lemma search_groups_backslash (s : string) (gs : list (option string)) :
  search_groups DATE_RE s = Some gs -> exists t l, gs = Some (String "\" t) :: l.
Proof.
  destruct DATE_RE_compiled as (r' & rest & -> & Hrest). unfold search_groups.
  destruct (Re.search _ s) as [m|] eqn:E; [|done]. intros [= <-].
  apply ReFacts.search_from_groups in E as (s0 & s' & E).
  apply ReFacts.first_group_literal in E as [t E]; [|done].
  simpl in E. unfold Re.groups. cbn [seq map]. rewrite E. eauto.
Qed.

Lemma exif_loop_none (tags : list Z) (exif : exif_dict) : exif_loop tags exif = None.
Proof.
  induction tags as [|tag tags IH]; [reflexivity|]. cbn [exif_loop].
  destruct (exif !! tag) as [raw|]; [|done].
  destruct (search_groups DATE_RE raw) as [gs|] eqn:E; [|done].
  apply search_groups_backslash in E as (t & l & ->). apply of_groups_backslash.
Qed.

Lemma exif_datetime_none (im : image) : exif_datetime im = None.
Proof.
  unfold exif_datetime. destruct (img_exif im) as [exif|]; [|done].
  destruct (bool_decide (exif = ∅)); [done|]. apply exif_loop_none.
Qed.

(** The year pattern accepts one text only. *)
Lemma fullmatch_year (s : string) :
  match YEAR_RE with
  | Some (r, _) => Re.fullmatch r s = None \/ s = "\dddd"
  | None => False
  end.
Proof.
  assert (YEAR_RE =
          Some (Re.Cat (Re.Lit "\") (Re.Cat (Re.Rep 4 (Re.Lit "d")) Re.Eps), 0)) as ->
    by reflexivity.
  unfold Re.fullmatch. cbn [Re.rmatch Re.rep_loop].
  repeat (destruct s as [|? s]; [by left|];
          match goal with
          | |- context [Ascii.eqb ?a ?b] => destruct (Ascii.eqb_spec a b) as [->|]; [|by left]
          end).
  destruct s; [by right|by left].
Qed.

Section WithLibraries.

Variable fromtimestamp : Z -> datetime.
Variable pd_to_datetime : cell -> option datetime.

Lemma safe_date_ok (val : cell) :
  (isna val = false -> Py.strip (str_cell val) <> "\dddd") ->
  safe_date_from_excel pd_to_datetime val =
  Ok (if isna val then None else pd_to_datetime val).
Proof.
  intros H. unfold safe_date_from_excel. destruct (isna val); [done|].
  pose proof (fullmatch_year (Py.strip (str_cell val))) as Hy.
  destruct YEAR_RE as [[r n]|]; [|done].
  destruct Hy as [-> | Hy]; [done|]. by destruct H.
Qed.

Lemma safe_date_raises (val : cell) :
  isna val = false -> Py.strip (str_cell val) = "\dddd" ->
  safe_date_from_excel pd_to_datetime val = Raise (ValueError "int").
Proof.
  intros Hna E. unfold safe_date_from_excel. rewrite Hna, E. reflexivity.
Qed.

Lemma resolve_date_ok (columns : list string) (c_date : option string)
    (row : list cell) (im : image) :
  date_text columns c_date row <> Some "\dddd" ->
  exists d, resolve_date fromtimestamp pd_to_datetime c_date columns row im = Ok d.
Proof.
  unfold date_text, resolve_date. intros H.
  destruct (truthy c_date) as [c|]; [|simpl; eauto].
  rewrite safe_date_ok; [simpl; eauto|].
  intros Hna. rewrite Hna in H. congruence.
Qed.


(** The date of a row never comes from EXIF: it is the date of the sheet
    or the modification time. *)
Lemma resolve_date_sources (columns : list string) (c_date : option string)
    (row : list cell) (im : image) (d : datetime) :
  resolve_date fromtimestamp pd_to_datetime c_date columns row im = Ok d ->
  d = fromtimestamp (img_mtime im) \/
  exists c, truthy c_date = Some c /\
            safe_date_from_excel pd_to_datetime (row_get columns row c) = Ok (Some d).
Proof.
  unfold resolve_date. rewrite exif_datetime_none.
  destruct (truthy c_date) as [c|]; simpl.
  - destruct (safe_date_from_excel _ _) as [[d'|]|] eqn:E; simpl; intros [= <-]; eauto.
  - intros [= <-]. by left.
Qed.


(** *** The loop over the rows *)

Lemma process_row_missing (images : gmap string image) (columns : list string)
    (cu : columns_used) (idx : nat) (row : list cell) :
  row_missing images columns cu row ->
  process_row fromtimestamp pd_to_datetime images columns cu idx row =
  ([], Raise (FileNotFoundError
                ("Bild nicht gefunden: " +:+ image_name columns (col_img cu) row))).
Proof.
  unfold row_missing, image_name, process_row. by intros ->.
Qed.

Lemma process_row_fine (images : gmap string image) (columns : list string)
    (cu : columns_used) (idx : nat) (row : list cell) :
  row_fine images columns cu row ->
  exists m,
    process_row fromtimestamp pd_to_datetime images columns cu idx row =
    (assets (image_name columns (col_img cu) row), Ok m) /\
    e_num m = num_of idx /\ e_href m = "e/" +:+ num_of idx +:+ ".html".
Proof.
  unfold row_fine, image_name, process_row. intros [[im Him] Hd]. rewrite Him.
  destruct (resolve_date_ok columns (col_date cu) row im Hd) as [d ->].
  simpl. eauto.
Qed.








End WithLibraries.

(** *** The files written *)






Lemma app_inv_tail (s1 s2 t : string) : s1 +:+ t = s2 +:+ t -> s1 = s2.
Proof.
  revert s2. induction s1 as [|c s1 IH]; intros [|c' s2] E.
  - done.
  - apply (f_equal String.length) in E.
    rewrite PyFacts.app_cons, PyFacts.app_empty_l in E. cbn [String.length] in E.
    rewrite PyFacts.length_app in E. lia.
  - apply (f_equal String.length) in E.
    rewrite PyFacts.app_cons, PyFacts.app_empty_l in E. cbn [String.length] in E.
    rewrite PyFacts.length_app in E. lia.
  - rewrite !PyFacts.app_cons in E. injection E as -> E. f_equal. by apply IH.
Qed.


(** *** The links to the neighbours *)

Lemma prev_link_present (entries : list entry) (i : nat) :
  prev_link entries i <> "" <-> 0 < i.
Proof.
  unfold prev_link. destruct i as [|i]; simpl; [split; [done|lia]|].
  split; [lia|done].
Qed.

Lemma next_link_present (entries : list entry) (i : nat) :
  next_link entries i <> "" <-> i < length entries - 1.
Proof.
  unfold next_link. destruct (i <? length entries - 1) eqn:E.
  - apply Nat.ltb_lt in E. split; [done|]. intros _. done.
  - apply Nat.ltb_ge in E. split; [done|lia].
Qed.

Lemma prev_link_target (entries : list entry) (i : nat) (m : entry) :
  entries !! i = Some m ->
  prev_link entries (S i) =
  Py.concat [" <a href="; Py.dquote; e_href m; Py.dquote; ">« Vorheriger</a>"].
Proof.
  intros H. unfold prev_link, href_at. cbn [Nat.ltb Nat.leb].
  by rewrite Nat.sub_1_r, Nat.pred_succ, H.
Qed.

Lemma next_link_target (entries : list entry) (i : nat) (m : entry) :
  entries !! S i = Some m ->
  next_link entries i =
  Py.concat [" <a href="; Py.dquote; e_href m; Py.dquote; ">Nächster »</a>"].
Proof.
  intros H. unfold next_link, href_at.
  assert ((i <? length entries - 1) = true) as ->.
  { apply Nat.ltb_lt. apply lookup_lt_Some in H. lia. }
  by rewrite Nat.add_1_r, H.
Qed.

(** The detail pages are written in the order of the rows. *)
Lemma detail_pages_order (entries : list entry) :
  map fst (detail_pages entries) = map e_href entries.
Proof.
  unfold detail_pages. change (map fst ?l) with (fst <$> l). rewrite fmap_imap.
  rewrite (imap_ext _ (fun _ m => e_href m)) by done.
  induction entries as [|m entries IH]; [done|]. simpl. f_equal.
  rewrite <- IH. by apply imap_ext.
Qed.

(** *** Where a link to a neighbour leads *)

Lemma rev_app_rev_app (s a b : string) :
  String.rev_app (String.rev_app s a) b = String.rev_app a (s +:+ b).
Proof.
  revert a b. induction s as [|c s IH]; intros a b; [done|].
  cbn [String.rev_app]. rewrite IH. done.
Qed.

Lemma rev_rev (s : string) : String.rev (String.rev s) = s.
Proof.
  unfold String.rev. rewrite rev_app_rev_app. cbn [String.rev_app].
  apply PyFacts.app_empty_r.
Qed.

Lemma split_go_no_slash (s cur : string) :
  no_slash s = true -> Url.split_go s cur = [String.rev (String.rev_app s cur)].
Proof.
  revert cur. induction s as [|c s IH]; intros cur H; [done|].
  cbn [no_slash] in H. apply andb_prop in H as [Hc Hs].
  cbn [Url.split_go String.rev_app]. apply negb_true_iff in Hc. rewrite Hc.
  by apply IH.
Qed.

Lemma split_no_slash (s : string) : no_slash s = true -> Url.split s = [s].
Proof.
  intros H. unfold Url.split. rewrite split_go_no_slash by done.
  by rewrite <- (rev_rev s) at 2.
Qed.

Lemma no_slash_app (s t : string) : no_slash (s +:+ t) = no_slash s && no_slash t.
Proof.
  induction s as [|c s IH]; [done|]. rewrite PyFacts.app_cons. cbn [no_slash].
  rewrite IH. by rewrite andb_assoc.
Qed.

Lemma digits_no_slash (s : string) : all_digits s = true -> no_slash s = true.
Proof.
  induction s as [|c s IH]; [done|]. cbn [all_digits no_slash].
  intros [Hc Hs]%andb_prop. rewrite (IH Hs), andb_true_r.
  destruct c as [[] [] [] [] [] [] [] []]; try discriminate Hc; reflexivity.
Qed.

Lemma page_name_no_slash (k : nat) : no_slash (num_of k +:+ ".html") = true.
Proof.
  rewrite no_slash_app, digits_no_slash; [done|].
  apply PyFacts.zfill_all_digits, PyFacts.str_nat_digits.
Qed.

Lemma page_name_long (k : nat) : 5 < String.length (num_of k +:+ ".html").
Proof.
  rewrite PyFacts.length_app. unfold num_of.
  rewrite PyFacts.zfill_length by apply PyFacts.str_nat_digits.
  cbn [String.length]. lia.
Qed.

(** On the page of any row, the path of any other row resolves to a path
    under [e/e/]. *)
Lemma resolve_neighbour (k k' : nat) :
  Url.resolve ("e/" +:+ num_of k' +:+ ".html") ("e/" +:+ num_of k +:+ ".html") =
  "e/e/" +:+ num_of k +:+ ".html".
Proof.
  assert (forall j, Url.split ("e/" +:+ num_of j +:+ ".html") = ["e"; num_of j +:+ ".html"])
    as Hsplit.
  { intros j. unfold Url.split. change ("e/" +:+ num_of j +:+ ".html")
      with (String "e" (String "/" (num_of j +:+ ".html"))).
    cbn [Url.split_go Ascii.eqb Bool.eqb]. change (String.rev "e") with "e". f_equal.
    apply (split_no_slash _ (page_name_no_slash j)). }
  unfold Url.resolve. rewrite !Hsplit. cbn [removelast app Url.remove_dots].
  pose proof (page_name_long k) as Hlen.
  change (bool_decide ("e" = ".")) with false. change (bool_decide ("e" = "..")) with false.
  cbn iota.
  rewrite !bool_decide_eq_false_2.
  - cbn [Url.remove_dots rev app Url.join]. reflexivity.
  - intros E. rewrite E in Hlen. cbn [String.length] in Hlen. lia.
  - intros E. rewrite E in Hlen. cbn [String.length] in Hlen. lia.
Qed.

Lemma resolve_neighbour_wrong (k k' : nat) :
  Url.resolve ("e/" +:+ num_of k' +:+ ".html") ("e/" +:+ num_of k +:+ ".html") <>
  "e/" +:+ num_of k +:+ ".html".
Proof.
  rewrite resolve_neighbour. intros E.
  apply (f_equal String.length) in E.
  change ("e/e/" +:+ num_of k +:+ ".html")
    with (String "e" (String "/" ("e/" +:+ num_of k +:+ ".html"))) in E.
  cbn [String.length] in E. lia.
Qed.

End SiteFacts.

(** * Facts about [build_excel_from_images] *)
Module ExcelFacts.

Import DT BuildExcel Vocabulary ExcelSpec.

Lemma lex_leb_total (a b : list Z) : lex_leb a b = true \/ lex_leb b a = true.
Proof.
  revert b. induction a as [|x a IH]; intros [|y b]; simpl; auto.
  destruct (Z.lt_total x y) as [H|[H|H]].
  - left. apply orb_true_iff. left. by apply Z.ltb_lt.
  - subst y. rewrite Z.eqb_refl.
    destruct (IH b) as [-> | ->]; [left|right]; apply orb_true_r.
  - right. apply orb_true_iff. left. by apply Z.ltb_lt.
Qed.

Lemma lex_leb_trans (a b c : list Z) :
  lex_leb a b = true -> lex_leb b c = true -> lex_leb a c = true.
Proof.
  revert b c. induction a as [|x a IH]; intros [|y b] [|z c]; simpl; try done.
  rewrite !orb_true_iff, !andb_true_iff, !Z.ltb_lt, !Z.eqb_eq.
  intros [?|[? ?]] [?|[? ?]]; try (left; lia). right. split; [lia|]. eauto.
Qed.

Lemma dt_le_total (x y : file * datetime) : dt_le x y \/ dt_le y x.
Proof. apply lex_leb_total. Qed.

Lemma dt_le_trans (x y z : file * datetime) : dt_le x y -> dt_le y z -> dt_le x z.
Proof. apply lex_leb_trans. Qed.

(** *** The sort *)

Lemma insert_item_perm (x : file * datetime) (l : list (file * datetime)) :
  Permutation (insert_item x l) (x :: l).
Proof.
  induction l as [|y l IH]; simpl; [done|].
  destruct (leb x.2 y.2); [done|]. rewrite IH. apply perm_swap.
Qed.

Lemma sort_items_perm (l : list (file * datetime)) : Permutation (sort_items l) l.
Proof.
  induction l as [|x l IH]; simpl; [done|].
  rewrite insert_item_perm. by constructor.
Qed.

Lemma sort_items_length (l : list (file * datetime)) : length (sort_items l) = length l.
Proof. apply Permutation_length, sort_items_perm. Qed.

Lemma insert_item_sorted (x : file * datetime) (l : list (file * datetime)) :
  StronglySorted dt_le l -> StronglySorted dt_le (insert_item x l).
Proof.
  induction l as [|y l IH]; intros Hs; simpl.
  - repeat constructor.
  - apply StronglySorted_inv in Hs as [Hs Hy].
    destruct (leb x.2 y.2) eqn:E.
    + constructor; [by constructor|]. constructor; [done|].
      eapply Forall_impl; [exact Hy|]. intros z Hz. by eapply dt_le_trans.
    + constructor; [by apply IH|].
      rewrite insert_item_perm. constructor; [|done].
      destruct (dt_le_total x y) as [H|H]; [|done]. unfold dt_le in H. congruence.
Qed.

Lemma sort_items_sorted (l : list (file * datetime)) : StronglySorted dt_le (sort_items l).
Proof.
  induction l as [|x l IH]; simpl; [constructor|]. by apply insert_item_sorted.
Qed.

Lemma sorted_lookup_le (l : list (file * datetime)) (i j : nat) (x y : file * datetime) :
  StronglySorted dt_le l -> i < j -> l !! i = Some x -> l !! j = Some y -> dt_le x y.
Proof.
  intros Hs. revert i j. induction Hs as [|z l Hs IH Hz]; intros i j Hij Hi Hj.
  - by rewrite lookup_nil in Hi.
  - destruct j as [|j]; [lia|]. simpl in Hj. destruct i as [|i]; simpl in Hi.
    + simplify_eq. rewrite Forall_forall in Hz. apply Hz.
      by eapply list_elem_of_lookup_2.
    + eapply IH; [|done..]. lia.
Qed.

(** *** The identifiers *)

Lemma pad_width_ge (i n : nat) : i <= n -> String.length (Py.str_nat i) <= pad_width n.
Proof.
  intros H. unfold pad_width. pose proof (PyFacts.str_nat_length_mono i n H). lia.
Qed.

Lemma id_length (pad i : nat) :
  String.length (Py.str_nat i) <= pad ->
  String.length (Py.zfill pad (Py.str_nat i)) = pad.
Proof.
  intros H. rewrite PyFacts.zfill_length by apply PyFacts.str_nat_digits. lia.
Qed.

Lemma build_rows_lookup (a : args) (items : list (file * datetime)) (i : nat) (r : row) :
  build_rows a items !! i = Some r ->
  exists x, sort_items items !! i = Some x /\
            r = make_row a (pad_width (length items)) (S i) x.
Proof.
  unfold build_rows. cbv zeta. rewrite list_lookup_imap, sort_items_length.
  destruct (sort_items items !! i) as [x|]; [|done]. intros [= <-]. eauto.
Qed.

Lemma build_rows_ids (a : args) (items : list (file * datetime)) :
  map r_id (build_rows a items) =
  map (fun j => Py.zfill (pad_width (length items)) (Py.str_nat (S j)))
      (seq 0 (length items)).
Proof.
  unfold build_rows. cbv zeta. rewrite sort_items_length.
  trans ((fun j => Py.zfill (pad_width (length items)) (Py.str_nat (S j))) <$>
         seq 0 (length (sort_items items))); [|by rewrite sort_items_length].
  rewrite <- imap_seq_0. change (map r_id ?l) with (r_id <$> l).
  rewrite fmap_imap. by apply imap_ext.
Qed.

(** *** The timestamp of a file *)

Section WithClock.

Variable fromtimestamp : Z -> datetime.

Lemma resolve_dt_raise (f : file) (e : exn) :
  resolve_dt fromtimestamp f = Raise e <-> datetime_from_filename f = Raise e.
Proof.
  unfold resolve_dt. destruct (datetime_from_filename f); simpl; split; congruence.
Qed.





End WithClock.

End ExcelFacts.

(** * Facts about [rename_and_convert_to_jpeg] *)
Module RenameFacts.

Import DT Rename.

(** The candidate of the round [i] of [unique_target_name]. *)
Lemma candidate_inj (target : Path.path) (stem ext : string) (i j : nat) :
  Path.with_name target (stem +:+ "-" +:+ Py.str_nat i +:+ ext) =
  Path.with_name target (stem +:+ "-" +:+ Py.str_nat j +:+ ext) -> i = j.
Proof.
  unfold Path.with_name. intros [= E].
  apply String.app_inj in E. apply (String.app_inj "-") in E.
  apply SiteFacts.app_inv_tail in E. by apply PyFacts.str_nat_inj.
Qed.

Lemma unique_loop_none (fuel : nat) (fs : gmap Path.path node) (target : Path.path)
    (stem ext : string) (i : nat) :
  unique_loop fuel fs target stem ext i = None ->
  forall j, i <= j < i + fuel ->
    is_Some (fs !! Path.with_name target (stem +:+ "-" +:+ Py.str_nat j +:+ ext)).
Proof.
  revert i. induction fuel as [|fuel IH]; intros i H j Hj; [lia|].
  cbn [unique_loop] in H.
  destruct (exists_ fs _) eqn:E; [|done].
  destruct (decide (j = i)) as [->|Hne].
  - unfold exists_ in E. by apply bool_decide_eq_true in E.
  - apply (IH (S i) H). lia.
Qed.

Lemma unique_loop_some (fuel : nat) (fs : gmap Path.path node) (target : Path.path)
    (stem ext : string) (i : nat) (p : Path.path) :
  unique_loop fuel fs target stem ext i = Some p -> fs !! p = None.
Proof.
  revert i. induction fuel as [|fuel IH]; intros i H; [done|].
  cbn [unique_loop] in H.
  destruct (exists_ fs _) eqn:E; [by eapply IH|].
  simplify_eq. unfold exists_ in E. apply bool_decide_eq_false in E.
  by apply eq_None_not_Some.
Qed.

(** The loop of [unique_target_name] ends: among one more candidate than
    there are entries, one is free. *)
Lemma unique_target_name_total (fs : gmap Path.path node) (target : Path.path) :
  exists p, unique_target_name fs target = Some p /\ fs !! p = None.
Proof.
  unfold unique_target_name. destruct (exists_ fs target) eqn:Ex.
  - destruct (unique_loop (S (size fs)) fs target (Path.stem target) (Path.suffix target) 1)
      as [p|] eqn:E.
    + exists p. split; [done|]. by eapply unique_loop_some.
    + exfalso. pose proof (unique_loop_none _ _ _ _ _ _ E) as Hall.
      set (cand := fun j => Path.with_name target
                     (Path.stem target +:+ "-" +:+ Py.str_nat j +:+ Path.suffix target)).
      set (l := cand <$> seq 1 (S (size fs))).
      assert (NoDup l) as Hnd.
      { apply NoDup_fmap_2_strong; [|apply NoDup_seq].
        intros i j _ _ Eij. by apply candidate_inj in Eij. }
      assert (list_to_set (C := gset Path.path) l ⊆ dom fs) as Hsub.
      { intros p Hp. apply elem_of_list_to_set in Hp.
        apply list_elem_of_fmap in Hp as (j & -> & Hj). apply elem_of_seq in Hj.
        apply elem_of_dom. apply Hall. lia. }
      apply subseteq_size in Hsub. rewrite size_list_to_set in Hsub by done.
      rewrite size_dom in Hsub. unfold l in Hsub.
      rewrite length_fmap, length_seq in Hsub. lia.
  - exists target. split; [done|]. unfold exists_ in Ex.
    apply bool_decide_eq_false in Ex. by apply eq_None_not_Some.
Qed.

Lemma plan_one_total (fromtimestamp : Z -> datetime) (fs : gmap Path.path node)
    (img : Path.path) :
  is_Some (fs !! img) -> is_Some (plan_one fromtimestamp fs img).
Proof.
  intros [n Hn]. unfold plan_one. rewrite Hn. simpl.
  destruct (extract_exif_datetime n) as [dt|];
    match goal with
    | |- context [unique_target_name fs ?t] =>
        destruct (unique_target_name_total fs t) as (p & -> & _)
    end; simpl; eauto.
Qed.

(** The planning loop gives a plan for every image. *)
Lemma make_plans_total (fromtimestamp : Z -> datetime) (w : world) (recursive : bool) :
  is_Some (make_plans fromtimestamp w recursive).
Proof.
  unfold make_plans. apply mapM_is_Some. apply Forall_forall.
  intros p Hp. apply plan_one_total.
  unfold iter_images in Hp. apply list_elem_of_filter in Hp as [Hp _].
  unfold is_image in Hp. destruct (w_fs w !! p); [eauto|done].
Qed.

Lemma main_total (fromtimestamp : Z -> datetime) (now : Z) (a : args) (w : world) :
  is_Some (main fromtimestamp now a w).
Proof.
  unfold main.
  destruct (make_plans_total fromtimestamp w (a_recursive a)) as [plans ->]. simpl.
  destruct (a_apply a); [|eauto]. destruct (convert_all now (w_fs w) plans). eauto.
Qed.

End RenameFacts.

(** * The statements about [build_excel_from_images] *)
Module ExcelClaims.

Import DT BuildExcel Vocabulary ExcelSpec.



(** C2.  For a list of [n] images the identifiers of the rows are pairwise
    distinct, all of the width [max(3, len(str(n)))], they read as the
    integers 1 to [n] in the order of the rows, and the rows are the images
    in the order of the stable sort by timestamp: an image with a smaller
    identifier has a timestamp that is not later. *)
Theorem ids_unique_padded_monotonic (a : args) (items : list (file * datetime)) :
  let n := length items in
  let rows := build_rows a items in
  let sorted := sort_items items in
  length rows = n /\
  NoDup (map r_id rows) /\
  Forall (fun r => String.length (r_id r) = Nat.max 3 (String.length (Py.str_nat n))) rows /\
  map (fun r => Py.int (r_id r)) rows = map (fun i => Some (Z.of_nat i)) (seq 1 n) /\
  Permutation sorted items /\
  (forall i r, rows !! i = Some r ->
     exists x, sorted !! i = Some x /\
               r_id r = Py.zfill (Nat.max 3 (String.length (Py.str_nat n))) (Py.str_nat (S i)) /\
               r_bildname r = Path.name (f_path x.1) /\
               r_datum r = strftime_iso x.2) /\
  (forall i j x y, i < j -> sorted !! i = Some x -> sorted !! j = Some y ->
     leb x.2 y.2 = true).
Proof.
  intros n rows sorted. repeat split.
  - unfold rows, build_rows. cbv zeta. by rewrite length_imap, ExcelFacts.sort_items_length.
  - unfold rows. rewrite ExcelFacts.build_rows_ids.
    apply NoDup_fmap_2_strong; [|apply NoDup_seq].
    intros i j _ _ E. apply PyFacts.zfill_str_inj in E. lia.
  - apply Forall_forall. intros r Hr.
    apply list_elem_of_lookup in Hr as [i Hi].
    apply ExcelFacts.build_rows_lookup in Hi as (x & Hx & ->).
    apply lookup_lt_Some in Hx. rewrite ExcelFacts.sort_items_length in Hx.
    cbn [r_id make_row]. apply ExcelFacts.id_length.
    apply ExcelFacts.pad_width_ge. lia.
  - rewrite <- (map_map r_id Py.int rows).
    unfold rows. rewrite ExcelFacts.build_rows_ids, map_map.
    rewrite <- fmap_S_seq. change (S <$> seq 0 n) with (map S (seq 0 n)).
    rewrite map_map. apply map_ext. intros j. apply PyFacts.int_zfill_str.
  - apply ExcelFacts.sort_items_perm.
  - intros i r Hi. apply ExcelFacts.build_rows_lookup in Hi as (x & Hx & ->). eauto.
  - intros i j x y Hij Hi Hj.
    exact (ExcelFacts.sorted_lookup_le sorted i j x y
             (ExcelFacts.sort_items_sorted items) Hij Hi Hj).
Qed.

End ExcelClaims.

(** * The statements about [build_site] *)
Module SiteClaims.

Import DT BuildSite Vocabulary SiteSpec.








(** C6: the code does not do what the statement says.  In [build_site] the
    EXIF step of the fallback never yields a date: the date pattern of this
    script asks for a backslash where the sibling scripts ask for a digit,
    so a text that matches makes [int] raise and every other text does not
    match.  The date of a row is the date of the sheet or else the
    modification time; the photo of the sample, taken in 2019 according to
    its EXIF block (which the sibling script reads) and with no date in the
    sheet, is shown with the day its file was written. *)
Theorem exif_date_never_used :
  (forall im, exif_datetime im = None) /\
  (forall fromtimestamp pd_to_datetime columns row im,
     resolve_date fromtimestamp pd_to_datetime None columns row im =
     Ok (fromtimestamp (img_mtime im))) /\
  BuildExcel.exif_loop [36867%Z; 36868%Z; 306%Z] Sample.exif_2019 =
    Some (DT.mk 2019 7 4 12 0 0 0) /\
  strftime_de <$> (match resolve_date Sample.clock Sample.pandas None
                           ["Bildname"] [Str "a.jpg"] Sample.photo_a with
                   | Ok d => Some d
                   | Raise _ => None
                   end) = Some "13.09.2020".
Proof.
  split; [exact SiteFacts.exif_datetime_none|]. split; [|split].
  - intros. unfold resolve_date. by rewrite SiteFacts.exif_datetime_none.
  - by vm_compute.
  - by vm_compute.
Qed.

(** C9: the code does not do what the statement says.  The two patterns of
    [md_to_html] are written with doubled backslashes: they stand for
    backslashes, one character, backslashes, and the replacements for the
    text [\1] instead of the group.  A description without any asterisk
    does not come back escaped only: every character of it is replaced,
    twice over. *)
Theorem md_to_html_mangles_plain_text :
  md_to_html "a" = Py.concat (replicate 18 "<em>\1</em>") /\
  md_to_html "**a**" = Py.concat (replicate 90 "<em>\1</em>") /\
  Re.compile "\\*(.+?)\\*" =
    Some (Re.Cat (Re.Star true (Re.Lit "\"))
            (Re.Cat (Re.Group 1 (Re.Cat (Re.Cat Re.Any (Re.Star false Re.Any)) Re.Eps))
               (Re.Cat (Re.Star true (Re.Lit "\")) Re.Eps)), 1) /\
  Re.parse_template "<em>\\1</em>" =
    Some [Re.TChr "<"; Re.TChr "e"; Re.TChr "m"; Re.TChr ">"; Re.TChr "\"; Re.TChr "1";
          Re.TChr "<"; Re.TChr "/"; Re.TChr "e"; Re.TChr "m"; Re.TChr ">"].
Proof. repeat split; by vm_compute. Qed.



(** C8: the code does not do what the statement says.  The page of a row
    has a link to the previous page exactly when the row is not the first
    and a link to the next page exactly when it is not the last, and the
    pages are written in the order of the rows; but the [href] of these
    links is the path of the neighbour from the root of the site
    ([e/001.html]) on a page that itself lies in [e/]: the link of page
    [e/002.html] leads to [e/e/001.html], where no page is written, and so
    does the link to any neighbour on any page.  The other links of the
    same template climb with [../] and do arrive. *)
Theorem neighbour_links_leave_site :
  map fst (List.filter is_html
             (o_writes (main Sample.clock Sample.pandas Sample.site_args Sample.site_world)))
    = ["e/001.html"; "e/002.html"; "index.html"] /\
  Url.hrefs <$> page_text (main Sample.clock Sample.pandas Sample.site_args Sample.site_world)
                  "e/002.html"
    = Some ["../index.html"; "../index.html"; "e/001.html"] /\
  map (Url.resolve "e/002.html") ["../index.html"; "../index.html"; "e/001.html"]
    = ["index.html"; "index.html"; "e/e/001.html"] /\
  Url.hrefs <$> page_text (main Sample.clock Sample.pandas Sample.site_args Sample.site_world)
                  "e/001.html"
    = Some ["../index.html"; "../index.html"; "e/002.html"] /\
  map (Url.resolve "e/001.html") ["../index.html"; "../index.html"; "e/002.html"]
    = ["index.html"; "index.html"; "e/e/002.html"] /\
  page_text (main Sample.clock Sample.pandas Sample.site_args Sample.site_world) "e/e/001.html"
    = None /\
  page_text (main Sample.clock Sample.pandas Sample.site_args Sample.site_world) "e/e/002.html"
    = None /\
  (forall k k',
     Url.resolve ("e/" +:+ num_of k' +:+ ".html") ("e/" +:+ num_of k +:+ ".html") =
     "e/e/" +:+ num_of k +:+ ".html") /\
  (forall entries i m,
     entries !! i = Some m ->
     prev_link entries (S i) =
     Py.concat [" <a href="; Py.dquote; e_href m; Py.dquote; ">« Vorheriger</a>"]) /\
  (forall entries i, prev_link entries i <> "" <-> 0 < i) /\
  (forall entries i, next_link entries i <> "" <-> i < length entries - 1) /\
  (forall entries, map fst (detail_pages entries) = map e_href entries).
Proof.
  repeat match goal with |- _ /\ _ => split end; try by vm_compute.
  - exact SiteFacts.resolve_neighbour.
  - exact SiteFacts.prev_link_target.
  - exact SiteFacts.prev_link_present.
  - exact SiteFacts.next_link_present.
  - exact SiteFacts.detail_pages_order.
Qed.

End SiteClaims.

(** * The statement about [rename_and_convert_to_jpeg] *)
Module RenameClaims.

Import DT Rename.

(** C7: the code does not do what the statement says.  Every image is
    planned to the name of its timestamp, with [-1], [-2], ... appended
    while a file of that name exists; but all plans are made before
    anything is written, so the destinations are compared with the files on
    disk only, never with each other.  Two pictures of the same second get
    the same destination; under [--apply] the second conversion overwrites
    the first, both sources are removed, and picture [A] is lost. *)
Theorem same_second_pictures_collide :
  (fun r => r.1.1) <$> main Sample.clock Sample.now Sample.rename_args Sample.rename_world =
  Some [ {| p_src := ("/photos", "a.png");
            p_dst := ("/photos", "2020-09-13_122640.jpeg");
            p_dt := mk 2020 9 13 12 26 40 0; p_used_exif := false |};
         {| p_src := ("/photos", "b.png");
            p_dst := ("/photos", "2020-09-13_122640.jpeg");
            p_dt := mk 2020 9 13 12 26 40 0; p_used_exif := false |} ] /\
  (fun r => map_to_list r.1.2) <$>
    main Sample.clock Sample.now Sample.rename_args Sample.rename_world =
  Some [ (("/photos", "2020-09-13_122640.jpeg"), converted "B" Sample.now) ] /\
  (fun r => r.2) <$> main Sample.clock Sample.now Sample.rename_args Sample.rename_world =
  Some 2.
Proof. repeat split; vm_compute; reflexivity. Qed.

End RenameClaims.
(** * Checks of the built-ins against the interpreter *)

Example str_nat_ex : Py.str_nat 1204 = "1204" /\ Py.str_nat 0 = "0".
Proof. split; reflexivity. Qed.

Example zfill_ex : Py.zfill 3 (Py.str_nat 7) = "007" /\ Py.zfill 3 "1000" = "1000" /\ Py.zfill 5 "-42" = "-0042".
Proof. repeat split; reflexivity. Qed.

Example int_ex : Py.int " 0042 " = Some 42%Z /\ Py.int "\dddd" = None /\ Py.int "1_000" = Some 1000%Z /\ Py.int "" = None.
Proof. repeat split; reflexivity. Qed.

Example replace_ex : Py.replace "&" "&amp;" "a&b&&" = "a&amp;b&amp;&amp;" /\ Py.replace "\\" "" "a\\\b" = "a\b".
Proof. split; reflexivity. Qed.

Example strip_ex : Py.strip "  a b  " = "a b" /\ Py.lower "Datum/Jahr" = "datum/jahr".
Proof. split; reflexivity. Qed.

Example compile_ex :
  Re.compile "(\d{2})[_\-]x" =
  Some (Re.Cat (Re.Group 1 (Re.Cat (Re.Rep 2 Re.Digit) Re.Eps))
          (Re.Cat (Re.CharSet ["_"; "-"]%char) (Re.Cat (Re.Lit "x") Re.Eps)), 1).
Proof. reflexivity. Qed.

Example sub_ex :
  Re.sub "x*" "-" "abxd" = "-a-b--d-" /\
  Re.sub "\*\*(.+?)\*\*" "<strong>\1</strong>" "a **b c** d" = "a <strong>b c</strong> d" /\
  Re.sub "\*(.+?)\*" "<em>\1</em>" "*a* and *b*" = "<em>a</em> and <em>b</em>".
Proof. repeat split; vm_compute; reflexivity. Qed.

(** * Runs on the sample inputs *)

Example excel_run_ex :
  BuildExcel.main Sample.clock Sample.excel_args Sample.excel_world =
  Ok (BuildExcel.Wrote "/photos/entries.xlsx"
        [ {| BuildExcel.r_id := "001"; BuildExcel.r_bildname := "see.jpeg";
             BuildExcel.r_datum := "2019-07-04 12:00:00";
             BuildExcel.r_beschreibung := "See";
             BuildExcel.r_link := "https://example.org/gift/e/001.html" |};
          {| BuildExcel.r_id := "002"; BuildExcel.r_bildname := "scan.png";
             BuildExcel.r_datum := "2020-09-13 12:26:40";
             BuildExcel.r_beschreibung := "Scan";
             BuildExcel.r_link := "https://example.org/gift/e/002.html" |};
          {| BuildExcel.r_id := "003"; BuildExcel.r_bildname := "IMG_2021-05-06_070809.JPG";
             BuildExcel.r_datum := "2021-05-06 07:08:09";
             BuildExcel.r_beschreibung := "IMG 2021 05 06 070809";
             BuildExcel.r_link := "https://example.org/gift/e/003.html" |} ]).
Proof. vm_compute. reflexivity. Qed.

Example site_run_ex :
  map fst (BuildSite.o_writes
             (BuildSite.main Sample.clock Sample.pandas Sample.site_args Sample.site_world)) =
  ["assets/images/a.jpg"; "assets/thumbs/a.jpg"; "assets/images/b.jpg";
   "assets/thumbs/b.jpg"; "e/001.html"; "e/002.html"; "index.html";
   "assets/qrcodes/001.png"; "assets/qrcodes/002.png"].
Proof. vm_compute. reflexivity. Qed.

Example patterns_compile_ex :
  is_Some BuildExcel.DATE_RE_EXIF /\ is_Some BuildExcel.DATE_RE_FILENAME /\
  is_Some BuildSite.DATE_RE /\ is_Some BuildSite.YEAR_RE /\ is_Some Rename.DATE_RE /\
  is_Some (Re.compile "\\*\\*(.+?)\\*\\*") /\ is_Some (Re.compile "\\*(.+?)\\*") /\
  is_Some (Re.compile "[_\-]+") /\
  is_Some (Re.parse_template "<strong>\\1</strong>") /\
  is_Some (Re.parse_template "<em>\\1</em>") /\ is_Some (Re.parse_template " ").
Proof. repeat split; vm_compute; eauto. Qed.

Example filename_date_ex :
  BuildExcel.datetime_from_filename Sample.named_file = Ok (Some (DT.mk 2021 5 6 7 8 9 0)) /\
  BuildExcel.search_groups BuildExcel.DATE_RE_FILENAME "x_2023-02-30_120000" =
    Some [Some "2023"; Some "02"; Some "30"; Some "12"; Some "00"; Some "00"] /\
  DT.of_groups [Some "2023"; Some "02"; Some "30"; Some "12"; Some "00"; Some "00"] = None.
Proof. repeat split; vm_compute; reflexivity. Qed.

Example normalize_colname_ex :
  BuildSite.normalize_colname " Datum/Jahr " = "datumjahr" /\
  BuildSite.find_date_column ["Bildname"; "Datum"; "Datum/Jahr"] = Some "Datum/Jahr" /\
  BuildSite.find_date_column ["Bildname"; "DATUM"] = Some "DATUM" /\
  SiteSpec.columns_of {| BuildSite.df_columns :=
                           ["ID"; "Bildernamen"; "Datum/Jahr"; "Beschreibung"; "Link"];
                         BuildSite.df_rows := [] |} = None.
Proof. repeat split; vm_compute; reflexivity. Qed.

Example resolve_href_ex :
  Url.resolve "e/002.html" "../index.html" = "index.html" /\
  Url.resolve "e/002.html" "../assets/images/a.jpg" = "assets/images/a.jpg" /\
  Url.resolve "index.html" "e/001.html" = "e/001.html" /\
  Url.resolve "e/002.html" "001.html" = "e/001.html".
Proof. repeat split; reflexivity. Qed.

Module MoreFacts.
Import More.

Lemma lacks_app (c : ascii) (s t : string) : lacks c (s +:+ t) = lacks c s && lacks c t.
Proof.
  induction s as [|a s IH]; [done|]. rewrite PyFacts.app_cons. cbn [lacks].
  rewrite IH. by rewrite andb_assoc.
Qed.

Lemma lacks_digits (c : ascii) (s : string) :
  Py.is_digit c = false -> Vocabulary.all_digits s = true -> lacks c s = true.
Proof.
  intros Hc. induction s as [|a s IH]; [done|]. cbn [Vocabulary.all_digits lacks].
  intros [Ha Hs]%andb_prop. rewrite (IH Hs), andb_true_r.
  apply negb_true_iff. destruct (Ascii.eqb_spec a c) as [->|]; [congruence|done].
Qed.

Lemma lacks_repeat (c a : ascii) (n : nat) : a <> c -> lacks c (Py.repeat_char a n) = true.
Proof.
  intros H. induction n as [|n IH]; [done|]. cbn [Py.repeat_char lacks]. rewrite IH.
  by destruct (Ascii.eqb_spec a c).
Qed.

Lemma lacks_zfill (c : ascii) (w : nat) (s : string) :
  "0"%char <> c -> lacks c s = true -> lacks c (Py.zfill w s) = true.
Proof.
  intros H0 Hs. unfold Py.zfill. destruct s as [|a s'].
  - by apply lacks_repeat.
  - cbn [lacks] in Hs. apply andb_prop in Hs as [Ha Hs'].
    destruct (Ascii.eqb a "+" || Ascii.eqb a "-")%bool.
    + cbn [lacks]. rewrite Ha, lacks_app, lacks_repeat, Hs' by done. done.
    + rewrite lacks_app, lacks_repeat by done. cbn [lacks]. by rewrite Ha, Hs'.
Qed.

Lemma lacks_str_Z (c : ascii) (z : Z) :
  Py.is_digit c = false -> c <> "-"%char -> lacks c (Py.str_Z z) = true.
Proof.
  intros Hd Hm. unfold Py.str_Z.
  pose proof (lacks_digits c (Py.str_nat (Z.abs_nat z)) Hd (PyFacts.str_nat_digits _)) as H.
  destruct (z <? 0)%Z; [|done]. cbn [lacks]. rewrite H.
  by destruct (Ascii.eqb_spec "-"%char c).
Qed.

Lemma lacks_pad (c : ascii) (w : nat) (z : Z) :
  Py.is_digit c = false -> c <> "-"%char -> lacks c (DT.pad w z) = true.
Proof.
  intros Hd Hm. unfold DT.pad. apply lacks_zfill; [|by apply lacks_str_Z].
  intros <-. done.
Qed.

Lemma lacks_strftime_name (d : DT.datetime) : lacks "." (DT.strftime_name d) = true.
Proof.
  unfold DT.strftime_name.
  repeat (rewrite lacks_app; apply andb_true_intro; split);
    try (by apply lacks_pad); done.
Qed.

(** *** The suffix and the stem of a name *)

Lemma rfind_dot_lacks (s : string) (pos : nat) (last : option nat) :
  lacks "." s = true -> Path.rfind_dot s pos last = last.
Proof.
  revert pos last. induction s as [|a s IH]; intros pos last H; [done|].
  cbn [lacks] in H. apply andb_prop in H as [Ha Hs]. cbn [Path.rfind_dot].
  apply negb_true_iff in Ha. rewrite Ha. by apply IH.
Qed.

Lemma rfind_dot_app (s t : string) (pos : nat) (last : option nat) :
  Path.rfind_dot (s +:+ t) pos last =
  Path.rfind_dot t (pos + String.length s) (Path.rfind_dot s pos last).
Proof.
  revert pos last. induction s as [|a s IH]; intros pos last.
  - cbn. by rewrite Nat.add_0_r.
  - rewrite PyFacts.app_cons. cbn [Path.rfind_dot String.length]. rewrite IH.
    by replace (S pos + String.length s) with (pos + S (String.length s)) by lia.
Qed.

Lemma drop_app_length (s t : string) : Py.drop (String.length s) (s +:+ t) = t.
Proof. induction s as [|a s IH]; [by destruct t|]. by rewrite PyFacts.app_cons. Qed.

Lemma take_app_length (s t : string) : Py.take (String.length s) (s +:+ t) = s.
Proof.
  induction s as [|a s IH]; [by destruct t|]. rewrite PyFacts.app_cons. cbn. by rewrite IH.
Qed.

(** A name [stem.ext] whose extension has no further dot. *)
Lemma suffix_of_app (stem ext : string) :
  stem <> "" -> ext <> "" -> lacks "." ext = true ->
  Path.suffix_of (stem +:+ String "." ext) = String "." ext /\
  Path.stem_of (stem +:+ String "." ext) = stem.
Proof.
  intros Hs He Hl.
  assert (Path.suffix_of (stem +:+ String "." ext) = String "." ext) as Hsuf.
  { unfold Path.suffix_of. rewrite rfind_dot_app. cbn [Path.rfind_dot Ascii.eqb Bool.eqb].
    rewrite rfind_dot_lacks by done. cbn [Nat.add].
    rewrite PyFacts.length_app. cbn [String.length].
    assert (0 < String.length stem) by (destruct stem; [done|cbn; lia]).
    assert (0 < String.length ext) by (destruct ext; [done|cbn; lia]).
    assert ((0 <? String.length stem) = true) as -> by (by apply Nat.ltb_lt).
    assert ((String.length stem <? String.length stem + S (String.length ext) - 1) = true)
      as -> by (apply Nat.ltb_lt; lia).
    cbn [andb]. apply drop_app_length. }
  split; [done|]. unfold Path.stem_of. rewrite Hsuf, PyFacts.length_app.
  replace (String.length stem + String.length (String "." ext) - String.length (String "." ext))
    with (String.length stem) by lia.
  apply take_app_length.
Qed.

Lemma rfind_dot_some (s : string) (pos : nat) (last : option nat) (i : nat) :
  Path.rfind_dot s pos last = Some i ->
  (last = Some i /\ lacks "." s = true) \/
  (exists a b, s = a +:+ String "." b /\ i = pos + String.length a /\ lacks "." b = true).
Proof.
  revert pos last. induction s as [|c s IH]; intros pos last H; [by left|].
  cbn [Path.rfind_dot] in H. apply IH in H as [[H Hl]|(a & b & -> & -> & Hl)].
  - destruct (Ascii.eqb_spec c ".") as [->|Hc].
    + right. exists "", s. simplify_eq. split; [done|]. split; [cbn; lia|done].
    + left. split; [done|]. cbn [lacks]. rewrite Hl.
      by destruct (Ascii.eqb_spec c ".").
  - right. exists (String c a), b. split; [done|]. split; [cbn; lia|done].
Qed.

(** A name with a suffix is a non-empty stem, a dot and an extension
    without dot. *)
Lemma suffix_of_inv (n : string) :
  Path.suffix_of n <> "" ->
  exists stem ext, n = stem +:+ String "." ext /\ stem <> "" /\ ext <> "" /\
                   lacks "." ext = true /\ Path.suffix_of n = String "." ext.
Proof.
  intros H.
  assert (exists i, Path.rfind_dot n 0 None = Some i /\ (0 <? i) && (i <? String.length n - 1) = true
                    /\ Path.suffix_of n = Py.drop i n) as (i & Hi & Hr & Hs).
  { unfold Path.suffix_of in *. destruct (Path.rfind_dot n 0 None) as [i|]; [|done].
    exists i. by destruct ((0 <? i) && (i <? String.length n - 1)). }
  apply rfind_dot_some in Hi as [[? _]|(a & b & -> & -> & Hl)]; [done|].
  apply andb_prop in Hr as [H0 H1]. apply Nat.ltb_lt in H0, H1.
  rewrite PyFacts.length_app in H1. cbn [String.length Nat.add] in *.
  exists a, b. split; [done|]. split; [by destruct a; [cbn in H0; lia|]|].
  split; [destruct b; [cbn in H1; lia|done]|]. split; [done|].
  rewrite Hs. apply drop_app_length.
Qed.

Lemma lower_char_dot (c : ascii) : Ascii.eqb (Py.lower_char c) "." = Ascii.eqb c ".".
Proof. destruct c as [[] [] [] [] [] [] [] []]; reflexivity. Qed.

Lemma lacks_lower (s : string) : lacks "." (Py.lower s) = lacks "." s.
Proof.
  induction s as [|c s IH]; [done|]. cbn [Py.lower lacks]. by rewrite IH, lower_char_dot.
Qed.

(** The test [p.suffix.lower() in IMG_EXTS] of the two [iter_images], for a
    list of extensions that are a dot and a text without dot. *)
Lemma suffix_accepted (exts : list string) (n : string) :
  Forall (fun e => exists x, e = String "." x /\ x <> "" /\ lacks "." x = true) exts ->
  Py.lower (Path.suffix_of n) ∈ exts <-> image_name exts n.
Proof.
  intros Hexts. rewrite Forall_forall in Hexts. split.
  - intros Hin. destruct (decide (Path.suffix_of n = "")) as [E|Hne].
    { rewrite E in Hin. apply Hexts in Hin as (x & ? & _). done. }
    destruct (suffix_of_inv n Hne) as (stem & ext & -> & Hs & _ & _ & E).
    exists stem, ext. split; [done|]. split; [done|]. by rewrite E in Hin.
  - intros (stem & ext & -> & Hs & Hin).
    destruct (Hexts _ Hin) as (x & Ex & Hx & Hl).
    change ("." +:+ Py.lower ext) with (String "." (Py.lower ext)) in Ex.
    injection Ex as <-. rewrite lacks_lower in Hl.
    assert (ext <> "") as He by (by destruct ext).
    change (stem +:+ "." +:+ ext) with (stem +:+ String "." ext).
    destruct (suffix_of_app stem ext Hs He Hl) as [-> _]. done.
Qed.

Lemma IMG_EXTS_shape :
  Forall (fun e => exists x, e = String "." x /\ x <> "" /\ lacks "." x = true)
         BuildExcel.IMG_EXTS.
Proof. unfold BuildExcel.IMG_EXTS. repeat constructor; by eexists. Qed.

(** *** Matching a pattern of digit groups and separators *)

Lemma consumed_app (p t : string) : Py.consumed (p +:+ t) t = p.
Proof.
  unfold Py.consumed. rewrite PyFacts.length_app.
  replace (String.length p + String.length t - String.length t) with (String.length p) by lia.
  apply take_app_length.
Qed.

Lemma rep_digits (k : Re.cont) (ds rest : string) (cs : Re.caps) :
  Vocabulary.all_digits ds = true ->
  Re.rep_loop (Re.rmatch Re.Digit) k (String.length ds) (ds +:+ rest) cs = k rest cs.
Proof.
  revert cs. induction ds as [|c ds IH]; intros cs H; [by destruct rest|].
  cbn [Vocabulary.all_digits] in H. apply andb_prop in H as [Hc Hds].
  rewrite PyFacts.app_cons. cbn [String.length Re.rep_loop Re.rmatch]. rewrite Hc.
  by apply IH.
Qed.

(** A group [(\d{n})] in front of [n] digits takes them. *)
Lemma group_digits (i n : nat) (k : Re.cont) (ds rest : string) (cs : Re.caps) :
  Vocabulary.all_digits ds = true -> String.length ds = n ->
  Re.rmatch (Re.Group i (Re.Cat (Re.Rep n Re.Digit) Re.Eps)) (ds +:+ rest) cs k =
  k rest (<[i := ds]> cs).
Proof.
  intros Hd <-. cbn [Re.rmatch]. rewrite rep_digits by done. by rewrite consumed_app.
Qed.

Lemma pad_nat (w : nat) (z : Z) : (0 <= z)%Z -> DT.pad w z = Py.zfill w (Py.str_nat (Z.to_nat z)).
Proof.
  intros H. unfold DT.pad, Py.str_Z.
  assert ((z <? 0)%Z = false) as -> by lia. by rewrite Zabs2Nat.abs_nat_nonneg.
Qed.

Lemma pad_digits (w : nat) (z : Z) : (0 <= z)%Z -> Vocabulary.all_digits (DT.pad w z) = true.
Proof. intros H. rewrite pad_nat by done. apply PyFacts.zfill_all_digits, PyFacts.str_nat_digits. Qed.

Lemma pad_int (w : nat) (z : Z) : (0 <= z)%Z -> Py.int (DT.pad w z) = Some z.
Proof. intros H. rewrite pad_nat, PyFacts.int_zfill_str by done. f_equal. lia. Qed.

Lemma pad_length_2 (z : Z) : (0 <= z <= 99)%Z -> String.length (DT.pad 2 z) = 2.
Proof.
  intros H. rewrite pad_nat by lia. rewrite PyFacts.zfill_length by apply PyFacts.str_nat_digits.
  pose proof (PyFacts.str_nat_length_mono (Z.to_nat z) 99 ltac:(lia)) as Hm.
  change (String.length (Py.str_nat 99)) with 2 in Hm. lia.
Qed.

Lemma pad_length_4 (z : Z) : (0 <= z <= 9999)%Z -> String.length (DT.pad 4 z) = 4.
Proof.
  intros H. rewrite pad_nat by lia. rewrite PyFacts.zfill_length by apply PyFacts.str_nat_digits.
  pose proof (PyFacts.str_nat_length_mono (Z.to_nat z) (Z.to_nat 9999) ltac:(lia)) as Hm.
  assert (String.length (Py.str_nat (Z.to_nat 9999)) = 4) as E by (by vm_compute).
  lia.
Qed.

Lemma pad_at_boundary (w : nat) (z : Z) (rest : string) :
  (0 <= z)%Z -> Re.at_boundary (DT.pad w z +:+ rest) = true.
Proof.
  intros H. pose proof (pad_digits w z H) as Hd.
  assert (DT.pad w z <> "") as Hne.
  { rewrite pad_nat by done. intros E. apply (f_equal String.length) in E.
    rewrite PyFacts.zfill_length in E by apply PyFacts.str_nat_digits.
    pose proof (PyFacts.str_nat_length_pos (Z.to_nat z)). cbn [String.length] in E. lia. }
  destruct (DT.pad w z) as [|c s]; [done|]. rewrite PyFacts.app_cons. cbn [Re.at_boundary].
  cbn [Vocabulary.all_digits] in Hd. apply andb_prop in Hd as [Hc _].
  unfold Py.is_digit in Hc. unfold Re.is_cont.
  apply andb_prop in Hc as [_ Hc]. apply Nat.leb_le in Hc.
  apply negb_true_iff, andb_false_iff. left. apply Nat.leb_gt. lia.
Qed.

Lemma rmatch_cat (r1 r2 : Re.regex) (s : string) (cs : Re.caps) (k : Re.cont) :
  Re.rmatch (Re.Cat r1 r2) s cs k = Re.rmatch r1 s cs (fun s' cs' => Re.rmatch r2 s' cs' k).
Proof. done. Qed.

Lemma rmatch_lit (c : ascii) (s : string) (cs : Re.caps) (k : Re.cont) :
  Re.rmatch (Re.Lit c) (String c s) cs k = k s cs.
Proof. cbn [Re.rmatch]. by rewrite Ascii.eqb_refl. Qed.

Lemma rmatch_eps (s : string) (cs : Re.caps) (k : Re.cont) : Re.rmatch Re.Eps s cs k = k s cs.
Proof. done. Qed.

Lemma rmatch_set (l : list ascii) (c : ascii) (s : string) (cs : Re.caps) (k : Re.cont) :
  existsb (Ascii.eqb c) l = true -> Re.rmatch (Re.CharSet l) (String c s) cs k = k s cs.
Proof. intros H. cbn [Re.rmatch]. by rewrite H. Qed.

Lemma search_from_here (r : Re.regex) (pos : nat) (s s' : string) (cs : Re.caps) :
  Re.match_here r s = Some (s', cs) ->
  Re.search_from r pos s =
  Some {| Re.m_start := pos; Re.m_text := Py.consumed s s'; Re.m_after := s';
          Re.m_groups := cs |}.
Proof. intros H. destruct s; cbn [Re.search_from]; by rewrite H. Qed.

Ltac pattern_step :=
  first
    [ rewrite rmatch_cat
    | rewrite group_digits by (first [by apply pad_digits; lia | by apply pad_length_4
                                     | by apply pad_length_2])
    | rewrite rmatch_lit
    | rewrite rmatch_set by done
    | rewrite rmatch_eps ].



Lemma make_Some (y mo d hh mm ss : Z) (dt : DT.datetime) :
  DT.make y mo d hh mm ss = Some dt ->
  dt = DT.mk y mo d hh mm ss 0 /\
  (1 <= y <= 9999)%Z /\ (1 <= mo <= 12)%Z /\ (1 <= d <= 31)%Z /\
  (0 <= hh <= 23)%Z /\ (0 <= mm <= 59)%Z /\ (0 <= ss <= 59)%Z.
Proof.
  unfold DT.make. intros H.
  destruct (_ && _) eqn:E in H; [|done]. simplify_eq.
  repeat (apply andb_prop in E as [E ?]).
  assert (DT.days_in_month y mo <= 31)%Z.
  { unfold DT.days_in_month. repeat case_match; lia. }
  repeat split; lia.
Qed.



End MoreFacts.

(** * Further facts about [rename_and_convert_to_jpeg] *)
Module MoreRename.

Import DT Rename More MoreFacts.


Lemma unique_loop_least (fuel : nat) (fs : gmap Path.path node) (target : Path.path)
    (i0 : nat) (p : Path.path) :
  unique_loop fuel fs target (Path.stem target) (Path.suffix target) i0 = Some p ->
  exists i, i0 <= i /\ p = candidate target i /\
            forall j, i0 <= j < i -> is_Some (fs !! candidate target j).
Proof.
  revert i0. induction fuel as [|fuel IH]; intros i0 H; [done|].
  cbn [unique_loop] in H. fold (candidate target i0) in H.
  destruct (exists_ fs (candidate target i0)) eqn:E.
  - apply IH in H as (i & Hi & -> & Hall). exists i. split; [lia|]. split; [done|].
    intros j Hj. destruct (decide (j = i0)) as [->|Hne].
    + unfold exists_ in E. by apply bool_decide_eq_true in E.
    + apply Hall. lia.
  - simplify_eq. exists i0. split; [done|]. split; [done|]. intros j Hj. lia.
Qed.

Lemma unique_target_name_cases (fs : gmap Path.path node) (target : Path.path) :
  exists p,
    unique_target_name fs target = Some p /\
    fs !! p = None /\
    (fs !! target = None -> p = target) /\
    (is_Some (fs !! target) ->
       exists i, 1 <= i /\ p = candidate target i /\
                 forall j, 1 <= j < i -> is_Some (fs !! candidate target j)).
Proof.
  destruct (RenameFacts.unique_target_name_total fs target) as (p & Hp & Hfree).
  exists p. split; [done|]. split; [done|].
  unfold unique_target_name in Hp. destruct (exists_ fs target) eqn:E.
  - unfold exists_ in E. apply bool_decide_eq_true in E. split.
    + intros Hn. rewrite Hn in E. by destruct E.
    + intros _. by apply unique_loop_least in Hp.
  - unfold exists_ in E. apply bool_decide_eq_false in E. split.
    + intros _. by simplify_eq.
    + intros Hs. done.
Qed.

(** X1.  [unique_target_name] ends, and with a path that is free: the target
    itself when it is free, otherwise the candidate [stem-i.ext] with the
    least [i >= 1] that is free.  Asked again for its own result it
    answers the same. *)
Theorem unique_target_name_least (fs : gmap Path.path node) (target : Path.path) :
  exists p,
    unique_target_name fs target = Some p /\
    fs !! p = None /\
    unique_target_name fs p = Some p /\
    (fs !! target = None -> p = target) /\
    (is_Some (fs !! target) ->
       exists i, 1 <= i /\ p = candidate target i /\
                 forall j, 1 <= j < i -> is_Some (fs !! candidate target j)).
Proof.
  destruct (unique_target_name_cases fs target) as (p & Hp & Hfree & Hsame & Hcount).
  exists p. repeat split; try done.
  unfold unique_target_name, exists_. rewrite Hfree.
  rewrite bool_decide_eq_false_2; [done|]. by intros [? ?].
Qed.



Lemma candidate_name (target : Path.path) (base : string) (i : nat) :
  base <> "" -> lacks "." base = true -> target.2 = base +:+ ".jpeg" ->
  candidate target i = (target.1, base +:+ "-" +:+ Py.str_nat i +:+ ".jpeg").
Proof.
  intros Hb Hl Hn. unfold candidate, Path.with_name, Path.stem, Path.suffix, Path.name.
  rewrite Hn.
  destruct (suffix_of_app base "jpeg" Hb ltac:(done) ltac:(done)) as [-> ->]. done.
Qed.

Lemma strftime_name_nonempty (d : datetime) : strftime_name d <> "".
Proof.
  unfold strftime_name. intros E. apply (f_equal String.length) in E.
  rewrite !PyFacts.length_app in E. cbn [String.length] in E. lia.
Qed.

(** The plan of an image: the source is the image; the destination is a
    free path of the same directory, never the source itself, named after the
    timestamp, with a counter when the plain name is taken; the timestamp is
    the EXIF date when there is one and the modification time otherwise. *)
Lemma plan_one_inv (fromtimestamp : Z -> datetime) (fs : gmap Path.path node)
    (img : Path.path) (pl : plan) :
  plan_one fromtimestamp fs img = Some pl ->
  p_src pl = img /\
  is_Some (fs !! p_src pl) /\
  fs !! p_dst pl = None /\
  p_src pl <> p_dst pl /\
  (p_dst pl).1 = img.1 /\
  ((p_dst pl).2 = strftime_name (p_dt pl) +:+ ".jpeg" \/
   exists i, 1 <= i /\
     (p_dst pl).2 = strftime_name (p_dt pl) +:+ "-" +:+ Py.str_nat i +:+ ".jpeg" /\
     is_Some (fs !! (img.1, strftime_name (p_dt pl) +:+ ".jpeg")) /\
     forall j, 1 <= j < i ->
       is_Some (fs !! (img.1, strftime_name (p_dt pl) +:+ "-" +:+ Py.str_nat j +:+ ".jpeg"))) /\
  (exists n, fs !! img = Some n /\
     match extract_exif_datetime n with
     | Some dt => p_dt pl = dt /\ p_used_exif pl = true
     | None => p_dt pl = fromtimestamp (n_mtime n) /\ p_used_exif pl = false
     end).
Proof.
  unfold plan_one. destruct (fs !! img) as [n|] eqn:Hn; [|done]. cbn [mbind option_bind].
  set (dt_used := match extract_exif_datetime n with
                  | Some dt => (dt, true)
                  | None => (get_file_mtime fromtimestamp n, false)
                  end).
  destruct dt_used as [dt used] eqn:Edt.
  set (target := Path.with_name img (strftime_name dt +:+ ".jpeg")).
  destruct (unique_target_name_cases fs target) as (p & Hp & Hfree & Hsame & Hcount).
  rewrite Hp. cbn [mbind option_bind]. intros [= <-]. cbn [p_src p_dst p_dt p_used_exif].
  split; [done|]. split; [by rewrite Hn|]. split; [done|].
  split; [intros ->; by rewrite Hn in Hfree|].
  assert (forall i, candidate target i = (img.1, strftime_name dt +:+ "-" +:+ Py.str_nat i +:+ ".jpeg"))
    as Hcand.
  { intros i. apply (candidate_name target (strftime_name dt) i);
      [apply strftime_name_nonempty|apply lacks_strftime_name|done]. }
  destruct (fs !! target) as [n'|] eqn:Ht.
  - destruct (Hcount ltac:(eauto)) as (i & Hi & -> & Hall). rewrite Hcand.
    split; [done|]. split.
    + right. exists i. split; [done|]. split; [done|].
      split; [change (is_Some (fs !! target)); rewrite Ht; eauto|].
      intros j Hj. rewrite <- Hcand. by apply Hall.
    + exists n. split; [done|]. unfold dt_used in Edt.
      destruct (extract_exif_datetime n); by simplify_eq.
  - rewrite (Hsame eq_refl). split; [done|]. split; [by left|].
    exists n. split; [done|]. unfold dt_used in Edt.
    destruct (extract_exif_datetime n); by simplify_eq.
Qed.



(** *** The conversion loop when no two plans share a destination *)

Lemma convert_one_frame (now : Z) (fs : gmap Path.path node) (pl : plan) (p : Path.path) :
  p <> p_src pl -> p <> p_dst pl -> (convert_one now fs pl).1 !! p = fs !! p.
Proof.
  intros Hs Hd. unfold convert_one. destruct (fs !! p_src pl) as [n|]; [|done].
  destruct (n_picture n) as [pic|]; [|done]. cbn [fst].
  destruct (bool_decide (p_src pl = p_dst pl)).
  - by rewrite lookup_insert_ne.
  - by rewrite lookup_delete_ne, lookup_insert_ne.
Qed.

Lemma convert_all_frame (now : Z) (plans : list plan) (fs : gmap Path.path node)
    (p : Path.path) :
  p ∉ map p_src plans -> p ∉ map p_dst plans ->
  (convert_all now fs plans).1 !! p = fs !! p.
Proof.
  revert fs. induction plans as [|pl rest IH]; intros fs Hs Hd; [done|].
  cbn [convert_all map] in *. apply not_elem_of_cons in Hs as [Hs1 Hs2].
  apply not_elem_of_cons in Hd as [Hd1 Hd2].
  pose proof (convert_one_frame now fs pl p Hs1 Hd1) as H1.
  destruct (convert_one now fs pl) as [fs1 ok]. cbn [fst] in H1.
  pose proof (IH fs1 Hs2 Hd2) as H2.
  destruct (convert_all now fs1 rest) as [fs2 k]. cbn [fst] in *. congruence.
Qed.

Lemma convert_all_separate (now : Z) (plans : list plan) (fs : gmap Path.path node) :
  separate plans ->
  (forall pl, pl ∈ plans ->
     match fs !! p_src pl with
     | Some n =>
         match n_picture n with
         | Some pic =>
             (convert_all now fs plans).1 !! p_dst pl = Some (converted pic now) /\
             (convert_all now fs plans).1 !! p_src pl = None
         | None =>
             (convert_all now fs plans).1 !! p_dst pl = fs !! p_dst pl /\
             (convert_all now fs plans).1 !! p_src pl = Some n
         end
     | None =>
         (convert_all now fs plans).1 !! p_dst pl = fs !! p_dst pl /\
         (convert_all now fs plans).1 !! p_src pl = None
     end) /\
  (convert_all now fs plans).2 = length (List.filter (decodable fs) plans).
Proof.
  revert fs. induction plans as [|pl rest IH]; intros fs (Hs & Hd & Hsd).
  { split; [|done]. intros pl Hpl. by apply elem_of_nil in Hpl. }
  cbn [map] in Hs, Hd. apply NoDup_cons in Hs as [Hs1 Hs2]. apply NoDup_cons in Hd as [Hd1 Hd2].
  assert (separate rest) as Hrest.
  { split; [done|]. split; [done|]. intros a b Ha Hb. apply Hsd; by right. }
  assert (p_src pl <> p_dst pl) as Hne by (apply Hsd; by left).
  cbn [convert_all].
  pose proof (convert_one_frame now fs pl) as Hframe1.
  assert ((convert_one now fs pl).1 !! p_dst pl =
          match fs !! p_src pl with
          | Some n => match n_picture n with
                      | Some pic => Some (converted pic now)
                      | None => fs !! p_dst pl
                      end
          | None => fs !! p_dst pl
          end /\
          (convert_one now fs pl).1 !! p_src pl =
          match fs !! p_src pl with
          | Some n => match n_picture n with
                      | Some pic => None
                      | None => Some n
                      end
          | None => None
          end /\
          (convert_one now fs pl).2 = decodable fs pl) as (Hone_d & Hone_s & Hone_ok).
  { unfold convert_one, decodable. destruct (fs !! p_src pl) as [n|] eqn:En; [|done].
    destruct (n_picture n) as [pic|]; [|done]. cbn [fst snd].
    rewrite bool_decide_eq_false_2 by done.
    rewrite lookup_delete_ne, lookup_insert_eq, lookup_delete_eq by done.
    split; [done|]. split; [done|]. symmetry. apply bool_decide_eq_true. eauto. }
  destruct (convert_one now fs pl) as [fs1 ok] eqn:E1. cbn [fst snd] in *.
  destruct (IH fs1 Hrest) as [IHplans IHcount].
  pose proof (convert_all_frame now rest fs1) as Hframe2.
  destruct (convert_all now fs1 rest) as [fs2 k] eqn:E2. cbn [fst snd] in *.
  split.
  - intros pl' Hpl'. apply elem_of_cons in Hpl' as [->|Hin].
    + rewrite (Hframe2 (p_dst pl)), (Hframe2 (p_src pl)); try done.
      * rewrite Hone_d, Hone_s. destruct (fs !! p_src pl) as [n|]; [|done].
        by destruct (n_picture n).
      * intros Hin. apply list_elem_of_fmap in Hin as (b & Hb & Hin).
        eapply (Hsd pl b); [by left|by right|congruence].
      * intros Hin. apply list_elem_of_fmap in Hin as (b & Hb & Hin).
        eapply (Hsd b pl); [by right|by left|congruence].
    + assert (p_src pl' <> p_src pl) as Hss.
      { intros E. apply Hs1. rewrite <- E. by apply list_elem_of_fmap_2. }
      assert (p_src pl' <> p_dst pl) as Hsd' by (apply Hsd; [by right|by left]).
      assert (p_dst pl' <> p_dst pl) as Hdd.
      { intros E. apply Hd1. rewrite <- E. by apply list_elem_of_fmap_2. }
      assert (p_dst pl' <> p_src pl) as Hds.
      { intros E. eapply (Hsd pl pl'); [by left|by right|done]. }
      specialize (IHplans pl' Hin).
      rewrite (Hframe1 (p_src pl') Hss Hsd') in IHplans.
      by rewrite (Hframe1 (p_dst pl') Hds Hdd) in IHplans.
  - rewrite IHcount. cbn [List.filter]. rewrite <- Hone_ok.
    assert (List.filter (decodable fs1) rest = List.filter (decodable fs) rest) as ->.
    { apply List.filter_ext_in. intros b Hb. unfold decodable.
      rewrite (Hframe1 (p_src b)); [done| |].
      - intros E. apply Hs1. rewrite <- E. apply list_elem_of_fmap_2.
        by apply list_elem_of_In.
      - apply Hsd; [right; by apply list_elem_of_In|by left]. }
    by destruct ok.
Qed.



(** *** The images of a folder *)

(** X4.  The images of a folder are, in the order of the listing, the regular
    files whose name is a non-empty stem, a dot and one of the eight
    extensions in any mix of upper and lower case. *)
Theorem rename_images_by_extension (w : world) (recursive : bool) :
  sublist (iter_images w recursive) (if recursive then w_rglob w else w_iterdir w) /\
  forall p, p ∈ iter_images w recursive <->
            p ∈ (if recursive then w_rglob w else w_iterdir w) /\
            exists n, w_fs w !! p = Some n /\ n_is_file n = true /\
                      image_name IMG_EXTS (Path.name p).
Proof.
  unfold iter_images. split; [apply sublist_filter|]. intros p.
  rewrite list_elem_of_filter. unfold is_image, Path.suffix.
  split.
  - intros [Hp Hin]. split; [done|].
    destruct (w_fs w !! p) as [n|]; [|done]. exists n. split; [done|].
    apply andb_prop in Hp as [Hf Hs]. split; [done|].
    apply bool_decide_eq_true in Hs. by apply (suffix_accepted _ _ IMG_EXTS_shape).
  - intros [Hin (n & -> & Hf & Hname)]. split; [|done]. rewrite Hf. cbn [andb].
    apply bool_decide_eq_true. by apply (suffix_accepted _ _ IMG_EXTS_shape).
Qed.

Lemma make_plans_inv (fromtimestamp : Z -> datetime) (w : world) (recursive : bool)
    (plans : list plan) :
  make_plans fromtimestamp w recursive = Some plans ->
  map p_src plans = iter_images w recursive /\
  forall pl, pl ∈ plans -> plan_one fromtimestamp (w_fs w) (p_src pl) = Some pl.
Proof.
  unfold make_plans. intros H. apply mapM_Some in H.
  induction H as [|img pl imgs plans Hpl _ [IH1 IH2]]; [split; [done|]|].
  { intros pl Hpl. by apply elem_of_nil in Hpl. }
  destruct (plan_one_inv _ _ _ _ Hpl) as [Hsrc _]. cbn [map]. split; [congruence|].
  intros pl' [->|Hin]%elem_of_cons; [congruence|by apply IH2].
Qed.

Lemma make_plans_separate (fromtimestamp : Z -> datetime) (w : world) (recursive : bool)
    (plans : list plan) :
  NoDup (if recursive then w_rglob w else w_iterdir w) ->
  make_plans fromtimestamp w recursive = Some plans ->
  NoDup (map p_dst plans) ->
  separate plans.
Proof.
  intros Hnd Hplans Hdst. destruct (make_plans_inv _ _ _ _ Hplans) as [Hsrc Hone].
  split; [|split; [done|]].
  - rewrite Hsrc. unfold iter_images. by apply NoDup_filter.
  - intros pl pl' Hpl Hpl' E.
    destruct (plan_one_inv _ _ _ _ (Hone pl Hpl)) as (_ & [n Hn] & _).
    destruct (plan_one_inv _ _ _ _ (Hone pl' Hpl')) as (_ & _ & Hfree & _).
    congruence.
Qed.

(** X5.  With [--apply], when the folder is listed without repetition and no
    two plans have the same destination: every image Pillow can read is
    saved as a JPEG at its destination and its source is gone; an image it
    cannot read stays where it is and its destination stays free; no other
    path changes; the number reported is the number of images read. *)
Theorem apply_converts_each (fromtimestamp : Z -> datetime) (now : Z) (a : args) (w : world)
    (plans : list plan) :
  a_apply a = true ->
  NoDup (if a_recursive a then w_rglob w else w_iterdir w) ->
  make_plans fromtimestamp w (a_recursive a) = Some plans ->
  NoDup (map p_dst plans) ->
  exists fs',
    main fromtimestamp now a w =
      Some (plans, fs', length (List.filter (decodable (w_fs w)) plans)) /\
    (forall pl, pl ∈ plans ->
       match w_fs w !! p_src pl ≫= n_picture with
       | Some pic => fs' !! p_dst pl = Some (converted pic now) /\ fs' !! p_src pl = None
       | None => fs' !! p_dst pl = None /\ fs' !! p_src pl = w_fs w !! p_src pl
       end) /\
    (forall p, p ∉ map p_src plans -> p ∉ map p_dst plans -> fs' !! p = w_fs w !! p).
Proof.
  intros Happly Hnd Hplans Hdst.
  pose proof (make_plans_separate _ _ _ _ Hnd Hplans Hdst) as Hsep.
  destruct (make_plans_inv _ _ _ _ Hplans) as [_ Hone].
  destruct (convert_all_separate now plans (w_fs w) Hsep) as [Hall Hcount].
  pose proof (convert_all_frame now plans (w_fs w)) as Hframe.
  unfold main. rewrite Hplans, Happly. cbn [mbind option_bind].
  destruct (convert_all now (w_fs w) plans) as [fs' k]. cbn [fst snd] in *.
  exists fs'. split; [by rewrite Hcount|]. split; [|done].
  intros pl Hpl. specialize (Hall pl Hpl).
  destruct (plan_one_inv _ _ _ _ (Hone pl Hpl)) as (_ & _ & Hfree & _).
  rewrite Hfree in Hall.
  destruct (w_fs w !! p_src pl) as [n|]; cbn [mbind option_bind]; [|done].
  by destruct (n_picture n).
Qed.

Lemma apply_converts_each_witness :
  exists fs',
    main Sample.clock Sample.now Sample.rename_args album =
      Some ([ {| p_src := ("/album", "2020-09-13_122640.jpeg");
                 p_dst := ("/album", "2020-09-13_123040.jpeg");
                 p_dt := mk 2020 9 13 12 30 40 0; p_used_exif := false |};
              {| p_src := ("/album", "a.png");
                 p_dst := ("/album", "2020-09-13_122640-1.jpeg");
                 p_dt := mk 2020 9 13 12 26 40 0; p_used_exif := false |};
              {| p_src := ("/album", "b.JPG");
                 p_dst := ("/album", "2020-09-13_122740.jpeg");
                 p_dt := mk 2020 9 13 12 27 40 0; p_used_exif := false |};
              {| p_src := ("/album", "broken.png");
                 p_dst := ("/album", "2020-09-13_122840.jpeg");
                 p_dt := mk 2020 9 13 12 28 40 0; p_used_exif := false |} ], fs', 3) /\
    fs' !! ("/album", "2020-09-13_122640-1.jpeg") = Some (converted "A" Sample.now) /\
    fs' !! ("/album", "a.png") = None /\
    fs' !! ("/album", "broken.png") = album.(w_fs) !! ("/album", "broken.png") /\
    fs' !! ("/album", "notes.txt") = album.(w_fs) !! ("/album", "notes.txt").
Proof.
  edestruct (apply_converts_each Sample.clock Sample.now Sample.rename_args album
    [ {| p_src := ("/album", "2020-09-13_122640.jpeg");
         p_dst := ("/album", "2020-09-13_123040.jpeg");
         p_dt := mk 2020 9 13 12 30 40 0; p_used_exif := false |};
      {| p_src := ("/album", "a.png");
         p_dst := ("/album", "2020-09-13_122640-1.jpeg");
         p_dt := mk 2020 9 13 12 26 40 0; p_used_exif := false |};
      {| p_src := ("/album", "b.JPG");
         p_dst := ("/album", "2020-09-13_122740.jpeg");
         p_dt := mk 2020 9 13 12 27 40 0; p_used_exif := false |};
      {| p_src := ("/album", "broken.png");
         p_dst := ("/album", "2020-09-13_122840.jpeg");
         p_dt := mk 2020 9 13 12 28 40 0; p_used_exif := false |} ])
    as (fs' & Hmain & Hplans & Hframe).
  - reflexivity.
  - apply (bool_decide_unpack _). vm_compute. exact I.
  - vm_compute. reflexivity.
  - apply (bool_decide_unpack _). vm_compute. exact I.
  - exists fs'. split; [exact Hmain|].
    pose proof (Hplans _ ltac:(right; left)) as Ha.
    pose proof (Hplans _ ltac:(do 3 right; left)) as Hb.
    cbn [p_src p_dst] in Ha, Hb.
    repeat split.
    + exact (proj1 Ha).
    + exact (proj2 Ha).
    + exact (proj2 Hb).
    + apply Hframe; apply (bool_decide_unpack _); vm_compute; exact I.
Defined.

End MoreRename.

(** * Further facts about [build_excel_from_images] *)
Module MoreExcel.

Import DT BuildExcel More MoreFacts.

(** The groups the file name pattern finds in a name that starts with a
    date as [rename_and_convert_to_jpeg] writes it. *)
Lemma filename_pattern (y mo d hh mm ss : Z) (rest : string) :
  (0 <= y <= 9999)%Z -> (0 <= mo <= 99)%Z -> (0 <= d <= 99)%Z ->
  (0 <= hh <= 99)%Z -> (0 <= mm <= 99)%Z -> (0 <= ss <= 99)%Z ->
  search_groups DATE_RE_FILENAME
    (pad 4 y +:+ String "-" (pad 2 mo +:+ String "-" (pad 2 d +:+ String "_"
       (pad 2 hh +:+ (pad 2 mm +:+ (pad 2 ss +:+ rest)))))) =
  Some [Some (pad 4 y); Some (pad 2 mo); Some (pad 2 d);
        Some (pad 2 hh); Some (pad 2 mm); Some (pad 2 ss)].
Proof.
  intros Hy Hmo Hd Hhh Hmm Hss. unfold search_groups.
  assert (DATE_RE_FILENAME = Some
         (Re.Cat (Re.Group 1 (Re.Cat (Re.Rep 4 Re.Digit) Re.Eps))
            (Re.Cat (Re.Lit "-")
               (Re.Cat (Re.Group 2 (Re.Cat (Re.Rep 2 Re.Digit) Re.Eps))
                  (Re.Cat (Re.Lit "-")
                     (Re.Cat (Re.Group 3 (Re.Cat (Re.Rep 2 Re.Digit) Re.Eps))
                        (Re.Cat (Re.CharSet ["_"%char; "-"%char])
                           (Re.Cat (Re.Group 4 (Re.Cat (Re.Rep 2 Re.Digit) Re.Eps))
                              (Re.Cat (Re.Group 5 (Re.Cat (Re.Rep 2 Re.Digit) Re.Eps))
                                 (Re.Cat (Re.Group 6 (Re.Cat (Re.Rep 2 Re.Digit) Re.Eps))
                                    Re.Eps)))))))), 6)) as -> by reflexivity.
  unfold Re.search. 
  match goal with |- Re.groups _ <$> Re.search_from ?r 0 ?s = _ =>
    assert (Re.match_here r s = Some (rest,
       <[6 := pad 2 ss]> (<[5 := pad 2 mm]> (<[4 := pad 2 hh]> (<[3 := pad 2 d]>
          (<[2 := pad 2 mo]> (<[1 := pad 4 y]> ∅))))))) as Hm
  end.
  { unfold Re.match_here. rewrite pad_at_boundary by lia. repeat pattern_step. done. }
  rewrite (search_from_here _ _ _ _ _ Hm). cbn [fmap option_fmap option_map].
  reflexivity.
Qed.

Lemma strftime_name_app (d : datetime) (rest : string) :
  strftime_name d +:+ rest =
  pad 4 (year d) +:+ String "-" (pad 2 (month d) +:+ String "-" (pad 2 (day d) +:+ String "_"
    (pad 2 (hour d) +:+ (pad 2 (minute d) +:+ (pad 2 (second d) +:+ rest))))).
Proof.
  unfold strftime_name. rewrite !PyFacts.app_assoc. reflexivity.
Qed.

Lemma filename_date (f : file) (y mo d hh mm ss us : Z) (rest : string) :
  (0 <= y <= 9999)%Z -> (0 <= mo <= 99)%Z -> (0 <= d <= 99)%Z ->
  (0 <= hh <= 99)%Z -> (0 <= mm <= 99)%Z -> (0 <= ss <= 99)%Z ->
  Path.stem (f_path f) = strftime_name (mk y mo d hh mm ss us) +:+ rest ->
  datetime_from_filename f =
  match make y mo d hh mm ss with
  | Some dt => Ok (Some dt)
  | None => Raise (ValueError "datetime")
  end.
Proof.
  intros Hy Hmo Hd Hhh Hmm Hss Hstem. unfold datetime_from_filename.
  rewrite Hstem, strftime_name_app. cbn [year month day hour minute second].
  rewrite filename_pattern by done. cbn [of_groups]. rewrite !pad_int by lia. done.
Qed.

(** X6.  A file whose stem begins with a date and time written as
    [YYYY-MM-DD_HHMMSS] gets that date as its timestamp, whatever its EXIF
    data and file times, when the fields are a calendar date and a time of
    day; when they are not, [datetime(...)] raises [ValueError], which
    nothing catches, and the scan of the folder ends there. *)
Theorem filename_date_read (fromtimestamp : Z -> datetime) (f : file)
    (y mo d hh mm ss us : Z) (rest : string) :
  (0 <= y <= 9999)%Z -> (0 <= mo <= 99)%Z -> (0 <= d <= 99)%Z ->
  (0 <= hh <= 99)%Z -> (0 <= mm <= 99)%Z -> (0 <= ss <= 99)%Z ->
  Path.stem (f_path f) = strftime_name (mk y mo d hh mm ss us) +:+ rest ->
  resolve_dt fromtimestamp f =
  match make y mo d hh mm ss with
  | Some dt => Ok dt
  | None => Raise (ValueError "datetime")
  end /\
  forall before after,
    make y mo d hh mm ss = None ->
    Forall (fun g => ~ ExcelSpec.bad_filename_date g) before ->
    scan fromtimestamp (before ++ f :: after) = Raise (ValueError "datetime").
Proof.
  intros Hy Hmo Hd Hhh Hmm Hss Hstem.
  pose proof (filename_date f y mo d hh mm ss us rest Hy Hmo Hd Hhh Hmm Hss Hstem) as E.
  assert (resolve_dt fromtimestamp f =
          match make y mo d hh mm ss with
          | Some dt => Ok dt
          | None => Raise (ValueError "datetime")
          end) as Er.
  { unfold resolve_dt. rewrite E. by destruct (make y mo d hh mm ss). }
  split; [done|]. intros before after Hnone Hbefore. rewrite Hnone in Er.
  induction Hbefore as [|g before Hg _ IH]; cbn [app scan].
  - by rewrite Er.
  - destruct (resolve_dt fromtimestamp g) as [dt|e] eqn:Eg.
    + cbn [bind]. by rewrite IH.
    + apply ExcelFacts.resolve_dt_raise in Eg. destruct Hg. by exists e.
Qed.

Lemma filename_date_read_witness :
  resolve_dt Sample.clock
    {| f_path := ("/photos", "2021-02-30_120000.jpg"); f_is_file := true; f_exif := None;
       f_mdls := None; f_birthtime := None; f_mtime := 0 |} = Raise (ValueError "datetime") /\
  forall before after,
    make 2021 2 30 12 0 0 = None ->
    Forall (fun g => ~ ExcelSpec.bad_filename_date g) before ->
    scan Sample.clock
      (before ++
       {| f_path := ("/photos", "2021-02-30_120000.jpg"); f_is_file := true; f_exif := None;
          f_mdls := None; f_birthtime := None; f_mtime := 0 |} :: after) =
    Raise (ValueError "datetime").
Proof.
  apply (filename_date_read Sample.clock _ 2021 2 30 12 0 0 0 ""); try lia. reflexivity.
Defined.

Lemma renamed_name_date (clock : Z -> datetime)
    (fs : gmap Path.path Rename.node) (img : Path.path) (pl : Rename.plan)
    (f : file) (dt : datetime) :
  Rename.plan_one clock fs img = Some pl ->
  make (year (Rename.p_dt pl)) (month (Rename.p_dt pl)) (day (Rename.p_dt pl))
       (hour (Rename.p_dt pl)) (minute (Rename.p_dt pl)) (second (Rename.p_dt pl)) = Some dt ->
  f_path f = Rename.p_dst pl ->
  datetime_from_filename f = Ok (Some dt).
Proof.
  intros Hpl Hmake Hpath.
  destruct (MoreRename.plan_one_inv _ _ _ _ Hpl) as (_ & _ & _ & _ & _ & Hname & _).
  destruct (Rename.p_dt pl) as [y mo d hh mm ss us] eqn:Edt.
  cbn [year month day hour minute second] in Hmake.
  destruct (make_Some _ _ _ _ _ _ _ Hmake) as (_ & ? & ? & ? & ? & ? & ?).
  assert (exists rest, Path.stem (f_path f) = strftime_name (mk y mo d hh mm ss us) +:+ rest)
    as [rest Hstem].
  { unfold Path.stem, Path.name. rewrite Hpath.
    destruct Hname as [->|(i & _ & -> & _)].
    - exists "".
      destruct (suffix_of_app (strftime_name (mk y mo d hh mm ss us)) "jpeg"
                  (MoreRename.strftime_name_nonempty _) ltac:(done) ltac:(done)) as [_ ->].
      by rewrite PyFacts.app_empty_r.
    - exists ("-" +:+ Py.str_nat i). rewrite <- !PyFacts.app_assoc.
      refine (proj2 (suffix_of_app _ "jpeg" _ ltac:(done) ltac:(done))).
      intros E. apply (f_equal String.length) in E. rewrite !PyFacts.length_app in E.
      cbn [String.length] in E. lia. }
  rewrite (filename_date f y mo d hh mm ss us rest) by (done || lia).
  by rewrite Hmake.
Qed.



(** X8.  When the timestamps of the plans are calendar dates and no two
    images of one directory have timestamps in the same second, no two
    plans have the same destination: the condition under which [--apply]
    loses no picture. *)
Theorem distinct_seconds_distinct_names (clock : Z -> datetime) (w : Rename.world)
    (recursive : bool) (plans : list Rename.plan) :
  Rename.make_plans clock w recursive = Some plans ->
  Forall (fun pl => real_date (Rename.p_dt pl)) plans ->
  (forall i j pl pl', plans !! i = Some pl -> plans !! j = Some pl' -> i <> j ->
     (Rename.p_src pl).1 = (Rename.p_src pl').1 ->
     ~ same_second (Rename.p_dt pl) (Rename.p_dt pl')) ->
  NoDup (map Rename.p_dst plans).
Proof.
  intros Hplans Hreal Hdiff.
  destruct (MoreRename.make_plans_inv _ _ _ _ Hplans) as [_ Hone].
  apply NoDup_alt. intros i j dst Hi Hj.
  rewrite list_lookup_fmap in Hi, Hj.
  destruct (plans !! i) as [pl|] eqn:Ei; [|done].
  destruct (plans !! j) as [pl'|] eqn:Ej; [|done].
  cbn in Hi, Hj. injection Hi as Hi. injection Hj as Hj.
  destruct (decide (i = j)) as [|Hne]; [done|]. exfalso.
  pose proof (Hone pl (list_elem_of_lookup_2 _ _ _ Ei)) as Hpl.
  pose proof (Hone pl' (list_elem_of_lookup_2 _ _ _ Ej)) as Hpl'.
  rewrite Forall_forall in Hreal.
  destruct (Hreal pl (list_elem_of_lookup_2 _ _ _ Ei)) as [dt Hdt].
  destruct (Hreal pl' (list_elem_of_lookup_2 _ _ _ Ej)) as [dt' Hdt'].
  set (f := {| f_path := dst; f_is_file := true; f_exif := None; f_mdls := None;
               f_birthtime := None; f_mtime := 0 |}).
  pose proof (renamed_name_date clock _ _ pl f dt Hpl Hdt ltac:(by rewrite Hi)) as E.
  pose proof (renamed_name_date clock _ _ pl' f dt' Hpl' Hdt' ltac:(by rewrite Hj)) as E'.
  rewrite E in E'. injection E' as <-.
  destruct (make_Some _ _ _ _ _ _ _ Hdt) as (Hd & _).
  destruct (make_Some _ _ _ _ _ _ _ Hdt') as (Hd' & _).
  rewrite Hd in Hd'. injection Hd' as ? ? ? ? ? ?.
  destruct (MoreRename.plan_one_inv _ _ _ _ Hpl) as (_ & _ & _ & _ & Hdir & _).
  destruct (MoreRename.plan_one_inv _ _ _ _ Hpl') as (_ & _ & _ & _ & Hdir' & _).
  apply (Hdiff i j pl pl' Ei Ej Hne).
  - rewrite <- Hdir, <- Hdir'. by rewrite Hi, Hj.
  - by repeat split.
Qed.

Lemma distinct_seconds_distinct_names_witness :
  NoDup (map Rename.p_dst
    [ {| Rename.p_src := ("/album", "2020-09-13_122640.jpeg");
         Rename.p_dst := ("/album", "2020-09-13_123040.jpeg");
         Rename.p_dt := mk 2020 9 13 12 30 40 0; Rename.p_used_exif := false |};
      {| Rename.p_src := ("/album", "a.png");
         Rename.p_dst := ("/album", "2020-09-13_122640-1.jpeg");
         Rename.p_dt := mk 2020 9 13 12 26 40 0; Rename.p_used_exif := false |};
      {| Rename.p_src := ("/album", "b.JPG");
         Rename.p_dst := ("/album", "2020-09-13_122740.jpeg");
         Rename.p_dt := mk 2020 9 13 12 27 40 0; Rename.p_used_exif := false |};
      {| Rename.p_src := ("/album", "broken.png");
         Rename.p_dst := ("/album", "2020-09-13_122840.jpeg");
         Rename.p_dt := mk 2020 9 13 12 28 40 0; Rename.p_used_exif := false |} ]).
Proof.
  apply (distinct_seconds_distinct_names Sample.clock album false).
  - vm_compute. reflexivity.
  - repeat constructor; by eexists.
  - intros i j pl pl' Hi Hj Hne _ (_ & _ & _ & _ & Hm & _).
    destruct i as [|[|[|[|i]]]]; try done;
      destruct j as [|[|[|[|j]]]]; try done;
      cbn in Hi, Hj; injection Hi as <-; injection Hj as <-; cbn in Hm; done.
Defined.



(** *** The images of a folder *)

(** X10.  The images of a folder are, in the order of the listing, the regular
    files whose name is a non-empty stem, a dot and one of the eight
    extensions in any mix of upper and lower case.  A file named only
    [.jpg] and a file without extension are no images. *)
Theorem excel_images_by_extension (w : world) (recursive : bool) :
  sublist (iter_images w recursive) (if recursive then w_rglob w else w_iterdir w) /\
  forall f, f ∈ iter_images w recursive <->
            f ∈ (if recursive then w_rglob w else w_iterdir w) /\
            f_is_file f = true /\ image_name IMG_EXTS (Path.name (f_path f)).
Proof.
  assert (forall f, is_image f = true <->
            f_is_file f = true /\ image_name IMG_EXTS (Path.name (f_path f))) as His.
  { intros f. unfold is_image, Path.suffix. rewrite andb_true_iff, bool_decide_eq_true.
    by rewrite (suffix_accepted _ _ IMG_EXTS_shape). }
  unfold iter_images. destruct recursive.
  - split; [apply sublist_filter|]. intros f. rewrite list_elem_of_filter, His. tauto.
  - split; [apply sublist_filter|]. intros f. rewrite list_elem_of_filter, His. tauto.
Qed.

(** *** The description made from a file name *)

Lemma star_greedy_some (body : string -> Re.caps -> Re.cont -> option (string * Re.caps))
    (k : Re.cont) (fuel : nat) (s : string) (cs : Re.caps) :
  is_Some (k s cs) -> is_Some (Re.star_loop true body k fuel s cs).
Proof.
  intros [res Hk]. destruct fuel; cbn [Re.star_loop]; unfold Re.orelse.
  - rewrite Hk. eauto.
  - destruct (body s cs _); [eauto|]. rewrite Hk. eauto.
Qed.

(** [re.sub] with a pattern [[...]+] and a one-character replacement leaves
    none of the characters of the set. *)
Lemma sub_set_lacks (l : list ascii) (new c0 : ascii) (skip : nat) (s : string) :
  existsb (Ascii.eqb c0) l = true -> Re.is_cont c0 = false -> new <> c0 ->
  lacks c0 (Re.sub_go (Re.Cat (Re.Cat (Re.CharSet l) (Re.Star true (Re.CharSet l))) Re.Eps)
              [Re.TChr new] skip s) = true.
Proof.
  intros Hin Hcont Hnew. revert skip.
  induction s as [|c s IH]; intros skip.
  - destruct skip; reflexivity.
  - cbn [Re.sub_go]. destruct skip as [|k]; [|apply IH].
    unfold Re.match_here. cbn [Re.at_boundary Re.rmatch].
    assert (c = c0 -> negb (Re.is_cont c) = true /\ existsb (Ascii.eqb c) l = true) as Hc0.
    { intros ->. by rewrite Hcont. }
    assert (forall rest, lacks c0 rest = true -> c <> c0 -> lacks c0 (String c rest) = true)
      as Hcopy.
    { intros rest Hr Hne. cbn [lacks]. rewrite Hr.
      by destruct (Ascii.eqb_spec c c0). }
    destruct (negb (Re.is_cont c)) eqn:Hb.
    + destruct (existsb (Ascii.eqb c) l) eqn:Hl.
      * destruct (Re.star_loop true _ _ _ s ∅) as [[s' cs]|] eqn:Hstar.
        -- apply (ReFacts.rmatch_entered (Re.Star true (Re.CharSet l))) in Hstar
             as (s1 & cs1 & Hk & Hlen & _).
           cbn [Re.rmatch] in Hk. injection Hk as <- <-.
           cbn [String.length].
           destruct (S (String.length s) - String.length s1) as [|n] eqn:En; [lia|].
           cbn [Re.expand]. rewrite PyFacts.app_cons, PyFacts.app_empty_l.
           cbn [lacks]. rewrite IH.
           by destruct (Ascii.eqb_spec new c0).
        -- exfalso.
           pose proof (star_greedy_some (Re.rmatch (Re.CharSet l))
                         (fun s' cs' => Re.rmatch Re.Eps s' cs' (fun s'' cs'' => Some (s'', cs'')))
                         (String.length s) s ∅ ltac:(cbn; eauto)) as [res Hres].
           cbn [Re.rmatch] in Hres. congruence.
      * apply Hcopy; [apply IH|]. intros E. destruct (Hc0 E). congruence.
    + apply Hcopy; [apply IH|]. intros E. destruct (Hc0 E). congruence.
Qed.

Lemma lstrip_lacks (c0 : ascii) (s : string) : lacks c0 s = true -> lacks c0 (Py.lstrip s) = true.
Proof.
  induction s as [|c s IH]; [done|]. cbn [Py.lstrip]. destruct (Py.is_space c); [|done].
  cbn [lacks]. intros [_ H]%andb_prop. by apply IH.
Qed.

Lemma rstrip_lacks (c0 : ascii) (s : string) : lacks c0 s = true -> lacks c0 (Py.rstrip s) = true.
Proof.
  induction s as [|c s IH]; [done|]. cbn [Py.rstrip lacks]. intros [Hc H]%andb_prop.
  specialize (IH H). destruct (Py.rstrip s) as [|c' r].
  - destruct (Py.is_space c); [done|]. cbn [lacks]. by rewrite Hc.
  - cbn [lacks] in *. by rewrite Hc, IH.
Qed.

Lemma lstrip_head (s : string) (c : ascii) (r : string) :
  Py.lstrip s = String c r -> Py.is_space c = false.
Proof.
  induction s as [|a s IH]; [done|]. cbn [Py.lstrip].
  destruct (Py.is_space a) eqn:E; [done|]. by intros [= <- _].
Qed.

Lemma rstrip_cons (c : ascii) (s : string) :
  Py.is_space c = false -> Py.rstrip (String c s) = String c (Py.rstrip s).
Proof. intros H. cbn [Py.rstrip]. destruct (Py.rstrip s); by rewrite ?H. Qed.

Lemma rstrip_idem (s : string) : Py.rstrip (Py.rstrip s) = Py.rstrip s.
Proof.
  induction s as [|c s IH]; [done|]. cbn [Py.rstrip].
  destruct (Py.rstrip s) as [|c' r] eqn:E.
  - destruct (Py.is_space c) eqn:Hc; [done|]. cbn [Py.rstrip]. by rewrite Hc.
  - cbn [Py.rstrip]. cbn [Py.rstrip] in IH.
    destruct (Py.rstrip r) as [|c'' r'] eqn:E'.
    + destruct (Py.is_space c') eqn:Hc'; [done|]. injection IH as <-. done.
    + by rewrite IH.
Qed.

Lemma upper_char_space (c : ascii) : Py.is_space (upper_char c) = Py.is_space c.
Proof. destruct c as [[] [] [] [] [] [] [] []]; reflexivity. Qed.

Lemma upper_char_idem (c : ascii) : upper_char (upper_char c) = upper_char c.
Proof. destruct c as [[] [] [] [] [] [] [] []]; reflexivity. Qed.

Lemma upper_char_lacks (c c0 : ascii) :
  existsb (Ascii.eqb c0) ["_"; "-"]%char = true ->
  Ascii.eqb (upper_char c) c0 = Ascii.eqb c c0.
Proof.
  intros H. cbn [existsb] in H.
  destruct (Ascii.eqb_spec c0 "_") as [E|_].
  { rewrite E. clear. destruct c as [[] [] [] [] [] [] [] []]; reflexivity. }
  destruct (Ascii.eqb_spec c0 "-") as [E|_]; [|done].
  rewrite E. clear. destruct c as [[] [] [] [] [] [] [] []]; reflexivity.
Qed.

(** X11.  The description made from a file name holds no underscore and no
    hyphen, neither begins nor ends with white space, and does not begin
    with one of the letters [a] to [z]. *)
Theorem description_from_name (name : string) :
  let d := nice_desc_from_name name in
  lacks "_" d = true /\ lacks "-" d = true /\ Py.strip d = d /\
  forall c rest, d = String c rest -> upper_char c = c.
Proof.
  cbv zeta. unfold nice_desc_from_name.
  assert (Re.sub "[_\-]+" " " (Path.stem_of name) =
          Re.sub_go (Re.Cat (Re.Cat (Re.CharSet ["_"; "-"]%char)
                               (Re.Star true (Re.CharSet ["_"; "-"]%char))) Re.Eps)
            [Re.TChr " "] 0 (Path.stem_of name)) as -> by reflexivity.
  set (t := Re.sub_go _ _ 0 _).
  assert (lacks "_" t = true) as H1 by (apply sub_set_lacks; done).
  assert (lacks "-" t = true) as H2 by (apply sub_set_lacks; done).
  clearbody t. unfold Py.strip.
  apply lstrip_lacks in H1, H2.
  destruct (Py.lstrip t) as [|c r] eqn:E; [by repeat split|].
  apply lstrip_head in E. rewrite rstrip_cons by done.
  cbn [lacks] in H1, H2.
  apply andb_prop in H1 as [H1c H1], H2 as [H2c H2].
  apply rstrip_lacks in H1, H2.
  assert (Py.is_space (upper_char c) = false) as Hu by (by rewrite upper_char_space).
  split; [|split; [|split]].
  - cbn [lacks]. rewrite H1, upper_char_lacks by done. by rewrite H1c.
  - cbn [lacks]. rewrite H2, upper_char_lacks by done. by rewrite H2c.
  - cbn [Py.lstrip]. rewrite Hu. rewrite rstrip_cons by done. by rewrite rstrip_idem.
  - intros c' rest [= <- _]. apply upper_char_idem.
Qed.

(** *** The sort is stable *)

Lemma lex_leb_refl (a : list Z) : lex_leb a a = true.
Proof.
  induction a as [|x a IH]; [done|]. cbn [lex_leb]. rewrite Z.eqb_refl, IH.
  apply orb_true_r.
Qed.

Lemma insert_item_filter (d : datetime) (x : file * datetime) (l : list (file * datetime)) :
  filter (fun y => y.2 = d) (insert_item x l) =
  filter (fun y => y.2 = d) (x :: l).
Proof.
  induction l as [|y l IH]; [done|]. cbn [insert_item].
  destruct (leb x.2 y.2) eqn:E; [done|].
  assert (x.2 <> y.2) as Hne.
  { intros Exy. rewrite Exy in E. unfold leb in E. by rewrite lex_leb_refl in E. }
  rewrite filter_cons, IH, !filter_cons.
  destruct (decide (y.2 = d)) as [Hy|Hy]; destruct (decide (x.2 = d)) as [Hx|Hx];
    try done. congruence.
Qed.

(** X12.  Images with the same timestamp stay in the order in which the folder
    was listed: the sort by timestamp is stable. *)
Theorem same_timestamp_keeps_order (d : datetime) (items : list (file * datetime)) :
  filter (fun x => x.2 = d) (sort_items items) = filter (fun x => x.2 = d) items.
Proof.
  induction items as [|x items IH]; [done|].
  cbn [sort_items foldr]. fold (sort_items items).
  by rewrite insert_item_filter, !filter_cons, IH.
Qed.

(** *** A run over a folder *)




End MoreExcel.

(** * Further facts about [build_site] *)
Module MoreSite.

Import DT BuildSite SiteSpec More MoreFacts.

(** *** The columns of the sheet *)

Lemma colmap_snoc (columns : list string) (c : string) :
  colmap (columns ++ [c]) = <[normalize_colname c := c]> (colmap columns).
Proof. unfold colmap. by rewrite foldl_app. Qed.

(** The column found under a key is the last column with that key. *)
Lemma colmap_lookup (columns : list string) (k : string) :
  match colmap columns !! k with
  | Some c =>
      exists pre post, columns = pre ++ c :: post /\ normalize_colname c = k /\
                       Forall (fun c' => normalize_colname c' <> k) post
  | None => Forall (fun c' => normalize_colname c' <> k) columns
  end.
Proof.
  induction columns as [|c columns IH] using rev_ind.
  { unfold colmap. cbn [foldl]. rewrite lookup_empty. constructor. }
  rewrite colmap_snoc. destruct (decide (normalize_colname c = k)) as [<-|Hne].
  - rewrite lookup_insert_eq. exists columns, []. by repeat split.
  - rewrite lookup_insert_ne by done.
    destruct (colmap columns !! k) as [c0|].
    + destruct IH as (pre & post & -> & Hk & Hpost).
      exists pre, (post ++ [c]). rewrite <- app_assoc. split; [done|]. split; [done|].
      apply Forall_app. split; [done|]. by repeat constructor.
    + apply Forall_app. split; [done|]. by repeat constructor.
Qed.

(** X14.  The date column is a column of the sheet whose name is, up to case,
    white space, slashes, underscores and hyphens, [datumjahr], or [datum]
    when no column is named [datumjahr]; of several columns with the same
    normalised name the last one is taken.  There is no date column exactly
    when no column has one of the two names. *)
Theorem date_column_found (columns : list string) :
  match find_date_column columns with
  | Some c =>
      exists pre post, columns = pre ++ c :: post /\
        Forall (fun c' => normalize_colname c' <> normalize_colname c) post /\
        (normalize_colname c = "datumjahr" \/
         (normalize_colname c = "datum" /\
          Forall (fun c' => normalize_colname c' <> "datumjahr") columns))
  | None =>
      Forall (fun c => normalize_colname c <> "datumjahr" /\ normalize_colname c <> "datum")
             columns
  end.
Proof.
  unfold find_date_column. cbv zeta.
  pose proof (colmap_lookup columns "datumjahr") as H1.
  pose proof (colmap_lookup columns "datum") as H2.
  destruct (colmap columns !! "datumjahr") as [c|].
  - destruct H1 as (pre & post & -> & Hk & Hpost). exists pre, post.
    rewrite Hk. split; [done|]. split; [done|]. by left.
  - destruct (colmap columns !! "datum") as [c|].
    + destruct H2 as (pre & post & -> & Hk & Hpost). exists pre, post.
      rewrite Hk. split; [done|]. split; [done|]. by right.
    + rewrite Forall_forall in *. intros c Hc. split; [by apply H1|by apply H2].
Qed.

Lemma replace_keeps_lacks (c : ascii) (old : string) (skip : nat) (s : string) :
  lacks c s = true -> lacks c (Py.replace_go old "" skip s) = true.
Proof.
  revert skip. induction s as [|a s IH]; intros skip H; [done|].
  cbn [lacks] in H. apply andb_prop in H as [Ha Hs]. cbn [Py.replace_go].
  destruct skip as [|k]; [|by apply IH].
  destruct (Py.startswith old (String a s)).
  - rewrite PyFacts.app_empty_l. by apply IH.
  - cbn [lacks]. rewrite Ha. by apply IH.
Qed.

Lemma replace_char_lacks (c : ascii) (skip : nat) (s : string) :
  lacks c (Py.replace_go (String c "") "" skip s) = true.
Proof.
  revert skip. induction s as [|a s IH]; intros skip; [done|].
  cbn [Py.replace_go]. destruct skip as [|k]; [|apply IH].
  unfold Py.startswith. cbn [String.prefix].
  destruct (ascii_dec c a) as [->|Hne].
  - assert (String.prefix "" s = true) as -> by (by destruct s).
    rewrite PyFacts.app_empty_l. apply IH.
  - cbn [lacks]. rewrite IH. by destruct (Ascii.eqb_spec a c) as [->|].
Qed.

(** X15.  The normalised name of a column holds no space, no tab, no slash, no
    underscore and no hyphen: headers that differ from [bildname],
    [beschreibung], [text], [datumjahr] or [datum] in such characters or in
    the case of their letters only can still be found.  (A single
    backslash stays: the script removes pairs of backslashes only.) *)
Theorem normalized_column_name (name : string) :
  lacks " " (normalize_colname name) = true /\
  lacks (ascii_of_nat 9) (normalize_colname name) = true /\
  lacks "/" (normalize_colname name) = true /\
  lacks "_" (normalize_colname name) = true /\
  lacks "-" (normalize_colname name) = true /\
  normalize_colname ("a\b") = "a\b".
Proof.
  unfold normalize_colname at 1 2 3 4 5. cbn [foldl]. unfold Py.replace, Py.TAB.
  repeat split;
    repeat first [ apply replace_char_lacks | apply replace_keeps_lacks ].
Qed.

(** *** The checks before the first row *)

Section WithLibraries.

Variable fromtimestamp : Z -> datetime.
Variable pd_to_datetime : cell -> option datetime.

Lemma main_no_bildname (a : args) (w : world) (df : dataframe)
    (images : gmap string image) :
  w_xlsx w = Some df -> w_images w = Some images ->
  Forall (fun c => normalize_colname c <> "bildname") (df_columns df) ->
  main fromtimestamp pd_to_datetime a w =
    {| o_error := Some (ValueError "Excel muss die Spalte 'Bildname' enthalten.");
       o_cleared := true; o_writes := [] |}.
Proof.
  intros Hx Hi Hcols. unfold main. rewrite Hx, Hi. cbv zeta.
  pose proof (colmap_lookup (df_columns df) "bildname") as H.
  destruct (colmap (df_columns df) !! "bildname") as [c|]; [|done].
  destruct H as (pre & post & Hc & Hk & _). rewrite Hc in Hcols.
  apply Forall_app in Hcols as [_ Hcols]. by apply Forall_cons in Hcols as [? _].
Qed.

(** X16.  A sheet without a column whose normalised name is [bildname] ends the
    run with [ValueError]; by then the output directory has been removed,
    and nothing is written: what an earlier run left there is lost. *)
Theorem no_bildname_column (a : args) (w : world) (df : dataframe)
    (images : gmap string image) :
  w_xlsx w = Some df -> w_images w = Some images ->
  Forall (fun c => normalize_colname c <> "bildname") (df_columns df) ->
  main fromtimestamp pd_to_datetime a w =
    {| o_error := Some (ValueError "Excel muss die Spalte 'Bildname' enthalten.");
       o_cleared := true; o_writes := [] |} /\
  w_out (world_after w (main fromtimestamp pd_to_datetime a w)) = Some ∅.
Proof.
  intros Hx Hi Hcols. pose proof (main_no_bildname a w df images Hx Hi Hcols) as E.
  split; [done|]. by rewrite E.
Qed.

(** X17.  [build_site] does not read the sheet [build_excel_from_images] writes:
    the header of that sheet has the column [Bildernamen], the run looks for
    [Bildname], ends with [ValueError], and the output directory is gone. *)
Theorem site_rejects_excel_sheet (a : args) (w : world) (df : dataframe)
    (images : gmap string image) :
  w_xlsx w = Some df -> w_images w = Some images ->
  df_columns df = sheet_columns ->
  main fromtimestamp pd_to_datetime a w =
    {| o_error := Some (ValueError "Excel muss die Spalte 'Bildname' enthalten.");
       o_cleared := true; o_writes := [] |}.
Proof.
  intros Hx Hi Hcols. apply (main_no_bildname a w df images); [done|done|].
  rewrite Hcols. unfold sheet_columns.
  repeat constructor; by vm_compute.
Qed.

(** X18.  A cell that holds the four digits of a year does not take the branch
    for years: the pattern of that branch matches one text only, a
    backslash followed by [dddd], and on that text [int] raises
    [ValueError].  Every other cell that is not empty is handed to
    pandas. *)
Theorem year_branch_dead (val : cell) :
  safe_date_from_excel pd_to_datetime val =
  if isna val then Ok None
  else if bool_decide (Py.strip (str_cell val) = "\dddd") then Raise (ValueError "int")
  else Ok (pd_to_datetime val).
Proof.
  destruct (isna val) eqn:Hna.
  - rewrite SiteFacts.safe_date_ok; [by rewrite Hna|]. by rewrite Hna.
  - destruct (decide (Py.strip (str_cell val) = "\dddd")) as [E|Hne].
    + rewrite bool_decide_eq_true_2 by done. by apply SiteFacts.safe_date_raises.
    + rewrite bool_decide_eq_false_2 by done.
      rewrite SiteFacts.safe_date_ok; [by rewrite Hna|done].
Qed.


End WithLibraries.

Lemma no_bildname_column_witness :
  main Sample.clock Sample.pandas Sample.site_args
    {| w_xlsx := Some {| df_columns := ["Bild"; "Datum"]; df_rows := [] |};
       w_images := Some ∅; w_out := Some {[ "index.html" := Html "old" ]} |} =
    {| o_error := Some (ValueError "Excel muss die Spalte 'Bildname' enthalten.");
       o_cleared := true; o_writes := [] |} /\
  w_out (world_after
    {| w_xlsx := Some {| df_columns := ["Bild"; "Datum"]; df_rows := [] |};
       w_images := Some ∅; w_out := Some {[ "index.html" := Html "old" ]} |}
    (main Sample.clock Sample.pandas Sample.site_args
       {| w_xlsx := Some {| df_columns := ["Bild"; "Datum"]; df_rows := [] |};
          w_images := Some ∅; w_out := Some {[ "index.html" := Html "old" ]} |})) = Some ∅.
Proof.
  apply (no_bildname_column Sample.clock Sample.pandas Sample.site_args _
           {| df_columns := ["Bild"; "Datum"]; df_rows := [] |} ∅); try reflexivity.
  repeat constructor; by vm_compute.
Defined.

Lemma site_rejects_excel_sheet_witness :
  main Sample.clock Sample.pandas Sample.site_args
    {| w_xlsx := Some {| df_columns := sheet_columns;
                         df_rows := [[Str "001"; Str "a.jpg"; Str "2020-09-13 12:26:40";
                                      NaN; NaN]] |};
       w_images := Some {[ "a.jpg" := Sample.photo_a ]}; w_out := None |} =
    {| o_error := Some (ValueError "Excel muss die Spalte 'Bildname' enthalten.");
       o_cleared := true; o_writes := [] |}.
Proof.
  apply (site_rejects_excel_sheet Sample.clock Sample.pandas Sample.site_args _
           {| df_columns := sheet_columns;
              df_rows := [[Str "001"; Str "a.jpg"; Str "2020-09-13 12:26:40"; NaN; NaN]] |}
           {[ "a.jpg" := Sample.photo_a ]}); reflexivity.
Defined.


End MoreSite.

(** * The sheets of QR codes *)
Module MorePdf.

Import BuildSite Pdf More.

Lemma chunks_take {A} (k m : nat) (l : list A) :
  concat (map (fun j => take k (drop (j * k) l)) (seq 0 m)) = take (m * k) l.
Proof.
  induction m as [|m IH]; [done|].
  rewrite seq_S, map_app, concat_app, IH. cbn [map concat Nat.add]. rewrite app_nil_r.
  rewrite take_take_drop. f_equal. lia.
Qed.

Lemma range_step_chunks {A} (k : nat) (l : list A) :
  0 < k ->
  concat (map (fun i => take k (drop i l)) (range_step (length l) k)) = l.
Proof.
  intros Hk. unfold range_step. rewrite map_map, chunks_take.
  apply take_ge.
  pose proof (Nat.div_mod_eq (length l + k - 1) k) as E.
  pose proof (Nat.mod_upper_bound (length l + k - 1) k ltac:(lia)). nia.
Qed.

Lemma range_step_lt (stop step i : nat) :
  0 < step -> i ∈ range_step stop step -> i < stop.
Proof.
  intros Hk Hi. unfold range_step in Hi. apply list_elem_of_fmap in Hi as (j & -> & Hj).
  apply elem_of_seq in Hj.
  pose proof (Nat.div_mod_eq (stop + step - 1) step) as E.
  pose proof (Nat.mod_upper_bound (stop + step - 1) step ltac:(lia)). nia.
Qed.

Section WithFont.

Variable text_size : string -> Z * Z.

Lemma overview_place_num (idx : nat) (num : string) :
  q_num (overview_place text_size idx num) = num.
Proof. unfold overview_place. by destruct (text_size _). Qed.

Lemma overview_page_nums (l : list string) :
  map q_num (imap (overview_place text_size) l) = l.
Proof.
  apply list_eq. intros i. rewrite list_lookup_fmap, list_lookup_imap.
  destruct (l !! i); [|done]. cbn. by rewrite overview_place_num.
Qed.

(** X20.  The overview sheet holds every QR code that is there exactly once, in
    the order of the entries, fifteen to a page; only the last page may
    hold fewer, no page is empty, and without any QR code the sheet is one
    blank page. *)
Theorem overview_pages (qr_dir : string -> bool) (entries_meta : list entry) :
  let items := items_of qr_dir entries_meta in
  let pages := make_qr_overview_pdf text_size qr_dir entries_meta in
  concat (map (map q_num) pages) = items /\
  length pages = Nat.max 1 ((length items + 14) / 15) /\
  (forall k pg, pages !! k = Some pg ->
     map q_num pg = take 15 (drop (k * 15) items) /\
     length pg = Nat.min 15 (length items - k * 15)) /\
  (items <> [] -> Forall (fun pg => pg <> []) pages).
Proof.
  intros items pages.
  set (raw := map (fun i => imap (overview_place text_size) (take (3 * 5) (drop i items)))
                  (range_step (length items) (3 * 5))).
  assert (pages = match raw with [] => [[]] | _ :: _ => raw end) as Hpages by done.
  assert (concat (map (map q_num) raw) = items) as Hconcat.
  { unfold raw. rewrite map_map.
    rewrite (map_ext _ (fun i => take 15 (drop i items))).
    - apply (range_step_chunks 15). lia.
    - intros i. apply overview_page_nums. }
  assert (length raw = (length items + 14) / 15) as Hlen.
  { unfold raw, range_step. rewrite !length_map, length_seq. change (3 * 5) with 15.
    f_equal. lia. }
  assert (forall k pg, raw !! k = Some pg ->
            map q_num pg = take 15 (drop (k * 15) items) /\ k * 15 < length items) as Hraw.
  { intros k pg Hk. unfold raw in Hk. rewrite list_lookup_fmap in Hk.
    destruct (range_step (length items) (3 * 5) !! k) as [i|] eqn:Ei; [|done].
    cbn in Hk. injection Hk as <-.
    assert (i < length items) as Hi
      by (apply (range_step_lt _ 15); [lia|by eapply list_elem_of_lookup_2]).
    unfold range_step in Ei. rewrite list_lookup_fmap in Ei.
    destruct (seq 0 _ !! k) as [j|] eqn:Ej; [|done]. cbn in Ei. injection Ei as <-.
    apply lookup_seq in Ej as [-> _]. split; [apply overview_page_nums|done]. }
  clearbody raw pages items.
  destruct raw as [|pg0 raw'] eqn:Eraw.
  - assert (items = []) as Hitems by (by rewrite <- Hconcat).
    rewrite Hpages, Hitems. cbn. split; [done|]. split; [done|]. split; [|done].
    intros k pg1 Hk. destruct k as [|k]; cbn in Hk; [by injection Hk as <-|done].
  - rewrite Hpages. split; [done|]. split.
    { cbn [length] in *. rewrite <- Hlen. symmetry. apply Nat.max_r. lia. }
    split.
    + intros k pg Hk. destruct (Hraw k pg Hk) as [Hnums Hlt]. split; [done|].
      rewrite <- (length_map q_num), Hnums, length_take, length_drop. done.
    + intros _. apply Forall_forall. intros pg Hpg.
      apply list_elem_of_lookup in Hpg as [k Hk]. destruct (Hraw k pg Hk) as [Hnums Hlt].
      intros ->. cbn [map] in Hnums. symmetry in Hnums.
      apply (f_equal length) in Hnums. rewrite length_take, length_drop in Hnums.
      cbn [length] in Hnums. lia.
Qed.

Lemma overview_place_xy (idx : nat) (num : string) :
  let q := overview_place text_size idx num in
  (q_x q = 196 + (Z.of_nat idx mod 3) * 760 /\
   q_y q = 117 + (Z.of_nat idx / 3) * 661 /\
   q_side q = 567 /\
   q_label q = Some ("Eintrag " +:+ num,
                     100 + (Z.of_nat idx mod 3) * 760 +
                       (760 - (text_size ("Eintrag " +:+ num)).1) / 2,
                     100 + (Z.of_nat idx / 3) * 661 + 661 - 59 +
                       (59 - (text_size ("Eintrag " +:+ num)).2) / 2))%Z.
Proof.
  unfold overview_place. destruct (text_size _) as [tw th]. cbn [q_x q_y q_side q_label fst snd].
  change (mm_to_px 5) with 59%Z. change (mm_to_px 3) with 35%Z.
  change ((A4_W - 2 * 100) / 3)%Z with 760%Z. change ((A4_H - 2 * 100) / 5)%Z with 661%Z.
  change (Z.max 10 (Z.min 760 (661 - 59) - 35)) with 567%Z.
  change ((760 - 567) / 2)%Z with 96%Z. change ((661 - 59 - 567) / 2)%Z with 17%Z.
  repeat split; lia.
Qed.

Lemma overview_page_shape (qr_dir : string -> bool) (entries_meta : list entry) (pg : page) :
  pg ∈ make_qr_overview_pdf text_size qr_dir entries_meta ->
  exists l, pg = imap (overview_place text_size) l /\ length l <= 15.
Proof.
  unfold make_qr_overview_pdf. cbv zeta.
  set (raw := map _ _). intros Hpg.
  assert (forall pg', pg' ∈ raw ->
            exists l, pg' = imap (overview_place text_size) l /\ length l <= 15) as Hraw.
  { intros pg' H. unfold raw in H. apply list_elem_of_fmap in H as (i & -> & _).
    eexists. split; [done|]. rewrite length_take. lia. }
  destruct raw as [|pg0 raw'].
  - apply list_elem_of_singleton in Hpg as ->. exists []. split; [done|cbn; lia].
  - by apply Hraw.
Qed.

(** X21.  On every page of the overview the squares of the QR codes lie on the
    A4 page and no two of them overlap; the label of a code begins below
    its square when the text is not higher than the space left for it. *)
Theorem overview_layout (qr_dir : string -> bool) (entries_meta : list entry) (pg : page) :
  (forall s, (text_size s).2 <= 59)%Z ->
  pg ∈ make_qr_overview_pdf text_size qr_dir entries_meta ->
  Forall on_page pg /\ Forall label_below pg /\
  forall i j p q, pg !! i = Some p -> pg !! j = Some q -> i <> j -> apart p q.
Proof.
  intros Hth Hpg. apply overview_page_shape in Hpg as (l & -> & Hl).
  assert (forall i p, imap (overview_place text_size) l !! i = Some p ->
            exists num, i < 15 /\ p = overview_place text_size i num) as Hat.
  { intros i p Hi. rewrite list_lookup_imap in Hi.
    destruct (l !! i) as [num|] eqn:E; [|done]. apply lookup_lt_Some in E.
    injection Hi as <-. exists num. split; [lia|done]. }
  split; [|split].
  - apply Forall_forall. intros p Hp. apply list_elem_of_lookup in Hp as [i Hi].
    apply Hat in Hi as (num & Hi & ->).
    destruct (overview_place_xy i num) as (Hx & Hy & Hs & _).
    unfold on_page. rewrite Hx, Hy, Hs. unfold A4_W, A4_H.
    pose proof (Z.mod_pos_bound (Z.of_nat i) 3 ltac:(lia)).
    pose proof (Z.div_mod (Z.of_nat i) 3 ltac:(lia)). lia.
  - apply Forall_forall. intros p Hp. apply list_elem_of_lookup in Hp as [i Hi].
    apply Hat in Hi as (num & Hi & ->).
    destruct (overview_place_xy i num) as (Hx & Hy & Hs & Hlab).
    unfold label_below. rewrite Hlab, Hy, Hs.
    specialize (Hth ("Eintrag " +:+ num)).
    pose proof (Z.div_mod (59 - (text_size ("Eintrag " +:+ num)).2) 2 ltac:(lia)).
    pose proof (Z.mod_pos_bound (59 - (text_size ("Eintrag " +:+ num)).2) 2 ltac:(lia)).
    lia.
  - intros i j p q Hi Hj Hne.
    apply Hat in Hi as (ni & Hi & ->). apply Hat in Hj as (nj & Hj & ->).
    destruct (overview_place_xy i ni) as (Hx & Hy & Hs & _).
    destruct (overview_place_xy j nj) as (Hx' & Hy' & Hs' & _).
    unfold apart. rewrite Hx, Hy, Hs, Hx', Hy', Hs'.
    pose proof (Z.mod_pos_bound (Z.of_nat i) 3 ltac:(lia)).
    pose proof (Z.div_mod (Z.of_nat i) 3 ltac:(lia)).
    pose proof (Z.mod_pos_bound (Z.of_nat j) 3 ltac:(lia)).
    pose proof (Z.div_mod (Z.of_nat j) 3 ltac:(lia)). lia.
Qed.

(** *** The sheet of labels *)

Lemma zip_with_app_drop {A B C} (f : A -> B -> C) (l1 l2 : list A) (k : list B) :
  zip_with f (l1 ++ l2) k = zip_with f l1 k ++ zip_with f l2 (drop (length l1) k).
Proof.
  revert k. induction l1 as [|x l1 IH]; intros k; [done|].
  destruct k as [|y k]; cbn [app zip_with length drop].
  - by destruct l2.
  - by rewrite IH.
Qed.

Lemma cols_loop_spec (a : label_args) (items : list string) (r : Z) (cs : list Z)
    (i : nat) (pg : page) :
  cols_loop text_size a items r cs i pg =
  (i + Nat.min (length cs) (length items - i),
   pg ++ zip_with (label_place text_size a r) cs (drop i items)).
Proof.
  revert i pg. induction cs as [|c cs IH]; intros i pg; cbn [cols_loop length].
  - cbn [Nat.min zip_with]. by rewrite Nat.add_0_r, app_nil_r.
  - destruct (items !! i) as [num|] eqn:E.
    + rewrite IH. rewrite (drop_S _ _ _ E). cbn [zip_with].
      apply lookup_lt_Some in E. rewrite <- app_assoc. cbn [app]. f_equal. lia.
    + apply lookup_ge_None in E. rewrite drop_ge by done. cbn [zip_with].
      rewrite app_nil_r. f_equal. lia.
Qed.

(** The cells of a page in the order in which the loops fill them. *)
Lemma rows_loop_spec (a : label_args) (items : list string) (rs : list Z)
    (i : nat) (pg : page) :
  rows_loop text_size a items rs i pg =
  (i + Nat.min (length rs * length (range (l_cols a))) (length items - i),
   pg ++ zip_with (fun rc => label_place text_size a rc.1 rc.2)
           (list_prod rs (range (l_cols a))) (drop i items)).
Proof.
  revert i pg. induction rs as [|r rs IH]; intros i pg; cbn [rows_loop length list_prod].
  - cbn [Nat.mul Nat.min zip_with]. by rewrite Nat.add_0_r, app_nil_r.
  - rewrite cols_loop_spec, IH. rewrite zip_with_app_drop, length_map, drop_drop.
    rewrite zip_with_fmap_l. cbn [fst snd]. rewrite <- app_assoc.
    set (C := length (range (l_cols a))).
    destruct (decide (C <= length items - i)) as [Hle|Hgt].
    + rewrite (Nat.min_l C) by done. f_equal. nia.
    + rewrite (Nat.min_r C) by lia.
      rewrite (drop_ge items (i + (length items - i))) by lia.
      rewrite (drop_ge items (i + C)) by lia.
      f_equal. nia.
Qed.

Lemma label_place_num (a : label_args) (r c : Z) (num : string) :
  q_num (label_place text_size a r c num) = num.
Proof. done. Qed.

Lemma label_page_nums (a : label_args) (cells : list (Z * Z)) (l : list string) :
  map q_num (zip_with (fun rc => label_place text_size a rc.1 rc.2) cells l) =
  take (length cells) l.
Proof.
  revert l. induction cells as [|rc cells IH]; intros [|num l]; cbn; try done.
  by rewrite IH.
Qed.

Lemma rows_loop_page (a : label_args) (items : list string) (i : nat) :
  rows_loop text_size a items (range (l_rows a)) i [] =
  (i + Nat.min (length (list_prod (range (l_rows a)) (range (l_cols a)))) (length items - i),
   label_page text_size a items i).
Proof. rewrite rows_loop_spec. by rewrite length_prod. Qed.

(** With no cell on a page the loop of line 194 gets nowhere. *)
Lemma pages_loop_stuck (a : label_args) (items : list string) (i : nat) :
  list_prod (range (l_rows a)) (range (l_cols a)) = [] -> i < length items ->
  forall fuel pages, pages_loop text_size fuel a items i pages = None.
Proof.
  intros Hcells Hi fuel. induction fuel as [|fuel IH]; intros pages; [done|].
  cbn [pages_loop]. apply Nat.ltb_lt in Hi as Hi'. rewrite Hi'.
  rewrite rows_loop_page, Hcells. cbn [length Nat.min]. rewrite Nat.add_0_r. apply IH.
Qed.

Lemma pages_loop_ok (a : label_args) (items : list string) :
  list_prod (range (l_rows a)) (range (l_cols a)) <> [] ->
  forall n i, length items - i <= n ->
  exists new,
    (forall fuel pages, length items - i < fuel ->
       pages_loop text_size fuel a items i pages = Some (pages ++ new)) /\
    concat (map (map q_num) new) = drop i items /\
    (i < length items -> new <> []) /\
    Forall (fun pg => pg <> [] /\ exists i0, pg = label_page text_size a items i0) new.
Proof.
  intros Hcells. set (N := length (list_prod (range (l_rows a)) (range (l_cols a)))).
  assert (0 < N) as HN.
  { unfold N. destruct (list_prod _ _); [done|cbn; lia]. }
  induction n as [|n IH]; intros i Hn.
  - exists []. split; [|split; [|split]].
    + intros [|fuel] pages Hf; [lia|]. cbn [pages_loop].
      assert ((i <? length items) = false) as -> by (apply Nat.ltb_ge; lia).
      by rewrite app_nil_r.
    + rewrite drop_ge by lia. done.
    + lia.
    + constructor.
  - destruct (decide (i < length items)) as [Hi|Hi]; [|apply IH; lia].
    set (i' := i + Nat.min N (length items - i)).
    destruct (IH i' ltac:(lia)) as (new & Hrun & Hcat & _ & Hall).
    exists (label_page text_size a items i :: new). split; [|split; [|split]].
    + intros [|fuel] pages Hf; [lia|]. cbn [pages_loop].
      apply Nat.ltb_lt in Hi as Hi'. rewrite Hi', rows_loop_page. fold N. fold i'.
      rewrite (Hrun fuel (pages ++ [label_page text_size a items i])) by lia.
      by rewrite <- app_assoc.
    + cbn [map concat]. rewrite Hcat. unfold label_page. rewrite label_page_nums. fold N.
      rewrite <- (take_drop N (drop i items)) at 2. f_equal. rewrite drop_drop.
      unfold i'. destruct (decide (N <= length items - i)).
      * by rewrite Nat.min_l.
      * rewrite Nat.min_r by lia. by rewrite !drop_ge by lia.
    + done.
    + constructor; [|done]. split; [|by exists i].
      intros E. apply (f_equal (map q_num)) in E. unfold label_page in E.
      rewrite label_page_nums in E. fold N in E. cbn [map] in E.
      apply (f_equal length) in E. rewrite length_take, length_drop in E.
      cbn [length] in E. lia.
Qed.

Lemma range_length (n : Z) : length (range n) = Z.to_nat n.
Proof. unfold range. by rewrite length_map, length_seq. Qed.

Lemma range_elem (n z : Z) : z ∈ range n <-> (0 <= z < n)%Z.
Proof.
  unfold range. rewrite list_elem_of_fmap. split.
  - intros (k & -> & Hk). apply elem_of_seq in Hk. lia.
  - intros H. exists (Z.to_nat z). split; [lia|]. apply elem_of_seq. lia.
Qed.

Lemma range_NoDup (n : Z) : NoDup (range n).
Proof. unfold range. apply NoDup_fmap_2; [apply Nat2Z.inj'|apply NoDup_seq]. Qed.

Lemma cells_nil (a : label_args) :
  list_prod (range (l_rows a)) (range (l_cols a)) = [] <->
  (l_rows a <= 0 \/ l_cols a <= 0)%Z.
Proof.
  rewrite <- length_zero_iff_nil, length_prod, !range_length. nia.
Qed.

(** X22.  With at least one row and one column the sheet of labels is built:
    the loop ends, and the pages hold every QR code that is there exactly
    once, in the order of the entries, [rows * cols] to a page; no page is
    empty, and without any QR code the sheet is one blank page. *)
Theorem labels_pages (qr_dir : string -> bool) (entries_meta : list entry) (a : label_args) :
  (1 <= l_rows a)%Z -> (1 <= l_cols a)%Z ->
  let items := items_of qr_dir entries_meta in
  exists pages,
    (forall fuel, length items < fuel ->
       make_labels_pdf text_size fuel qr_dir entries_meta a = Some pages) /\
    concat (map (map q_num) pages) = items /\
    pages <> [] /\
    Forall (fun pg => length pg <= Z.to_nat (l_rows a * l_cols a)) pages /\
    (items = [] -> pages = [[]]) /\
    (items <> [] -> Forall (fun pg => pg <> []) pages).
Proof.
  intros Hr Hc items.
  assert (list_prod (range (l_rows a)) (range (l_cols a)) <> []) as Hcells.
  { rewrite cells_nil. lia. }
  destruct (pages_loop_ok a items Hcells (length items) 0 ltac:(lia))
    as (new & Hrun & Hcat & Hne & Hall).
  rewrite drop_0 in Hcat.
  assert (Forall (fun pg : page => length pg <= Z.to_nat (l_rows a * l_cols a)) new) as Hlen.
  { eapply Forall_impl; [exact Hall|]. intros pg [_ [i0 ->]].
    rewrite <- (length_map q_num). unfold label_page. rewrite label_page_nums, length_take.
    rewrite length_prod, !range_length. nia. }
  exists (match new with [] => [[]] | _ :: _ => new end).
  split; [|split; [|split; [|split; [|split]]]].
  - intros fuel Hf. unfold make_labels_pdf. fold items.
    rewrite (Hrun fuel []) by lia. done.
  - destruct new; [|done]. by rewrite <- Hcat.
  - by destruct new.
  - destruct new; [|done]. repeat constructor. cbn. lia.
  - intros Hitems. destruct new as [|pg new]; [done|]. exfalso.
    apply Forall_cons in Hall as [[Hpg _] _]. rewrite Hitems in Hcat.
    cbn [map concat] in Hcat. apply app_eq_nil in Hcat as [Hcat _].
    by apply map_eq_nil in Hcat.
  - intros Hitems. destruct new as [|pg new].
    + by rewrite <- Hcat in Hitems.
    + eapply Forall_impl; [exact Hall|]. by intros ? [? _].
Qed.

(** X23.  With [--rows 0] or [--cols 0] (or less) and at least one QR code the
    sheet of labels is never finished: every round of the loop of line 194
    adds a blank page and places nothing, so no number of rounds ends the
    loop (the run goes on until the memory for the pages is used up). *)
Theorem labels_never_end (qr_dir : string -> bool) (entries_meta : list entry)
    (a : label_args) :
  (l_rows a <= 0 \/ l_cols a <= 0)%Z ->
  items_of qr_dir entries_meta <> [] ->
  forall fuel, make_labels_pdf text_size fuel qr_dir entries_meta a = None.
Proof.
  intros Hrc Hitems fuel. unfold make_labels_pdf.
  rewrite pages_loop_stuck; [done| |].
  - by apply cells_nil.
  - destruct (items_of qr_dir entries_meta); [done|cbn; lia].
Qed.

Lemma pages_loop_inv (a : label_args) (items : list string) (fuel : nat) :
  forall i pages r,
    pages_loop text_size fuel a items i pages = Some r ->
    exists new, r = pages ++ new /\ Forall (fun pg => exists i0, pg = label_page text_size a items i0) new.
Proof.
  induction fuel as [|fuel IH]; intros i pages r H; [done|].
  cbn [pages_loop] in H. destruct (i <? length items).
  - rewrite rows_loop_page in H. apply IH in H as (new & -> & Hall).
    exists (label_page text_size a items i :: new). rewrite <- app_assoc. split; [done|].
    constructor; [by exists i|done].
  - injection H as <-. exists []. by rewrite app_nil_r.
Qed.

Lemma list_prod_NoDup {A B} (l : list A) (k : list B) :
  NoDup l -> NoDup k -> NoDup (list_prod l k).
Proof.
  intros Hl Hk. induction Hl as [|x l Hx Hl IH]; cbn [list_prod]; [constructor|].
  apply NoDup_app. split; [|split; [|done]].
  - apply NoDup_fmap_2; [|done]. by intros ? ? [= ->].
  - intros [x' y] H1 H2. apply list_elem_of_fmap in H1 as (y' & [= -> ->] & _).
    apply list_elem_of_In, in_prod_iff in H2 as [H2 _]. by apply list_elem_of_In in H2.
Qed.

Lemma label_place_xy (a : label_args) (r c : Z) (num : string) :
  let q := label_place text_size a r c num in
  (q_x q = l_ml a + c * (531 + l_hg a) + (if l_include_labels a then 47 else 17) /\
   q_y q = l_mt a + r * (531 + l_vg a) + 17 /\
   q_side q = (if l_include_labels a then 437 else 496) /\
   q_label q =
     if l_include_labels a
     then Some ("Eintrag " +:+ num,
                l_ml a + c * (531 + l_hg a) + (531 - (text_size ("Eintrag " +:+ num)).1) / 2,
                l_mt a + r * (531 + l_vg a) + 531 - 59 +
                  (59 - (text_size ("Eintrag " +:+ num)).2) / 2)
     else None)%Z.
Proof.
  unfold label_place. cbn [q_x q_y q_side q_label].
  change (mm_to_px 45) with 531%Z. change (mm_to_px 5) with 59%Z.
  change (mm_to_px 3) with 35%Z.
  destruct (l_include_labels a).
  - destruct (text_size _) as [tw th]. cbn [fst snd].
    change (Z.max 10 (Z.min 531 (531 - 59) - 35)) with 437%Z.
    change ((531 - 437) / 2)%Z with 47%Z. change ((531 - 59 - 437) / 2)%Z with 17%Z.
    repeat split; lia.
  - change (Z.max 10 (Z.min 531 (531 - 0) - 35)) with 496%Z.
    change ((531 - 496) / 2)%Z with 17%Z. change ((531 - 0 - 496) / 2)%Z with 17%Z.
    repeat split; lia.
Qed.

(** X24.  When the margins and gaps are not negative and the grid of [rows] by
    [cols] cells of 45 mm fits on the A4 page, the squares of the QR codes
    of every page of the sheet of labels lie on the page and no two of them
    overlap; the label of a code begins below its square when the text is
    not higher than the space left for it.  Nothing in the script checks
    that the grid fits. *)
Theorem labels_layout (qr_dir : string -> bool) (entries_meta : list entry) (a : label_args)
    (fuel : nat) (pages : list page) (pg : page) :
  (0 <= l_ml a)%Z -> (0 <= l_mt a)%Z -> (0 <= l_hg a)%Z -> (0 <= l_vg a)%Z ->
  (l_ml a + l_cols a * (mm_to_px 45 + l_hg a) <= A4_W + l_hg a)%Z ->
  (l_mt a + l_rows a * (mm_to_px 45 + l_vg a) <= A4_H + l_vg a)%Z ->
  (forall s, (text_size s).2 <= 59)%Z ->
  make_labels_pdf text_size fuel qr_dir entries_meta a = Some pages ->
  pg ∈ pages ->
  Forall on_page pg /\ Forall label_below pg /\
  forall i j p q, pg !! i = Some p -> pg !! j = Some q -> i <> j -> apart p q.
Proof.
  change (mm_to_px 45) with 531%Z. unfold A4_W, A4_H.
  intros Hml Hmt Hhg Hvg Hw Hh Hth Hrun Hpg.
  unfold make_labels_pdf in Hrun.
  destruct (pages_loop text_size fuel a _ 0 []) as [r|] eqn:E; [|done].
  cbn [mbind option_bind] in Hrun. injection Hrun as <-.
  apply pages_loop_inv in E as (new & -> & Hall). cbn [app] in Hpg.
  assert (pg = [] \/ exists i0, pg = label_page text_size a (items_of qr_dir entries_meta) i0) as Hshape.
  { destruct new as [|pg0 new].
    - left. by apply list_elem_of_singleton in Hpg.
    - right. rewrite Forall_forall in Hall. by apply Hall. }
  destruct Hshape as [->|[i0 ->]].
  { split; [constructor|]. split; [constructor|]. intros i j p q Hi. done. }
  set (cells := list_prod (range (l_rows a)) (range (l_cols a))).
  assert (forall i p, label_page text_size a (items_of qr_dir entries_meta) i0 !! i = Some p ->
            exists r c num, cells !! i = Some (r, c) /\
              (0 <= r < l_rows a)%Z /\ (0 <= c < l_cols a)%Z /\
              p = label_place text_size a r c num) as Hat.
  { intros i p Hi. unfold label_page in Hi.
    apply lookup_zip_with_Some in Hi as ([r c] & num & -> & Hc & _).
    exists r, c, num. split; [done|].
    apply list_elem_of_lookup_2, list_elem_of_In, in_prod_iff in Hc as [Hr Hc].
    apply list_elem_of_In, range_elem in Hr. apply list_elem_of_In, range_elem in Hc.
    done. }
  assert (NoDup cells) as Hnd by (apply list_prod_NoDup; apply range_NoDup).
  split; [|split].
  - apply Forall_forall. intros p Hp. apply list_elem_of_lookup in Hp as [i Hi].
    apply Hat in Hi as (r & c & num & _ & Hr & Hc & ->).
    destruct (label_place_xy a r c num) as (Hx & Hy & Hs & _).
    unfold on_page, A4_W, A4_H. rewrite Hx, Hy, Hs.
    assert (c * (531 + l_hg a) <= (l_cols a - 1) * (531 + l_hg a))%Z by nia.
    assert (r * (531 + l_vg a) <= (l_rows a - 1) * (531 + l_vg a))%Z by nia.
    assert (0 <= c * (531 + l_hg a))%Z by nia.
    assert (0 <= r * (531 + l_vg a))%Z by nia.
    destruct (l_include_labels a); lia.
  - apply Forall_forall. intros p Hp. apply list_elem_of_lookup in Hp as [i Hi].
    apply Hat in Hi as (r & c & num & _ & Hr & Hc & ->).
    destruct (label_place_xy a r c num) as (Hx & Hy & Hs & Hlab).
    unfold label_below. rewrite Hlab, Hy, Hs.
    destruct (l_include_labels a); [|done].
    specialize (Hth ("Eintrag " +:+ num)).
    pose proof (Z.div_mod (59 - (text_size ("Eintrag " +:+ num)).2) 2 ltac:(lia)).
    pose proof (Z.mod_pos_bound (59 - (text_size ("Eintrag " +:+ num)).2) 2 ltac:(lia)).
    lia.
  - intros i j p q Hi Hj Hne.
    apply Hat in Hi as (r & c & ni & Hci & Hr & Hc & ->).
    apply Hat in Hj as (r' & c' & nj & Hcj & Hr' & Hc' & ->).
    assert ((r, c) <> (r', c')) as Hcell.
    { intros E. rewrite <- E in Hcj. by pose proof (NoDup_lookup _ _ _ _ Hnd Hci Hcj). }
    destruct (label_place_xy a r c ni) as (Hx & Hy & Hs & _).
    destruct (label_place_xy a r' c' nj) as (Hx' & Hy' & Hs' & _).
    unfold apart. rewrite Hx, Hy, Hs, Hx', Hy', Hs'.
    assert (c = c' -> r = r' -> False) as Hrc by (intros -> ->; done).
    assert (c < c' -> c * (531 + l_hg a) + (531 + l_hg a) <= c' * (531 + l_hg a))%Z by nia.
    assert (c' < c -> c' * (531 + l_hg a) + (531 + l_hg a) <= c * (531 + l_hg a))%Z by nia.
    assert (r < r' -> r * (531 + l_vg a) + (531 + l_vg a) <= r' * (531 + l_vg a))%Z by nia.
    assert (r' < r -> r' * (531 + l_vg a) + (531 + l_vg a) <= r * (531 + l_vg a))%Z by nia.
    destruct (l_include_labels a); lia.
Qed.

End WithFont.

Lemma overview_layout_witness :
  let pg := imap (overview_place plain_font) ["016"; "017"] in
  Forall on_page pg /\ Forall label_below pg /\
  forall i j p q, pg !! i = Some p -> pg !! j = Some q -> i <> j -> apart p q.
Proof.
  apply (overview_layout plain_font (fun _ => true) (entries_upto 17)).
  - intros s. cbn. lia.
  - apply (list_elem_of_lookup_2 _ 1). vm_compute. reflexivity.
Defined.

Lemma labels_pages_witness :
  let items := items_of (fun _ => true) (entries_upto 30) in
  exists pages,
    (forall fuel, length items < fuel ->
       make_labels_pdf plain_font fuel (fun _ => true) (entries_upto 30) default_labels =
       Some pages) /\
    concat (map (map q_num) pages) = items /\
    pages <> [] /\
    Forall (fun pg => length pg <= Z.to_nat (l_rows default_labels * l_cols default_labels))
           pages /\
    (items = [] -> pages = [[]]) /\
    (items <> [] -> Forall (fun pg => pg <> []) pages).
Proof.
  apply (labels_pages plain_font (fun _ => true) (entries_upto 30) default_labels).
  - vm_compute. discriminate.
  - vm_compute. discriminate.
Defined.

Lemma labels_never_end_witness :
  make_labels_pdf plain_font 1000 (fun _ => true) (entries_upto 1)
    {| l_cols := 0; l_rows := 6; l_ml := 94; l_mt := 94; l_hg := 35; l_vg := 35;
       l_include_labels := true |} = None.
Proof.
  apply (labels_never_end plain_font (fun _ => true) (entries_upto 1)
           {| l_cols := 0; l_rows := 6; l_ml := 94; l_mt := 94; l_hg := 35; l_vg := 35;
              l_include_labels := true |}).
  - right. cbn. lia.
  - vm_compute. discriminate.
Defined.

Lemma labels_layout_witness :
  let pg := label_page plain_font default_labels
              (items_of (fun _ => true) (entries_upto 30)) 24 in
  Forall on_page pg /\ Forall label_below pg /\
  forall i j p q, pg !! i = Some p -> pg !! j = Some q -> i <> j -> apart p q.
Proof.
  apply (labels_layout plain_font (fun _ => true) (entries_upto 30) default_labels 31
           [label_page plain_font default_labels
              (items_of (fun _ => true) (entries_upto 30)) 0;
            label_page plain_font default_labels
              (items_of (fun _ => true) (entries_upto 30)) 24]).
  - vm_compute. discriminate.
  - vm_compute. discriminate.
  - vm_compute. discriminate.
  - vm_compute. discriminate.
  - vm_compute. discriminate.
  - vm_compute. discriminate.
  - intros s. cbn. lia.
  - vm_compute. reflexivity.
  - apply (list_elem_of_lookup_2 _ 1). reflexivity.
Defined.

End MorePdf.
